(** * YeluYelu bird catalogue server (server.js): a shallow embedding

    The development follows [src/server.js]: the record store kept in the
    global [birds] array and mirrored to [data.json], the per-IP sliding
    window rate limiter, the operation logger and the Express routes that
    compose them.

    Modelling conventions.
    - A JavaScript string is a [string]; every [ascii] stands for one UTF-16
      code unit in the range 0..255, so [String.length] is [.length].
    - A [Date] is its [getTime()] value, an integer number of milliseconds,
      held in [Z].  [toISOString] followed by [new Date(...)] is the identity
      on such values, so the persisted timestamps are kept as numbers.
    - JavaScript numbers that the server handles are integers (page numbers,
      ids from [Date.now()], lengths); they are modelled in [Z].  The model
      is exact below 2^53.
    - File system operations succeed; a file is modelled by its content. *)

From Stdlib Require Import ZArith List Bool Ascii String Lia Sorted.
Import ListNotations.

Local Open Scope string_scope.
Local Open Scope Z_scope.

(** ** JavaScript built-ins used by the server *)

Definition code (c : ascii) : Z := Z.of_N (N_of_ascii c).

Definition inRange (lo hi : Z) (c : ascii) : bool :=
  (lo <=? code c) && (code c <=? hi).

(** [String.prototype.toLowerCase] on the code units 0..255: the ASCII capitals
    and the Latin-1 capitals U+00C0..U+00DE (U+00D7, the multiplication sign,
    has no case) move up by 32; everything else is unchanged. *)
Definition toLowerChar (c : ascii) : ascii :=
  if inRange 65 90 c || (inRange 192 222 c && negb (code c =? 215))
  then ascii_of_N (N_of_ascii c + 32)
  else c.

Fixpoint toLowerCase (s : string) : string :=
  match s with
  | EmptyString => EmptyString
  | String c r => String (toLowerChar c) (toLowerCase r)
  end.

(** [s.includes(t)]: [t] occurs in [s] as a contiguous run of code units. *)
Fixpoint includes (s t : string) : bool :=
  prefix t s ||
  match s with
  | EmptyString => false
  | String _ r => includes r t
  end.

(** White space skipped by [parseInt] (StrWhiteSpaceChar below U+0100). *)
Definition isWhiteSpace (c : ascii) : bool :=
  inRange 9 13 c || (code c =? 32) || (code c =? 160).

Fixpoint trimStart (s : string) : string :=
  match s with
  | String c r => if isWhiteSpace c then trimStart r else s
  | EmptyString => EmptyString
  end.

Definition digitValue (c : ascii) : option Z :=
  if inRange 48 57 c then Some (code c - 48)
  else if inRange 97 122 c then Some (code c - 87)
  else if inRange 65 90 c then Some (code c - 55)
  else None.

Definition isDigitOf (radix : Z) (c : ascii) : bool :=
  match digitValue c with
  | Some d => d <? radix
  | None => false
  end.

Definition accValue (acc : option Z) : Z :=
  match acc with
  | Some a => a
  | None => 0
  end.

(** The longest prefix of radix-[radix] digits, read left to right, and what
    follows it; [acc] is [None] until a first digit has been seen. *)
Fixpoint parseDigits (radix : Z) (s : string) (acc : option Z)
  : option Z * string :=
  match s with
  | EmptyString => (acc, s)
  | String c r =>
      if isDigitOf radix c
      then parseDigits radix r
             (Some (radix * accValue acc
                    + match digitValue c with Some d => d | None => 0 end))
      else (acc, s)
  end.

Fixpoint stripPrefix (p s : string) : option string :=
  match p, s with
  | EmptyString, _ => Some s
  | String a p', String b s' => if Ascii.eqb a b then stripPrefix p' s' else None
  | String _ _, EmptyString => None
  end.

(** [parseInt(s)] with no radix argument; [None] is NaN.  The integer is
    exact here; JavaScript returns the same number while it is below 2^53 in
    absolute value, and its rounding to a double from there on. *)
Definition parseInt (s : string) : option Z :=
  let s1 := trimStart s in
  let '(sign, s2) :=
    match stripPrefix "-" s1 with
    | Some r => (-1, r)
    | None =>
        match stripPrefix "+" s1 with
        | Some r => (1, r)
        | None => (1, s1)
        end
    end in
  let '(radix, s3) :=
    match stripPrefix "0x" s2 with
    | Some r => (16, r)
    | None =>
        match stripPrefix "0X" s2 with
        | Some r => (16, r)
        | None => (10, s2)
        end
    end in
  option_map (Z.mul sign) (fst (parseDigits radix s3 None)).

(** [Array.prototype.slice(start, end)]: a negative index counts from the
    end of the array, and both indices are clamped to [0, length]. *)
Definition relIndex (len i : Z) : Z :=
  if i <? 0 then Z.max (len + i) 0 else Z.min i len.

Definition slice {A : Type} (start end_ : Z) (l : list A) : list A :=
  let len := Z.of_nat (List.length l) in
  let k := relIndex len start in
  let final := relIndex len end_ in
  firstn (Z.to_nat (final - k)) (skipn (Z.to_nat k) l).

(** ** Data model *)

Record Bird := mkBird {
  id : Z;
  name : string;
  imageUrl : option string
}.

Inductive Body :=
| B_error (error : string)
| B_rateLimited (error message : string) (remaining resetTime : Z)
| B_birds (birds : list Bird) (hasMore : bool)
| B_count (count type : Z)
| B_bird (b : Bird)
| B_birdOp (b : Bird) (operation : string)
| B_deleted (message operation : string).

Record Response := mkResponse {
  status : Z;
  body : Body
}.

(** ** Read routes *)

Definition pageSize : Z := 48.

(** [x || d] on a query value that is absent or a string. *)
Definition orString (x : option string) (d : string) : string :=
  match x with
  | Some (String c r) => String c r
  | _ => d
  end.

(** [parseInt(req.query.page) || 1]: NaN and 0 are falsy. *)
Definition pageOf (query_page : option string) : Z :=
  match query_page with
  | None => 1
  | Some q =>
      match parseInt q with
      | None | Some 0 => 1
      | Some p => p
      end
  end.

Definition matchesSearch (search : string) (bird : Bird) : bool :=
  includes (toLowerCase (name bird)) (toLowerCase search).

(** GET /api/birds *)
Definition get_birds (query_page query_search : option string)
    (birds : list Bird) : Response :=
  let page := pageOf query_page in
  let search := orString query_search EmptyString in
  let filteredBirds :=
    match search with
    | EmptyString => birds
    | _ => filter (matchesSearch search) birds
    end in
  let startIndex := (page - 1) * pageSize in
  let endIndex := startIndex + pageSize in
  let paginatedBirds := slice startIndex endIndex filteredBirds in
  let hasMore := endIndex <? Z.of_nat (List.length filteredBirds) in
  mkResponse 200 (B_birds paginatedBirds hasMore).

(** GET /api/birds/count *)
Definition get_birds_count (birds : list Bird) : Response :=
  let uniqueBirdNames := nodup string_dec (map name birds) in
  mkResponse 200 (B_count (Z.of_nat (List.length birds))
                          (Z.of_nat (List.length uniqueBirdNames))).

(** [birds.find(bird => bird.id === id)], where [id] may be NaN. *)
Definition findBird (oid : option Z) (birds : list Bird) : option Bird :=
  match oid with
  | None => None
  | Some i => find (fun bird => id bird =? i) birds
  end.

(** GET /api/birds/:id *)
Definition get_bird (params_id : string) (birds : list Bird) : Response :=
  match findBird (parseInt params_id) birds with
  | None => mkResponse 404 (B_error "Bird not found")
  | Some bird => mkResponse 200 (B_bird bird)
  end.

(** ** JSON text: [JSON.stringify(value, null, 2)] and [JSON.parse]

    Numbers are the integers (the only numbers the store holds); a number
    with a fraction or an exponent, and a [\u] escape above U+00FF, lie
    outside the modelled value space and make [JSON_parse] answer [None]. *)

#[local] Set Warnings "-register-all".

Inductive json :=
| JNull
| JBool (b : bool)
| JNum (n : Z)
| JStr (s : string)
| JArr (elements : list json)
| JObj (members : list (string * json)).

Definition DQUOTE : ascii := Eval cbv in ascii_of_N 34.
Definition BACKSLASH : ascii := Eval cbv in ascii_of_N 92.
Definition LF : ascii := Eval cbv in ascii_of_N 10.

Definition str1 (c : ascii) : string := String c EmptyString.

Definition digitChar (d : Z) : ascii := ascii_of_N (Z.to_N (48 + d)).

(** Hexadecimal digit, lower case as [JSON.stringify] writes it. *)
Definition hexChar (d : Z) : ascii :=
  if d <? 10 then digitChar d else ascii_of_N (Z.to_N (87 + d)).

(** Decimal digits of a non-negative integer, most significant first, put in
    front of [acc]. *)
Fixpoint natDigits (fuel : nat) (n : Z) (acc : string) : string :=
  match fuel with
  | O => acc
  | S f =>
      let acc' := String (digitChar (n mod 10)) acc in
      if n <? 10 then acc' else natDigits f (n / 10) acc'
  end.

(** [String(n)] for an integer [n] (Number::toString, radix 10, which
    writes plain decimal digits below 10^21). *)
Definition Z_to_string (n : Z) : string :=
  if n <? 0
  then String "-" (natDigits (S (Z.to_nat (Z.log2 (- n)))) (- n) EmptyString)
  else natDigits (S (Z.to_nat (Z.log2 n))) n EmptyString.

(** One code unit inside a JSON string literal (QuoteJSONString). *)
Definition escapeChar (c : ascii) : string :=
  let n := code c in
  if n =? 34 then String BACKSLASH (str1 DQUOTE)
  else if n =? 92 then String BACKSLASH (str1 BACKSLASH)
  else if n =? 8 then "\b"
  else if n =? 12 then "\f"
  else if n =? 10 then "\n"
  else if n =? 13 then "\r"
  else if n =? 9 then "\t"
  else if n <? 32 then "\u00" ++ String (hexChar (n / 16)) (str1 (hexChar (n mod 16)))
  else str1 c.

Fixpoint escapeChars (s : string) : string :=
  match s with
  | EmptyString => EmptyString
  | String c r => escapeChar c ++ escapeChars r
  end.

Definition quoteJSON (s : string) : string :=
  String DQUOTE (escapeChars s ++ str1 DQUOTE).

Fixpoint joinWith (sep : string) (parts : list string) : string :=
  match parts with
  | [] => EmptyString
  | [p] => p
  | p :: rest => p ++ sep ++ joinWith sep rest
  end.

Definition gap : string := "  ".

(** SerializeJSONProperty with a two-space gap; [indent] is the current
    indentation. *)
Fixpoint stringify (indent : string) (v : json) : string :=
  match v with
  | JNull => "null"
  | JBool true => "true"
  | JBool false => "false"
  | JNum n => Z_to_string n
  | JStr s => quoteJSON s
  | JArr [] => "[]"
  | JArr elements =>
      let stepback := indent in
      let indent := indent ++ gap in
      let separator := String "," (String LF indent) in
      "[" ++ String LF indent
          ++ joinWith separator (map (stringify indent) elements)
          ++ String LF stepback ++ "]"
  | JObj [] => "{}"
  | JObj members =>
      let stepback := indent in
      let indent := indent ++ gap in
      let separator := String "," (String LF indent) in
      "{" ++ String LF indent
          ++ joinWith separator
               (map (fun kv => quoteJSON (fst kv) ++ ": " ++ stringify indent (snd kv))
                    members)
          ++ String LF stepback ++ "}"
  end.

Definition JSON_stringify (v : json) : string := stringify EmptyString v.

(** JSON white space: tab, line feed, carriage return, space. *)
Definition isJsonWs (c : ascii) : bool :=
  (code c =? 9) || (code c =? 10) || (code c =? 13) || (code c =? 32).

Fixpoint skipWs (s : string) : string :=
  match s with
  | String c r => if isJsonWs c then skipWs r else s
  | EmptyString => EmptyString
  end.

(** The character a simple escape [\e] stands for. *)
Definition unescape (e : ascii) : option ascii :=
  let n := code e in
  if (n =? 34) || (n =? 92) || (n =? 47) then Some e
  else if n =? 98 then Some (ascii_of_N 8)
  else if n =? 102 then Some (ascii_of_N 12)
  else if n =? 110 then Some (ascii_of_N 10)
  else if n =? 114 then Some (ascii_of_N 13)
  else if n =? 116 then Some (ascii_of_N 9)
  else None.

Definition hexValue (c : ascii) : option Z :=
  match digitValue c with
  | Some d => if d <? 16 then Some d else None
  | None => None
  end.

(** Four hexadecimal digits of a [\u] escape, as a code unit below 256. *)
Definition hex4 (h1 h2 h3 h4 : ascii) : option ascii :=
  match hexValue h1, hexValue h2, hexValue h3, hexValue h4 with
  | Some a, Some b, Some c, Some d =>
      let n := ((a * 16 + b) * 16 + c) * 16 + d in
      if n <? 256 then Some (ascii_of_N (Z.to_N n)) else None
  | _, _, _, _ => None
  end.

Definition consChar (c : ascii) (r : option (string * string))
  : option (string * string) :=
  match r with
  | Some (s, rest) => Some (String c s, rest)
  | None => None
  end.

(** The characters of a string literal after its opening quote, up to the
    closing quote, and the text after it. *)
Fixpoint parseChars (s : string) : option (string * string) :=
  match s with
  | EmptyString => None
  | String c r =>
      if code c =? 34 then Some (EmptyString, r)
      else if code c =? 92 then
        match r with
        | EmptyString => None
        | String e r1 =>
            if code e =? 117 then
              match r1 with
              | String h1 (String h2 (String h3 (String h4 r2))) =>
                  match hex4 h1 h2 h3 h4 with
                  | Some u => consChar u (parseChars r2)
                  | None => None
                  end
              | _ => None
              end
            else
              match unescape e with
              | Some u => consChar u (parseChars r1)
              | None => None
              end
        end
      else if code c <? 32 then None
      else consChar c (parseChars r)
  end.

(** A JSON number: an optional minus sign, then [0] or digits not starting
    with [0]; integers only. *)
Definition parseNumber (s : string) : option (Z * string) :=
  let '(sign, s1) :=
    match stripPrefix "-" s with
    | Some r => (-1, r)
    | None => (1, s)
    end in
  let '(v, rest) :=
    match stripPrefix "0" s1 with
    | Some r => (Some 0, r)
    | None => parseDigits 10 s1 None
    end in
  match v with
  | None => None
  | Some n =>
      match rest with
      | String c _ =>
          if (code c =? 46) || (code c =? 101) || (code c =? 69)
          then None
          else Some (sign * n, rest)
      | EmptyString => Some (sign * n, rest)
      end
  end.

Definition withRest {A B : Type} (f : A -> B) (r : option (A * string))
  : option (B * string) :=
  match r with
  | Some (a, rest) => Some (f a, rest)
  | None => None
  end.

Fixpoint parseValue (fuel : nat) (s : string) : option (json * string) :=
  match fuel with
  | O => None
  | S fuel' =>
      match skipWs s with
      | EmptyString => None
      | String c r =>
          if isDigitOf 10 c || (code c =? 45) then
            withRest JNum (parseNumber (String c r))
          else if code c =? 34 then withRest JStr (parseChars r)
          else if code c =? 110 then withRest (fun _ => JNull) (option_map (pair tt) (stripPrefix "ull" r))
          else if code c =? 116 then withRest (fun _ => JBool true) (option_map (pair tt) (stripPrefix "rue" r))
          else if code c =? 102 then withRest (fun _ => JBool false) (option_map (pair tt) (stripPrefix "alse" r))
          else if code c =? 91 then
            match stripPrefix "]" (skipWs r) with
            | Some rest => Some (JArr [], rest)
            | None => withRest JArr (parseElements fuel' r)
            end
          else if code c =? 123 then
            match stripPrefix "}" (skipWs r) with
            | Some rest => Some (JObj [], rest)
            | None => withRest JObj (parseMembers fuel' r)
            end
          else None
      end
  end

with parseElements (fuel : nat) (s : string) : option (list json * string) :=
  match fuel with
  | O => None
  | S fuel' =>
      match parseValue fuel' s with
      | None => None
      | Some (v, r) =>
          match skipWs r with
          | String c r' =>
              if code c =? 44 then withRest (cons v) (parseElements fuel' r')
              else if code c =? 93 then Some ([v], r')
              else None
          | EmptyString => None
          end
      end
  end

with parseMembers (fuel : nat) (s : string)
  : option (list (string * json) * string) :=
  match fuel with
  | O => None
  | S fuel' =>
      match stripPrefix (str1 DQUOTE) (skipWs s) with
      | None => None
      | Some r0 =>
          match parseChars r0 with
          | None => None
          | Some (key, r1) =>
              match stripPrefix ":" (skipWs r1) with
              | None => None
              | Some r2 =>
                  match parseValue fuel' r2 with
                  | None => None
                  | Some (v, r3) =>
                      match skipWs r3 with
                      | String c r' =>
                          if code c =? 44
                          then withRest (cons (key, v)) (parseMembers fuel' r')
                          else if code c =? 125 then Some ([(key, v)], r')
                          else None
                      | EmptyString => None
                      end
                  end
              end
          end
      end
  end.

(** [JSON.parse(text)]: one value, then nothing but white space. *)
Definition JSON_parse (text : string) : option json :=
  match parseValue (S (String.length text)) text with
  | Some (v, rest) =>
      match skipWs rest with
      | EmptyString => Some v
      | _ => None
      end
  | None => None
  end.

(** The typed store seen as a JavaScript value: a record is the object
    [{id, name, imageUrl}] with its keys in creation order, and [imageUrl]
    is [null] or a string. *)
Definition bird_to_json (b : Bird) : json :=
  JObj [ ("id", JNum (id b));
         ("name", JStr (name b));
         ("imageUrl", match imageUrl b with Some u => JStr u | None => JNull end) ].

Definition birds_to_json (birds : list Bird) : json :=
  JArr (map bird_to_json birds).

(** A JavaScript value read back as a typed record; any other shape lies
    outside the typed store. *)
Definition bird_of_json (v : json) : option Bird :=
  match v with
  | JObj [ (k1, JNum i); (k2, JStr n); (k3, u) ] =>
      if (k1 =? "id")%string && (k2 =? "name")%string && (k3 =? "imageUrl")%string
      then match u with
           | JNull => Some (mkBird i n None)
           | JStr f => Some (mkBird i n (Some f))
           | _ => None
           end
      else None
  | _ => None
  end.

Fixpoint birds_of_elements (l : list json) : option (list Bird) :=
  match l with
  | [] => Some []
  | v :: r =>
      match bird_of_json v, birds_of_elements r with
      | Some b, Some bs => Some (b :: bs)
      | _, _ => None
      end
  end.

Definition birds_of_json (v : json) : option (list Bird) :=
  match v with
  | JArr l => birds_of_elements l
  | _ => None
  end.

(** ** Server state, requests and the middleware monad *)

Inductive Method := GET | POST | PUT | DELETE.

Definition method_name (m : Method) : string :=
  match m with
  | GET => "GET"
  | POST => "POST"
  | PUT => "PUT"
  | DELETE => "DELETE"
  end.

(** An entry of [ip_operations.json]. *)
Record IpOp := mkIpOp {
  op_ip : string;
  op_timestamp : Z;
  op_method : Method;
  op_path : string
}.

(** An entry of [operation_log.json]. *)
Record LogEntry := mkLogEntry {
  log_timestamp : Z;
  log_ip : string;
  log_operation : string;
  log_method : Method;
  log_path : string;
  log_userAgent : option string
}.

(** The multipart part [image] as multer hands it over: the generated file
    name and the size in bytes. *)
Record UploadedFile := mkFile {
  filename : string;
  size : Z
}.

(** [req_params_id] is [Some] when the path matched [/api/birds/:id] and
    [None] when it matched [/api/birds]. *)
Record Request := mkRequest {
  req_method : Method;
  req_path : string;
  req_ip : option string;
  req_x_forwarded_for : option string;
  req_remoteAddress : option string;
  req_x_operation_desc : option string;
  req_user_agent : option string;
  req_params_id : option string;
  req_query_page : option string;
  req_query_search : option string;
  req_body_name : option string;
  req_file : option UploadedFile
}.

(** The clock readings of one request, in the order the code takes them:
    [new Date()] in the limiter, [new Date()] for the log entry, [new Date()]
    for the log pruning, [Date.now()] in the create handler. *)
Record Clock := mkClock {
  limiterNow : Z;
  logNow : Z;
  pruneNow : Z;
  createNow : Z
}.

Record State := mkState {
  ipOperations : list IpOp;       (* ip_operations.json *)
  operationLog : list LogEntry;   (* operation_log.json *)
  birds : list Bird;              (* the in-memory array *)
  dataFile : option string;       (* data.json, when it exists *)
  images : list string            (* file names under public/images *)
}.

(** What a middleware does with a request: pass it on with a value
    ([next()]), answer it, or fail with a rejected promise that nothing in
    this code handles, so that no answer comes from it. *)
Inductive Step (A : Type) :=
| Next (a : A)
| Send (r : Response)
| Unhandled.

Arguments Next {A} a.
Arguments Send {A} r.
Arguments Unhandled {A}.

Definition M (A : Type) : Type := State -> Step A * State.

Definition ret {A : Type} (a : A) : M A := fun s => (Next a, s).

Definition send {A : Type} (r : Response) : M A := fun s => (Send r, s).

Definition bind {A B : Type} (m : M A) (k : A -> M B) : M B :=
  fun s =>
    match m s with
    | (Next a, s') => k a s'
    | (Send r, s') => (Send r, s')
    | (Unhandled, s') => (Unhandled, s')
    end.

Notation "x <- m ;; k" := (bind m (fun x => k))
  (at level 61, m at next level, right associativity).

Definition gets {A : Type} (f : State -> A) : M A := fun s => (Next (f s), s).

Definition modify (f : State -> State) : M unit := fun s => (Next tt, f s).

(** A route never calls [next()]. *)
Definition Route : Type := M Empty_set.

Definition response_of (r : Step Empty_set * State) : option Response :=
  match fst r with
  | Send resp => Some resp
  | _ => None
  end.

Definition set_ipOperations (v : list IpOp) (s : State) : State :=
  mkState v (operationLog s) (birds s) (dataFile s) (images s).

Definition set_operationLog (v : list LogEntry) (s : State) : State :=
  mkState (ipOperations s) v (birds s) (dataFile s) (images s).

Definition set_birds (v : list Bird) (s : State) : State :=
  mkState (ipOperations s) (operationLog s) v (dataFile s) (images s).

Definition set_dataFile (v : option string) (s : State) : State :=
  mkState (ipOperations s) (operationLog s) (birds s) v (images s).

Definition set_images (v : list string) (s : State) : State :=
  mkState (ipOperations s) (operationLog s) (birds s) (dataFile s) v.

(** [x || y] on values that are undefined or strings: the empty string is
    falsy. *)
Definition truthy (x : option string) : option string :=
  match x with
  | Some (String c r) => Some (String c r)
  | _ => None
  end.

Definition getClientIp (req : Request) : string :=
  match truthy (req_ip req) with
  | Some ip => ip
  | None =>
      match truthy (req_x_forwarded_for req) with
      | Some ip => ip
      | None =>
          match truthy (req_remoteAddress req) with
          | Some ip => ip
          | None => "unknown"
          end
      end
  end.

Definition DAY_MS : Z := 24 * 60 * 60 * 1000.

(** [Math.ceil(a / b)] for integers [a] and [b > 0]. *)
Definition ceilDiv (a b : Z) : Z := - ((- a) / b).

(** [d.setDate(d.getDate() - 30)] where the server's time zone has no
    daylight saving transition in between. *)
Definition thirtyDaysBefore (t : Z) : Z := t - 30 * DAY_MS.

Definition readIpOperations : M (list IpOp) := gets ipOperations.
Definition writeIpOperations (records : list IpOp) : M unit :=
  modify (set_ipOperations records).
Definition readOperationLog : M (list LogEntry) := gets operationLog.
Definition writeOperationLog (logs : list LogEntry) : M unit :=
  modify (set_operationLog logs).

(** The operations of [clientIp] that count at a request made at [now]. *)
Definition recentOperationsOf (clientIp : string) (now : Z)
    (operations : list IpOp) : list IpOp :=
  let twentyFourHoursAgo := now - DAY_MS in
  filter (fun op => (twentyFourHoursAgo <? op_timestamp op)
                    && (op_ip op =? clientIp)%string) operations.

(** The body sent with status 429. *)
Definition rateLimitResponse (resetTime : Z) : Response :=
  mkResponse 429
    (B_rateLimited "操作频率超限" "单个IP 24小时内最多进行8次操作" 0 resetTime).

(** [operationRateLimiter]; the value passed on is X-RateLimit-Remaining. *)
Definition operationRateLimiter (clk : Clock) (req : Request) : M Z :=
  let clientIp := getClientIp req in
  operations <- readIpOperations ;;
  let now := limiterNow clk in
  let twentyFourHoursAgo := now - DAY_MS in
  let recentOperations := recentOperationsOf clientIp now operations in
  if 8 <=? Z.of_nat (List.length recentOperations) then
    send (rateLimitResponse
            (ceilDiv (twentyFourHoursAgo + DAY_MS - now) 1000))
  else
    let operations :=
      (operations ++ [mkIpOp clientIp now (req_method req) (req_path req)])%list in
    let cleanedOperations :=
      filter (fun op => twentyFourHoursAgo <? op_timestamp op) operations in
    _ <- writeIpOperations cleanedOperations ;;
    ret (8 - Z.of_nat (List.length recentOperations) - 1).

Section Server.

(** [decodeURIComponent]; [None] when it throws a URIError. *)
Variable decodeURIComponent : string -> option string.

(** [logOperation]; the value passed on is [res.locals.operationDesc]. *)
Definition logOperation (clk : Clock) (req : Request) : M string :=
  let clientIp := getClientIp req in
  let described :=
    match truthy (req_x_operation_desc req) with
    | Some h => decodeURIComponent h
    | None => Some (method_name (req_method req) ++ " " ++ req_path req)
    end in
  match described with
  | None => fun s => (Unhandled, s)
  | Some operationDesc =>
      let logEntry :=
        mkLogEntry (logNow clk) clientIp operationDesc (req_method req)
                   (req_path req) (req_user_agent req) in
      logs <- readOperationLog ;;
      let logs := (logs ++ [logEntry])%list in
      let thirtyDaysAgo := thirtyDaysBefore (pruneNow clk) in
      let recentLogs :=
        filter (fun log => thirtyDaysAgo <? log_timestamp log) logs in
      _ <- writeOperationLog recentLogs ;;
      ret operationDesc
  end.

Definition unlink (f : string) : M unit :=
  modify (fun s => set_images (remove string_dec f (images s)) s).

(** [upload.single('image')]: the file is written under its generated name;
    a part above the 5 MiB transport limit is discarded and the request
    fails in multer, which Express answers with status 500. *)
Definition upload_single (req : Request) : M unit :=
  match req_file req with
  | None => ret tt
  | Some f =>
      if 5 * 1024 * 1024 <? size f
      then send (mkResponse 500 (B_error "File too large"))
      else modify (fun s =>
             set_images (filename f :: remove string_dec (filename f) (images s)) s)
  end.

Definition saveData : M unit :=
  modify (fun s =>
    set_dataFile (Some (JSON_stringify (birds_to_json (birds s)))) s).

(** [initData]: a missing or unparsable file gives the empty store (and
    so does, in this typed model, a file that does not hold records). *)
Definition initData (s : State) : State :=
  let loaded :=
    match dataFile s with
    | None => []
    | Some data =>
        match JSON_parse data with
        | None => []
        | Some v =>
            match birds_of_json v with
            | Some bs => bs
            | None => []
            end
        end
    end in
  set_birds loaded s.

(** [birds.findIndex(bird => bird.id === id)]; [None] is -1. *)
Fixpoint findIndexFrom (i : Z) (k : nat) (l : list Bird) : option nat :=
  match l with
  | [] => None
  | bird :: r => if id bird =? i then Some k else findIndexFrom i (S k) r
  end.

Definition findIndex (oid : option Z) (l : list Bird) : option nat :=
  match oid with
  | None => None
  | Some i => findIndexFrom i O l
  end.

(** [l[k] = v] for an index inside the array. *)
Fixpoint setAt {A : Type} (k : nat) (v : A) (l : list A) : list A :=
  match l, k with
  | [], _ => []
  | _ :: r, O => v :: r
  | x :: r, S k' => x :: setAt k' v r
  end.

(** [l.splice(k, 1)] *)
Fixpoint removeAt {A : Type} (k : nat) (l : list A) : list A :=
  match l, k with
  | [], _ => []
  | _ :: r, O => r
  | x :: r, S k' => x :: removeAt k' r
  end.

(** The handler of POST /api/birds. *)
Definition create_bird (clk : Clock) (req : Request) (operationDesc : string)
  : Route :=
  match truthy (req_body_name req) with
  | None => send (mkResponse 400 (B_error "Name is required"))
  | Some name =>
      if 10 <? Z.of_nat (String.length name) then
        send (mkResponse 400 (B_error "Name cannot exceed 10 characters"))
      else if match req_file req with
              | Some f => 1048576 <? size f
              | None => false
              end then
        send (mkResponse 400 (B_error "Image size cannot exceed 1MB"))
      else
        let newBird :=
          mkBird (createNow clk) name (option_map filename (req_file req)) in
        _ <- modify (fun s => set_birds (newBird :: birds s) s) ;;
        _ <- saveData ;;
        send (mkResponse 201 (B_birdOp newBird operationDesc))
  end.

(** The handler of PUT /api/birds/:id. *)
Definition update_bird (req : Request) (params_id : string)
    (operationDesc : string) : Route :=
  let id_ := parseInt params_id in
  bs <- gets birds ;;
  match findIndex id_ bs with
  | None => send (mkResponse 404 (B_error "Bird not found"))
  | Some birdIndex =>
      match nth_error bs birdIndex with
      | None =>
          (* not reached: [birdIndex] is an index of [bs] *)
          send (mkResponse 404 (B_error "Bird not found"))
      | Some old =>
          let renamed :=
            match truthy (req_body_name req) with
            | Some name => mkBird (id old) name (imageUrl old)
            | None => old
            end in
          updatedBird <-
            match req_file req with
            | Some f =>
                _ <- match truthy (imageUrl renamed) with
                     | Some u => unlink u
                     | None => ret tt
                     end ;;
                ret (mkBird (id renamed) (name renamed)
                            (Some (filename f)))
            | None => ret renamed
            end ;;
          _ <- modify (fun s => set_birds (setAt birdIndex updatedBird (birds s)) s) ;;
          _ <- saveData ;;
          send (mkResponse 200 (B_birdOp updatedBird operationDesc))
      end
  end.

(** The handler of DELETE /api/birds/:id. *)
Definition remove_bird (params_id : string) (operationDesc : string) : Route :=
  let id_ := parseInt params_id in
  bs <- gets birds ;;
  match findIndex id_ bs with
  | None => send (mkResponse 404 (B_error "Bird not found"))
  | Some birdIndex =>
      _ <- match nth_error bs birdIndex with
           | Some bird =>
               match truthy (imageUrl bird) with
               | Some u => unlink u
               | None => ret tt
               end
           | None => ret tt (* not reached: [birdIndex] is an index of [bs] *)
           end ;;
      _ <- modify (fun s => set_birds (removeAt birdIndex (birds s)) s) ;;
      _ <- saveData ;;
      send (mkResponse 200 (B_deleted "Bird deleted successfully" operationDesc))
  end.

(** app.post('/api/birds', operationRateLimiter, logOperation,
    upload.single('image'), handler) *)
Definition post_birds (clk : Clock) (req : Request) : Route :=
  _ <- operationRateLimiter clk req ;;
  operationDesc <- logOperation clk req ;;
  _ <- upload_single req ;;
  create_bird clk req operationDesc.

(** app.put('/api/birds/:id', operationRateLimiter, logOperation,
    upload.single('image'), handler) *)
Definition put_bird (clk : Clock) (req : Request) (params_id : string) : Route :=
  _ <- operationRateLimiter clk req ;;
  operationDesc <- logOperation clk req ;;
  _ <- upload_single req ;;
  update_bird req params_id operationDesc.

(** app.delete('/api/birds/:id', operationRateLimiter, logOperation, handler) *)
Definition delete_bird (clk : Clock) (req : Request) (params_id : string)
  : Route :=
  _ <- operationRateLimiter clk req ;;
  operationDesc <- logOperation clk req ;;
  remove_bird params_id operationDesc.

(** The routes of /api/birds, in registration order ([/count] before
    [/:id]). *)
Definition app (clk : Clock) (req : Request) : Route :=
  match req_method req, req_params_id req with
  | GET, None =>
      bs <- gets birds ;;
      send (get_birds (req_query_page req) (req_query_search req) bs)
  | GET, Some i =>
      bs <- gets birds ;;
      if (i =? "count")%string then send (get_birds_count bs)
      else send (get_bird i bs)
  | POST, None => post_birds clk req
  | PUT, Some i => put_bird clk req i
  | DELETE, Some i => delete_bird clk req i
  | _, _ => send (mkResponse 404 (B_error "Not found"))
  end.

(** A request answered with status 429. *)
Definition rejected (r : Step Empty_set * State) : bool :=
  match response_of r with
  | Some resp => status resp =? 429
  | None => false
  end.

(** Requests served one after the other; the answers are kept in order. *)
Fixpoint serve (reqs : list (Clock * Request)) (s : State)
  : list (Step Empty_set * State) * State :=
  match reqs with
  | [] => ([], s)
  | (clk, req) :: rest =>
      let r := app clk req s in
      let '(rs, s') := serve rest (snd r) in
      (r :: rs, s')
  end.

End Server.

(** The requests that change the store: POST, PUT and DELETE on
    /api/birds. *)
Definition mutating (req : Request) : bool :=
  match req_method req, req_params_id req with
  | POST, None | PUT, Some _ | DELETE, Some _ => true
  | _, _ => false
  end.


(** ** Vocabulary of the properties *)



(** The decimal text of a non-negative integer. *)
Definition decimal (n : Z) : string :=
  natDigits (S (Z.to_nat (Z.log2 n))) n EmptyString.

(** The content of [ip_operations.json] after the limiter has let a request
    through. *)
Definition recordOperation (clk : Clock) (req : Request) (operations : list IpOp) :=
  filter (fun op => limiterNow clk - DAY_MS <? op_timestamp op)
    (operations ++ [mkIpOp (getClientIp req) (limiterNow clk) (req_method req) (req_path req)])%list.



(** The time at which the limiter sees a request. *)
Definition requestTime (cr : Clock * Request) : Z := limiterNow (fst cr).

(** The number the limiter compares with 8. *)
Definition recentCount (clk : Clock) (req : Request) (s : State) : Z :=
  Z.of_nat (List.length (recentOperationsOf (getClientIp req) (limiterNow clk) (ipOperations s))).

(** The content of [operation_log.json] after [logOperation]. *)
Definition recordLog (clk : Clock) (req : Request) (operationDesc : string)
    (logs : list LogEntry) : list LogEntry :=
  filter (fun log => thirtyDaysBefore (pruneNow clk) <? log_timestamp log)
    (logs ++ [mkLogEntry (logNow clk) (getClientIp req) operationDesc
                (req_method req) (req_path req) (req_user_agent req)])%list.

(** The outcome of a handler: a failure leaves the whole state alone, a
    success leaves the two journals alone. *)
Definition handler_outcome (h : Route) (s : State) : Prop :=
  (exists r, h s = (Send r, s) /\ (status r = 400 \/ status r = 404)) \/
  (exists r s', h s = (Send r, s') /\ (status r = 200 \/ status r = 201) /\
     ipOperations s' = ipOperations s /\ operationLog s' = operationLog s).


(** Every stored name has at most 10 characters. *)
Definition namesBounded (bs : list Bird) : Prop :=
  Forall (fun b => Z.of_nat (String.length (name b)) <= 10) bs.

(** The operation description header, when present, decodes. *)
Definition headerDecodes (decode : string -> option string) (req : Request)
  : Prop :=
  forall h, truthy (req_x_operation_desc req) = Some h -> decode h <> None.

(** The separator between the elements of the top-level array. *)
Definition elementSeparator : string := String "," (String LF gap).

(** The texts of the records, each indented as an element of the array. *)
Definition birdTexts (bs : list Bird) : list string :=
  map (stringify gap) (map bird_to_json bs).

(** Sample data for the examples. *)
Definition emptyState : State := mkState [] [] [] None [].

Definition noon : Clock := mkClock 1000 1000 1000 1000.

Definition plainRequest (m : Method) (path : string) (params_id : option string)
    (body_name : option string) : Request :=
  mkRequest m path (Some "10.0.0.1") None None None None params_id None None
            body_name None.

Definition createRequest (ip nm : string) : Request :=
  mkRequest POST "/api/birds" (Some ip) None None None None None None None
            (Some nm) None.

Definition at_ (t : Z) : Clock := mkClock t t t t.

(** A store on which the address 10.0.0.1 has used its eight operations. *)
Definition busyState : State :=
  mkState (repeat (mkIpOp "10.0.0.1" 900 POST "/api/birds") 8) [] [] None [].

(** A store on which the address 10.0.0.1 made its eight operations at the
    end of the first day: they count until the end of the second day. *)
Definition blockedState : State :=
  mkState (repeat (mkIpOp "10.0.0.1" DAY_MS POST "/api/birds") 8) [] [] None [].

(** Nine creations by 10.0.0.1 within a day, with one by 10.0.0.2 among
    them. *)
Definition nineRequests : list (Clock * Request) :=
  [ (at_ 1, createRequest "10.0.0.1" "a"); (at_ 2, createRequest "10.0.0.1" "b");
    (at_ 3, createRequest "10.0.0.1" "c"); (at_ 4, createRequest "10.0.0.2" "x");
    (at_ 5, createRequest "10.0.0.1" "d"); (at_ 6, createRequest "10.0.0.1" "e");
    (at_ 7, createRequest "10.0.0.1" "f"); (at_ 8, createRequest "10.0.0.1" "g");
    (at_ 9, createRequest "10.0.0.1" "h"); (at_ 10, createRequest "10.0.0.1" "i") ].

Definition sampleBirds : list Bird :=
  [ mkBird 3 "Robin" None; mkBird 2 "Wren" (Some "w.png"); mkBird 1 "European" None ].

(** Case analysis on a decimal digit [d], given [H : 0 <= d < 10]. *)
Ltac each_digit d H :=
  let C := fresh "C" in
  assert (C : d = 0 \/ d = 1 \/ d = 2 \/ d = 3 \/ d = 4 \/ d = 5 \/ d = 6
              \/ d = 7 \/ d = 8 \/ d = 9) by lia;
  destruct C as [->|[->|[->|[->|[->|[->|[->|[->|[->| ->]]]]]]]]].

(** ** Vocabulary of the further properties *)

(** What [logOperation] takes as the description of the operation: the
    decoded header, or the method and the path; [None] when decoding
    throws. *)
Definition operationDescOf (decode : string -> option string) (req : Request)
  : option string :=
  match truthy (req_x_operation_desc req) with
  | Some h => decode h
  | None => Some (method_name (req_method req) ++ " " ++ req_path req)
  end.

(** The image directory once [upload.single('image')] has stored the part
    of the request. *)
Definition storeUpload (req : Request) (imgs : list string) : list string :=
  match req_file req with
  | Some f => filename f :: remove string_dec (filename f) imgs
  | None => imgs
  end.

(** The part of the request passes the transport limit of multer. *)
Definition uploadFits (req : Request) : Prop :=
  match req_file req with
  | Some f => size f <= 5 * 1024 * 1024
  | None => True
  end.

(** The state in which the handler of a mutating route starts, the limiter
    and the logger having recorded the request. *)
Definition handlerState (clk : Clock) (req : Request) (operationDesc : string)
    (s : State) : State :=
  mkState (recordOperation clk req (ipOperations s))
          (recordLog clk req operationDesc (operationLog s))
          (birds s) (dataFile s)
          (match req_method req with
           | DELETE => images s
           | _ => storeUpload req (images s)
           end).

(** The handler at the end of a mutating route. *)
Definition handlerOf (clk : Clock) (req : Request) (operationDesc : string)
  : Route :=
  match req_method req, req_params_id req with
  | POST, None => create_bird clk req operationDesc
  | PUT, Some i => update_bird req i operationDesc
  | DELETE, Some i => remove_bird i operationDesc
  | _, _ => send (mkResponse 404 (B_error "Not found"))
  end.

(** The record that PUT stores in place of [old]: the fields supplied by
    the request replace the old ones. *)
Definition updatedRecord (req : Request) (old : Bird) : Bird :=
  mkBird (id old)
         (match truthy (req_body_name req) with
          | Some n => n
          | None => name old
          end)
         (match req_file req with
          | Some f => Some (filename f)
          | None => imageUrl old
          end).

(** The records as [data.json] holds them. *)
Definition written (bs : list Bird) : option string :=
  Some (JSON_stringify (birds_to_json bs)).

(** The ways in which one request changes the list of records. *)
Inductive storeStep (clk : Clock) (req : Request) (bs : list Bird)
  : list Bird -> Prop :=
| store_kept : storeStep clk req bs bs
| store_created (n : string) :
    req_method req = POST ->
    truthy (req_body_name req) = Some n ->
    Z.of_nat (String.length n) <= 10 ->
    storeStep clk req bs
      (mkBird (createNow clk) n (option_map filename (req_file req)) :: bs)
| store_updated (pre : list Bird) (old : Bird) (post : list Bird) :
    req_method req = PUT ->
    bs = (pre ++ old :: post)%list ->
    storeStep clk req bs (pre ++ updatedRecord req old :: post)%list
| store_deleted (pre : list Bird) (old : Bird) (post : list Bird) :
    req_method req = DELETE ->
    bs = (pre ++ old :: post)%list ->
    storeStep clk req bs (pre ++ post)%list.

(** The logger on a server with a local time zone. *)
Section LocalTime.

(** [LocalTZA(t, isUTC)] of ECMA-262: the offset in milliseconds of the
    server's local time from UTC, at the UTC time [t] when [isUTC] is true
    and at the local time [t] otherwise.  It changes at a daylight saving
    switch. *)
Variable LocalTZA : Z -> bool -> Z.

(** [d.setDate(d.getDate() - 30)] on a Date holding the time [t]: the
    local time of [t] is moved back by 30 calendar days, its time within
    the day kept, and read back as UTC with the offset of that local
    time. *)
Definition setDateThirtyBack (t : Z) : Z :=
  let local := t + LocalTZA t true in
  let newDate := local - 30 * DAY_MS in
  newDate - LocalTZA newDate false.

(** How far the date computed by [setDateThirtyBack] is from 30 times 24
    hours before [t]: the change of the offset between the two dates. *)
Definition offsetChange (t : Z) : Z :=
  LocalTZA t true - LocalTZA (t + LocalTZA t true - 30 * DAY_MS) false.

Variable decodeURIComponent : string -> option string.

(** [logOperation] with the pruning date computed in the server's local
    time; [logOperation] above is the case of a constant offset. *)
Definition logOperationLocal (clk : Clock) (req : Request) : M string :=
  let clientIp := getClientIp req in
  let described :=
    match truthy (req_x_operation_desc req) with
    | Some h => decodeURIComponent h
    | None => Some (method_name (req_method req) ++ " " ++ req_path req)
    end in
  match described with
  | None => fun s => (Unhandled, s)
  | Some operationDesc =>
      let logEntry :=
        mkLogEntry (logNow clk) clientIp operationDesc (req_method req)
                   (req_path req) (req_user_agent req) in
      logs <- readOperationLog ;;
      let logs := (logs ++ [logEntry])%list in
      let thirtyDaysAgo := setDateThirtyBack (pruneNow clk) in
      let recentLogs :=
        filter (fun log => thirtyDaysAgo <? log_timestamp log) logs in
      _ <- writeOperationLog recentLogs ;;
      ret operationDesc
  end.

End LocalTime.

(** [Number.isSafeInteger]: the integers that a JavaScript number holds
    exactly.  On them [parseInt], [===], [Date.now()] and the JSON text of a
    number are what this file computes in [Z]; from 2^53 on a JavaScript
    number is a rounded double. *)
Definition safeInteger (z : Z) : Prop := - 2 ^ 53 < z < 2 ^ 53.

(** Every stored id is a safe integer. *)
Definition safeIds (bs : list Bird) : Prop :=
  Forall (fun b => safeInteger (id b)) bs.

(** What [initData] reads from the data file. *)
Definition loadedBirds (file : option string) : list Bird :=
  match file with
  | None => []
  | Some data =>
      match JSON_parse data with
      | None => []
      | Some v =>
          match birds_of_json v with
          | Some bs => bs
          | None => []
          end
      end
  end.

(** The ids of the records decrease strictly: the newest record is first. *)
Definition newestFirst (bs : list Bird) : Prop :=
  StronglySorted Z.gt (map id bs).

(** What a handler does to the records and to the data file. *)
Definition handlerStep (clk : Clock) (req : Request) (h : Route) (s : State) : Prop :=
  storeStep clk req (birds s) (birds (snd (h s))) /\
  ((birds (snd (h s)) = birds s /\ dataFile (snd (h s)) = dataFile s) \/
   dataFile (snd (h s)) = written (birds (snd (h s)))) /\
  (forall r, fst (h s) = Send r -> status r = 200 \/ status r = 201 ->
             dataFile (snd (h s)) = written (birds (snd (h s)))).

(** At time [t] no address has more than 8 operations that count. *)
Definition quotaRespected (t : Z) (operations : list IpOp) : Prop :=
  forall ip, (List.length (recentOperationsOf ip t operations) <= 8)%nat.

(** The [operation] field of the body of an answer. *)
Definition body_operation (b : Body) : option string :=
  match b with
  | B_birdOp _ o => Some o
  | B_deleted _ o => Some o
  | _ => None
  end.

(** The items and the [hasMore] flag of a list answer. *)
Definition body_birds (b : Body) : list Bird :=
  match b with
  | B_birds l _ => l
  | _ => []
  end.

Definition body_hasMore (b : Body) : bool :=
  match b with
  | B_birds _ h => h
  | _ => false
  end.

(** The answer to GET /api/birds?page=k, the page number written in
    decimal. *)
Definition pageAnswer (k : nat) (query_search : option string) (bs : list Bird)
  : Body :=
  body (get_birds (Some (Z_to_string (Z.of_nat k))) query_search bs).

(** ** The service worker (public/sw.js)

    A response is what the worker looks at: whether it is [ok], and its
    content.  A cache maps the URL of a GET request to the response stored
    for it, one entry per URL; the cache storage lists the named caches in
    creation order.  The network answers a URL with a response or fails;
    relative URLs are resolved against the origin of the worker. *)

Record SwResponse := mkSwResponse {
  sw_ok : bool;
  sw_content : string
}.

Record SwRequest := mkSwRequest {
  sw_method : string;
  sw_url : string;
  sw_pathname : string;          (* new URL(request.url).pathname *)
  sw_accept : option string      (* request.headers.get('accept') *)
}.

Definition Cache : Type := list (string * SwResponse).

Definition CacheStorage : Type := list (string * Cache).

Definition CACHE_NAME : string := "bird-guide-cache-v3".
Definition API_CACHE_NAME : string := "bird-guide-api-cache-v3".
Definition PRE_CACHE_ASSETS : list string := ["/"; "/index.html"].

(** [cache.match(request)] *)
Definition cacheMatch (url : string) (c : Cache) : option SwResponse :=
  option_map snd (find (fun e => (fst e =? url)%string) c).

(** [cache.put(request, response)]: the entry of the URL is replaced. *)
Definition cachePut (url : string) (r : SwResponse) (c : Cache) : Cache :=
  (url, r) :: filter (fun e => negb (fst e =? url)%string) c.

(** [caches.open(name)]: a cache that does not exist is created empty. *)
Definition storageOpen (cacheName : string) (cs : CacheStorage) : CacheStorage :=
  if existsb (fun e => (fst e =? cacheName)%string) cs then cs
  else (cs ++ [(cacheName, [])])%list.

(** The content of the cache [cacheName]. *)
Definition storageGet (cacheName : string) (cs : CacheStorage) : Cache :=
  match find (fun e => (fst e =? cacheName)%string) cs with
  | Some e => snd e
  | None => []
  end.

(** [caches.open(name).then(cache => cache.put(request, response))] *)
Definition storagePut (cacheName url : string) (r : SwResponse)
    (cs : CacheStorage) : CacheStorage :=
  map (fun e => if (fst e =? cacheName)%string
                then (fst e, cachePut url r (snd e)) else e)
      (storageOpen cacheName cs).

(** [caches.match(request)]: the first cache, in creation order, that holds
    the URL answers. *)
Fixpoint storageMatch (url : string) (cs : CacheStorage) : option SwResponse :=
  match cs with
  | [] => None
  | (_, c) :: rest =>
      match cacheMatch url c with
      | Some r => Some r
      | None => storageMatch url rest
      end
  end.

(** [caches.delete(name)] *)
Definition storageDelete (cacheName : string) (cs : CacheStorage) : CacheStorage :=
  filter (fun e => negb (fst e =? cacheName)%string) cs.

(** What becomes of a fetch event: left to the browser, answered, or failed
    as a network error. *)
Inductive SwOutcome :=
| Passthrough
| Answer (r : SwResponse)
| NetworkError.

Section ServiceWorker.

Variable origin : string.
Variable network : string -> option SwResponse.

(** The install listener: each asset is fetched and, when the answer is ok,
    stored; a failure for one asset is only logged. *)
Definition onInstall (cs : CacheStorage) : CacheStorage :=
  fold_left
    (fun acc asset =>
       match network (origin ++ asset) with
       | Some r => if sw_ok r then storagePut CACHE_NAME (origin ++ asset) r acc
                   else acc
       | None => acc
       end)
    PRE_CACHE_ASSETS (storageOpen CACHE_NAME cs).

(** The activate listener. *)
Definition onActivate (cs : CacheStorage) : CacheStorage :=
  fold_left
    (fun acc cache =>
       if negb (cache =? CACHE_NAME)%string && negb (cache =? API_CACHE_NAME)%string
       then storageDelete cache acc
       else acc)
    (map fst cs) cs.

(** [fetchWithCache(event, cacheName)] *)
Definition fetchWithCache (req : SwRequest) (cacheName : string)
    (cs : CacheStorage) : SwOutcome * CacheStorage :=
  let cs := storageOpen cacheName cs in
  match cacheMatch (sw_url req) (storageGet cacheName cs) with
  | Some cachedResponse =>
      (* answered from the cache; the cache is refreshed in the background *)
      (Answer cachedResponse,
       match network (sw_url req) with
       | Some networkResponse => storagePut cacheName (sw_url req) networkResponse cs
       | None => cs
       end)
  | None =>
      match network (sw_url req) with
      | Some networkResponse =>
          (Answer networkResponse,
           if sw_ok networkResponse
           then storagePut cacheName (sw_url req) networkResponse cs
           else cs)
      | None => (NetworkError, cs)
      end
  end.

(** [request.headers.get('accept').includes('text/html')]; [None] when the
    header is absent and the call throws. *)
Definition acceptsHtml (req : SwRequest) : option bool :=
  option_map (fun a => includes a "text/html") (sw_accept req).

(** The fetch listener. *)
Definition onFetch (req : SwRequest) (cs : CacheStorage)
  : SwOutcome * CacheStorage :=
  if negb (sw_method req =? "GET")%string then (Passthrough, cs)
  else if prefix "/api" (sw_pathname req) then fetchWithCache req API_CACHE_NAME cs
  else
    let cachedResponse := storageMatch (sw_url req) cs in
    let fromNetwork :=
      match network (sw_url req) with
      | Some networkResponse =>
          (Answer networkResponse,
           if prefix "http" (sw_url req) && sw_ok networkResponse
           then storagePut CACHE_NAME (sw_url req) networkResponse cs
           else cs)
      | None =>
          match acceptsHtml req with
          | None => (NetworkError, cs)
          | Some true =>
              match storageMatch (origin ++ "/index.html") cs with
              | Some r => (Answer r, cs)
              | None => (NetworkError, cs)
              end
          | Some false =>
              match cachedResponse with
              | Some r => (Answer r, cs)
              | None => (NetworkError, cs)
              end
          end
      end in
    match cachedResponse with
    | Some r =>
        match acceptsHtml req with
        | None => (NetworkError, cs)
        | Some false => (Answer r, cs)
        | Some true => fromNetwork
        end
    | None => fromNetwork
    end.

End ServiceWorker.

(** The caches that activation keeps. *)
Definition currentCache (e : string * Cache) : bool :=
  (fst e =? CACHE_NAME)%string || (fst e =? API_CACHE_NAME)%string.

(** Every response held by the cache of static resources is ok. *)
Definition staticCacheOk (cs : CacheStorage) : Prop :=
  Forall (fun e => sw_ok (snd e) = true) (storageGet CACHE_NAME cs).

(** A GET request for a static resource, outside [/api]. *)
Definition staticGet (req : SwRequest) : Prop :=
  sw_method req = "GET" /\ prefix "/api" (sw_pathname req) = false.

(** A GET request for the API. *)
Definition apiGet (req : SwRequest) : Prop :=
  sw_method req = "GET" /\ prefix "/api" (sw_pathname req) = true.

(** Further sample data. *)
Definition sampleStore : State :=
  mkState [] [] sampleBirds (written sampleBirds) ["w.png"].

Definition putRequest : Request :=
  mkRequest PUT "/api/birds/2" (Some "10.0.0.1") None None None None (Some "2")
            None None (Some "Heron") (Some (mkFile "n.png" 2048)).

Definition deleteRequest : Request :=
  plainRequest DELETE "/api/birds/2" (Some "2") None.

Definition longNameCreate : Request :=
  mkRequest POST "/api/birds" (Some "10.0.0.1") None None None None None
            None None (Some "ABCDEFGHIJK") (Some (mkFile "o.png" 100)).

Definition describedRequest : Request :=
  mkRequest POST "/api/birds" (Some "10.0.0.1") None None (Some "%E0") None None
            None None (Some "Wren") None.

Definition identityDecode (h : string) : option string := Some h.

Definition HOUR_MS : Z := 60 * 60 * 1000.

(** A server one hour ahead of UTC until it switches to summer time at the
    start of day 10, and two hours ahead from then on; the local hour
    skipped at the switch is read with the offset before it. *)
Definition summerZone (t : Z) (isUTC : bool) : Z :=
  if isUTC
  then (if t <? 10 * DAY_MS then HOUR_MS else 2 * HOUR_MS)
  else (if t <? 10 * DAY_MS + 2 * HOUR_MS then HOUR_MS else 2 * HOUR_MS).

(** A log whose only entry is 29 days and 23 and a half hours old at the
    start of day 35. *)
Definition monthOldLog : State :=
  mkState []
    [mkLogEntry (5 * DAY_MS + 30 * 60 * 1000) "10.0.0.1" "POST /api/birds" POST
       "/api/birds" None]
    [] None [].

Definition swOrigin : string := "https://birds.example".

Definition indexResponse : SwResponse := mkSwResponse true "<html>".

Definition onlineNetwork (url : string) : option SwResponse :=
  if (url =? "https://birds.example/index.html")%string then Some indexResponse
  else if (url =? "https://birds.example/app.css")%string
       then Some (mkSwResponse true "body{}")
  else if (url =? "https://birds.example/api/birds")%string
       then Some (mkSwResponse false "429")
  else None.

Definition offlineNetwork (url : string) : option SwResponse := None.

Definition pageRequest (url pathname accept : string) : SwRequest :=
  mkSwRequest "GET" url pathname (Some accept).

Definition apiStorage : CacheStorage :=
  [(API_CACHE_NAME, [("https://birds.example/api/birds", mkSwResponse true "[]")])].

(** * Properties *)

(** ** Strings and lists *)






Lemma matchesSearch_empty (b : Bird) : matchesSearch EmptyString b = true.
Proof.
  unfold matchesSearch. cbn [toLowerCase].
  destruct (toLowerCase (name b)); reflexivity.
Qed.

Lemma filter_all {A : Type} (f : A -> bool) (l : list A) :
  (forall x, f x = true) -> filter f l = l.
Proof.
  intros H. induction l as [|x l IH]; cbn; [reflexivity|].
  rewrite H, IH. reflexivity.
Qed.

Lemma slice_forward {A : Type} (a b : Z) (l : list A) :
  0 <= a <= b ->
  slice a b l = firstn (Z.to_nat (b - a)) (skipn (Z.to_nat a) l).
Proof.
  intros H. unfold slice, relIndex.
  assert (Ha : (a <? 0) = false) by (apply Z.ltb_ge; lia).
  assert (Hb : (b <? 0) = false) by (apply Z.ltb_ge; lia).
  rewrite Ha, Hb.
  destruct (Z_le_gt_dec a (Z.of_nat (List.length l))) as [Hle|Hgt].
  - rewrite (Z.min_l a) by lia.
    destruct (Z_le_gt_dec b (Z.of_nat (List.length l))) as [Hle'|Hgt'].
    + rewrite Z.min_l by lia. reflexivity.
    + rewrite Z.min_r by lia.
      rewrite !firstn_all2; try reflexivity; rewrite length_skipn; lia.
  - rewrite !Z.min_r by lia. rewrite !skipn_all2 by lia.
    rewrite !firstn_nil. reflexivity.
Qed.


Lemma pageOf_one : pageOf (Some "1") = 1.
Proof. reflexivity. Qed.

(** C6, as amended.  A page value that is absent, that does not parse to a
    number, or that parses to 0 gives the same answer as page 1. *)
Theorem page_zero_or_invalid_is_page_one
    (query_page query_search : option string) (bs : list Bird) :
  match query_page with
  | None => True
  | Some q => parseInt q = None \/ parseInt q = Some 0
  end ->
  get_birds query_page query_search bs = get_birds (Some "1") query_search bs.
Proof.
  intros H.
  assert (Hp : pageOf query_page = 1).
  { unfold pageOf. destruct query_page as [q|]; [|reflexivity].
    destruct H as [-> | ->]; reflexivity. }
  unfold get_birds. rewrite Hp, pageOf_one. reflexivity.
Qed.

(** C6 fails for negative pages: with one stored record, page -1 gives no
    item and hasMore = true, page 1 gives the record and hasMore = false. *)
Lemma negative_page_is_not_page_one :
  ~ (forall (q : string) (p : Z) (query_search : option string) (bs : list Bird),
       parseInt q = Some p -> p <= 0 ->
       get_birds (Some q) query_search bs = get_birds (Some "1") query_search bs).
Proof.
  intros H.
  specialize (H "-1" (-1) None [mkBird 1 "a" None] eq_refl ltac:(lia)).
  vm_compute in H. discriminate.
Qed.

(** ** Decimal numbers *)

Lemma digitValue_digitChar (d : Z) :
  0 <= d < 10 -> digitValue (digitChar d) = Some d.
Proof. intros H. each_digit d H; reflexivity. Qed.

Lemma isDigitOf_digitChar (d : Z) :
  0 <= d < 10 -> isDigitOf 10 (digitChar d) = true.
Proof. intros H. each_digit d H; reflexivity. Qed.

Lemma parseDigits_digitChar (d : Z) (s : string) (acc : option Z) :
  0 <= d < 10 ->
  parseDigits 10 (String (digitChar d) s) acc =
  parseDigits 10 s (Some (10 * accValue acc + d)).
Proof.
  intros H. cbn [parseDigits].
  rewrite isDigitOf_digitChar, digitValue_digitChar by exact H. reflexivity.
Qed.

(** Reading back the digits written by [natDigits]. *)
Lemma parseDigits_natDigits (fuel : nat) :
  forall n, 0 <= n < 2 ^ Z.of_nat (S fuel) ->
  exists p, forall s acc,
    parseDigits 10 (natDigits (S fuel) n s) acc =
    parseDigits 10 s (Some (accValue acc * p + n)).
Proof.
  induction fuel as [|fuel IH]; intros n Hn.
  - exists 10. intros s acc. cbn [natDigits].
    assert (Hlt : (n <? 10) = true) by (apply Z.ltb_lt; cbn in Hn; lia).
    rewrite Hlt, parseDigits_digitChar by (apply Z.mod_pos_bound; lia).
    rewrite Z.mod_small by (cbn in Hn; lia). do 2 f_equal. lia.
  - destruct (Z_lt_le_dec n 10) as [Hlt|Hge].
    + exists 10. intros s acc.
      change (natDigits (S (S fuel)) n s)
        with (let acc' := String (digitChar (n mod 10)) s in
              if n <? 10 then acc' else natDigits (S fuel) (n / 10) acc').
      cbv zeta. apply Z.ltb_lt in Hlt. rewrite Hlt.
      apply Z.ltb_lt in Hlt.
      rewrite parseDigits_digitChar by (apply Z.mod_pos_bound; lia).
      rewrite Z.mod_small by lia. do 2 f_equal. lia.
    + assert (Hdiv : 0 <= n / 10 < 2 ^ Z.of_nat (S fuel)).
      { split; [apply Z.div_pos; lia|].
        apply Z.div_lt_upper_bound; [lia|].
        rewrite (Nat2Z.inj_succ (S fuel)), Z.pow_succ_r in Hn by lia. lia. }
      destruct (IH (n / 10) Hdiv) as [p Hp].
      exists (10 * p). intros s acc.
      change (natDigits (S (S fuel)) n s)
        with (let acc' := String (digitChar (n mod 10)) s in
              if n <? 10 then acc' else natDigits (S fuel) (n / 10) acc').
      cbv zeta. apply Z.ltb_ge in Hge. rewrite Hge.
      rewrite Hp, parseDigits_digitChar by (apply Z.mod_pos_bound; lia).
      do 2 f_equal. cbn [accValue].
      pose proof (Z.div_mod n 10 ltac:(lia)). lia.
Qed.

(** A positive number is written with a leading digit other than 0. *)
Lemma natDigits_leading (fuel : nat) :
  forall n s, 0 < n < 2 ^ Z.of_nat (S fuel) ->
  exists d r, 1 <= d < 10 /\ natDigits (S fuel) n s = String (digitChar d) r.
Proof.
  induction fuel as [|fuel IH]; intros n s Hn.
  - exists n, s. cbn in Hn. split; [lia|]. cbn [natDigits].
    assert (Hlt : (n <? 10) = true) by (apply Z.ltb_lt; lia).
    rewrite Hlt, Z.mod_small by lia. reflexivity.
  - change (natDigits (S (S fuel)) n s)
      with (let acc' := String (digitChar (n mod 10)) s in
            if n <? 10 then acc' else natDigits (S fuel) (n / 10) acc').
    cbv zeta. destruct (n <? 10) eqn:E.
    + apply Z.ltb_lt in E. exists n, s. split; [lia|].
      rewrite Z.mod_small by lia. reflexivity.
    + apply Z.ltb_ge in E. apply IH. split.
      * apply Z.div_str_pos. lia.
      * apply Z.div_lt_upper_bound; [lia|].
        rewrite (Nat2Z.inj_succ (S fuel)), Z.pow_succ_r in Hn by lia. lia.
Qed.

Lemma log2_fuel (n : Z) : 0 <= n -> 0 <= n < 2 ^ Z.of_nat (S (Z.to_nat (Z.log2 n))).
Proof.
  intros H. split; [exact H|].
  rewrite Nat2Z.inj_succ, Z2Nat.id by apply Z.log2_nonneg.
  destruct (Z.eq_dec n 0) as [->|Hne]; [reflexivity|].
  apply Z.log2_spec. lia.
Qed.

Lemma Z_to_string_cases (z : Z) :
  (0 <= z /\ Z_to_string z = decimal z) \/
  (z < 0 /\ Z_to_string z = String "-" (decimal (- z))).
Proof.
  unfold Z_to_string, decimal. destruct (z <? 0) eqn:E.
  - right. apply Z.ltb_lt in E. split; [exact E | reflexivity].
  - left. apply Z.ltb_ge in E. split; [exact E | reflexivity].
Qed.

Lemma decimal_cases (n : Z) :
  0 <= n ->
  (n = 0 /\ decimal n = "0") \/
  (0 < n /\ exists d r, 1 <= d < 10 /\ decimal n = String (digitChar d) r).
Proof.
  intros H. destruct (Z.eq_dec n 0) as [->|Hne].
  - left. split; reflexivity.
  - right. split; [lia|]. apply natDigits_leading.
    pose proof (log2_fuel n H). lia.
Qed.

Lemma natDigits_app (fuel : nat) :
  forall n s r, (natDigits fuel n s ++ r)%string = natDigits fuel n (s ++ r).
Proof.
  induction fuel as [|fuel IH]; intros n s r; [reflexivity|].
  cbn [natDigits]. destruct (n <? 10).
  - reflexivity.
  - rewrite IH. reflexivity.
Qed.

Lemma parseDigits_decimal (n : Z) (rest : string) :
  0 <= n ->
  parseDigits 10 (decimal n ++ rest) None = parseDigits 10 rest (Some n).
Proof.
  intros H. unfold decimal. rewrite natDigits_app.
  destruct (parseDigits_natDigits _ n (log2_fuel n H)) as [p Hp].
  rewrite Hp. reflexivity.
Qed.

Lemma nonzero_digit_facts (d : Z) (r : string) :
  1 <= d < 10 ->
  trimStart (String (digitChar d) r) = String (digitChar d) r /\
  stripPrefix "-" (String (digitChar d) r) = None /\
  stripPrefix "+" (String (digitChar d) r) = None /\
  stripPrefix "0" (String (digitChar d) r) = None /\
  stripPrefix "0x" (String (digitChar d) r) = None /\
  stripPrefix "0X" (String (digitChar d) r) = None /\
  (String (digitChar d) r =? "count")%string = false.
Proof.
  intros H. assert (H' : 0 <= d < 10) by lia.
  each_digit d H'; try lia; repeat split; reflexivity.
Qed.

Lemma parseInt_decimal (n : Z) : 0 <= n -> parseInt (decimal n) = Some n /\
  trimStart (decimal n) = decimal n /\ stripPrefix "-" (decimal n) = None /\
  stripPrefix "+" (decimal n) = None /\
  stripPrefix "0x" (decimal n) = None /\ stripPrefix "0X" (decimal n) = None /\
  fst (parseDigits 10 (decimal n) None) = Some n /\
  (decimal n =? "count")%string = false.
Proof.
  intros H.
  assert (Hd : fst (parseDigits 10 (decimal n) None) = Some n).
  { pose proof (parseDigits_decimal n EmptyString H) as Hp.
    replace (decimal n ++ EmptyString) with (decimal n) in Hp.
    - rewrite Hp. reflexivity.
    - clear. induction (decimal n); cbn; congruence. }
  destruct (decimal_cases n H) as [[-> E] | [Hpos [d [r [Hr E]]]]].
  - rewrite E. repeat split; reflexivity.
  - destruct (nonzero_digit_facts d r Hr) as [T [M [P [_ [X1 [X2 C]]]]]].
    assert (Hp : parseInt (decimal n) = Some n).
    { unfold parseInt. rewrite E, T, M, P, X1, X2, <- E, Hd. cbn. f_equal.
      destruct n; reflexivity. }
    rewrite E in *. repeat split; assumption.
Qed.

(** [parseInt] reads back the decimal text of any integer. *)
Lemma parseInt_Z_to_string (z : Z) : parseInt (Z_to_string z) = Some z.
Proof.
  destruct (Z_to_string_cases z) as [[H E] | [H E]]; rewrite E.
  - apply parseInt_decimal. exact H.
  - destruct (parseInt_decimal (- z) ltac:(lia)) as [_ [_ [_ [_ [X1 [X2 [D _]]]]]]].
    unfold parseInt.
    replace (trimStart (String "-" (decimal (- z))))
      with (String "-" (decimal (- z))) by reflexivity.
    replace (stripPrefix "-" (String "-" (decimal (- z))))
      with (Some (decimal (- z))) by reflexivity.
    cbv iota beta. rewrite X1, X2, D. cbn [option_map]. f_equal. lia.
Qed.

Lemma Z_to_string_not_count (z : Z) : (Z_to_string z =? "count")%string = false.
Proof.
  destruct (Z_to_string_cases z) as [[H E] | [H E]]; rewrite E.
  - apply parseInt_decimal. exact H.
  - reflexivity.
Qed.

(** ** The rate limiter and the middleware chain *)

(** The operations that count: recorded for the address, within the last 24
    hours, the bound excluded. *)
Lemma recentOperationsOf_spec (ip : string) (now : Z) (ops : list IpOp) (op : IpOp) :
  In op (recentOperationsOf ip now ops) <->
  In op ops /\ op_ip op = ip /\ now - DAY_MS < op_timestamp op.
Proof.
  unfold recentOperationsOf. rewrite filter_In, andb_true_iff, Z.ltb_lt, String.eqb_eq.
  tauto.
Qed.

Lemma operationRateLimiter_reject (clk : Clock) (req : Request) (s : State) :
  8 <= Z.of_nat (List.length (recentOperationsOf (getClientIp req) (limiterNow clk) (ipOperations s))) ->
  operationRateLimiter clk req s =
  (Send (rateLimitResponse
           (ceilDiv (limiterNow clk - DAY_MS + DAY_MS - limiterNow clk) 1000)), s).
Proof.
  intros H. unfold operationRateLimiter, bind, readIpOperations, gets.
  apply Z.leb_le in H. rewrite H. reflexivity.
Qed.

Lemma operationRateLimiter_pass (clk : Clock) (req : Request) (s : State) :
  Z.of_nat (List.length (recentOperationsOf (getClientIp req) (limiterNow clk) (ipOperations s))) < 8 ->
  operationRateLimiter clk req s =
  (Next (8 - Z.of_nat (List.length (recentOperationsOf (getClientIp req) (limiterNow clk) (ipOperations s))) - 1),
   set_ipOperations (recordOperation clk req (ipOperations s)) s).
Proof.
  intros H. unfold operationRateLimiter, bind, readIpOperations, gets.
  apply Z.leb_gt in H. rewrite H. reflexivity.
Qed.

Section RateLimiting.
Variable decodeURIComponent : string -> option string.

Lemma logOperation_cases (clk : Clock) (req : Request) (s : State) :
  logOperation decodeURIComponent clk req s = (Unhandled, s) \/
  exists operationDesc,
    logOperation decodeURIComponent clk req s =
    (Next operationDesc,
     set_operationLog (recordLog clk req operationDesc (operationLog s)) s).
Proof.
  unfold logOperation.
  destruct (match truthy (req_x_operation_desc req) with
            | Some h => decodeURIComponent h
            | None => _ end) as [d|].
  - right. exists d. reflexivity.
  - left. reflexivity.
Qed.

Lemma upload_single_cases (req : Request) (s : State) :
  (exists r, upload_single req s = (Send r, s) /\ status r = 500) \/
  exists imgs, upload_single req s = (Next tt, set_images imgs s).
Proof.
  unfold upload_single. destruct (req_file req) as [f|].
  - destruct (5 * 1024 * 1024 <? size f).
    + left. eexists. split; reflexivity.
    + right. eexists. reflexivity.
  - right. exists (images s). destruct s; reflexivity.
Qed.

Lemma create_bird_outcome clk req d s : handler_outcome (create_bird clk req d) s.
Proof.
  unfold handler_outcome, create_bird.
  destruct (truthy (req_body_name req)) as [n|].
  - destruct (10 <? Z.of_nat (String.length n)).
    + left. eexists. split; [reflexivity|]. left; reflexivity.
    + destruct (match req_file req with Some f => 1048576 <? size f | None => false end).
      * left. eexists. split; [reflexivity|]. left; reflexivity.
      * right. do 2 eexists. split; [reflexivity|]. split; [right; reflexivity|].
        split; reflexivity.
  - left. eexists. split; [reflexivity|]. left; reflexivity.
Qed.

Lemma update_bird_outcome req i d s : handler_outcome (update_bird req i d) s.
Proof.
  unfold handler_outcome, update_bird, bind, gets.
  destruct (findIndex (parseInt i) (birds s)) as [k|].
  - destruct (nth_error (birds s) k) as [old|].
    + right. destruct (req_file req) as [f|].
      * destruct (truthy (imageUrl _)); do 2 eexists;
          (split; [reflexivity|]); (split; [left; reflexivity|]); split; reflexivity.
      * do 2 eexists. split; [reflexivity|]. split; [left; reflexivity|]. split; reflexivity.
    + left. eexists. split; [reflexivity|]. right; reflexivity.
  - left. eexists. split; [reflexivity|]. right; reflexivity.
Qed.

Lemma remove_bird_outcome i d s : handler_outcome (remove_bird i d) s.
Proof.
  unfold handler_outcome, remove_bird, bind, gets.
  destruct (findIndex (parseInt i) (birds s)) as [k|].
  - right. destruct (nth_error (birds s) k) as [b|].
    + destruct (truthy (imageUrl b)); do 2 eexists;
        (split; [reflexivity|]); (split; [left; reflexivity|]); split; reflexivity.
    + do 2 eexists. split; [reflexivity|]. split; [left; reflexivity|]. split; reflexivity.
  - left. eexists. split; [reflexivity|]. right; reflexivity.
Qed.

Lemma pipeline_after_limiter (clk : Clock) (req : Request) (h : string -> Route)
    (withUpload : bool) (s : State) :
  (forall d s0, handler_outcome (h d) s0) ->
  let r := (operationDesc <- logOperation decodeURIComponent clk req ;;
            _ <- (if withUpload then upload_single req else ret tt) ;;
            h operationDesc) s in
  ipOperations (snd r) = ipOperations s /\
  ((fst r = Unhandled /\ snd r = s) \/
   exists operationDesc resp,
     fst r = Send resp /\
     operationLog (snd r) = recordLog clk req operationDesc (operationLog s) /\
     (status resp = 500 \/ status resp = 200 \/ status resp = 201 \/
      ((status resp = 400 \/ status resp = 404) /\
       birds (snd r) = birds s /\ dataFile (snd r) = dataFile s))).
Proof.
  intros Hh. unfold bind.
  destruct (logOperation_cases clk req s) as [E | [d E]]; rewrite E; cbn [fst snd].
  - split; [reflexivity|]. left. split; reflexivity.
  - set (s1 := set_operationLog _ s).
    assert (Hup : (exists r, (if withUpload then upload_single req else ret tt) s1 = (Send r, s1)
                     /\ status r = 500) \/
                  exists imgs, (if withUpload then upload_single req else ret tt) s1
                     = (Next tt, set_images imgs s1)).
    { destruct withUpload.
      - apply upload_single_cases.
      - right. exists (images s1). reflexivity. }
    destruct Hup as [[r [E1 Hr]] | [imgs E1]]; rewrite E1; cbn [fst snd].
    + split; [reflexivity|]. right. exists d, r. repeat split; auto.
    + set (s2 := set_images imgs s1).
      destruct (Hh d s2) as [[r [E2 Hr]] | [r [s' [E2 [Hr [Hi Hl]]]]]];
        rewrite E2; cbn [fst snd].
      * split; [reflexivity|]. right. exists d, r. repeat split; auto.
        right; right; right. repeat split; auto.
      * split; [exact Hi|]. right. exists d, r. split; [reflexivity|].
        split; [exact Hl|]. destruct Hr; auto.
Qed.

Lemma mutating_passed (clk : Clock) (req : Request) (s : State) :
  mutating req = true ->
  recentCount clk req s < 8 ->
  let r := app decodeURIComponent clk req s in
  ipOperations (snd r) = recordOperation clk req (ipOperations s) /\
  ((fst r = Unhandled /\ operationLog (snd r) = operationLog s /\
    birds (snd r) = birds s /\ dataFile (snd r) = dataFile s) \/
   exists operationDesc resp,
     fst r = Send resp /\
     operationLog (snd r) = recordLog clk req operationDesc (operationLog s) /\
     (status resp = 500 \/ status resp = 200 \/ status resp = 201 \/
      ((status resp = 400 \/ status resp = 404) /\
       birds (snd r) = birds s /\ dataFile (snd r) = dataFile s))).
Proof.
  unfold mutating, recentCount. intros Hm Hc.
  set (s1 := set_ipOperations (recordOperation clk req (ipOperations s)) s).
  assert (Hgen : forall (h : string -> Route) (u : bool),
     (forall d s0, handler_outcome (h d) s0) ->
     app decodeURIComponent clk req s =
       (operationDesc <- logOperation decodeURIComponent clk req ;;
        _ <- (if u then upload_single req else ret tt) ;;
        h operationDesc) s1 ->
     let r := app decodeURIComponent clk req s in
     ipOperations (snd r) = recordOperation clk req (ipOperations s) /\
     ((fst r = Unhandled /\ operationLog (snd r) = operationLog s /\
       birds (snd r) = birds s /\ dataFile (snd r) = dataFile s) \/
      exists operationDesc resp,
        fst r = Send resp /\
        operationLog (snd r) = recordLog clk req operationDesc (operationLog s) /\
        (status resp = 500 \/ status resp = 200 \/ status resp = 201 \/
         ((status resp = 400 \/ status resp = 404) /\
          birds (snd r) = birds s /\ dataFile (snd r) = dataFile s)))).
  { intros h u Hh E. cbv zeta. rewrite E.
    destruct (pipeline_after_limiter clk req h u s1 Hh) as [Hi Hcases].
    cbv zeta in Hi, Hcases. split; [rewrite Hi; reflexivity|].
    destruct Hcases as [[Hu Hs] | [d [resp [Hf [Hl Hst]]]]].
    - left. rewrite Hs. repeat split; auto.
    - right. exists d, resp. repeat split; auto. }
  destruct (req_method req) eqn:Em, (req_params_id req) as [i|] eqn:Ei; try discriminate.
  - apply (Hgen (create_bird clk req) true (create_bird_outcome clk req)).
    unfold app, post_birds. rewrite Em, Ei. unfold bind at 1.
    rewrite (operationRateLimiter_pass clk req s Hc). reflexivity.
  - apply (Hgen (update_bird req i) true (update_bird_outcome req i)).
    unfold app, put_bird. rewrite Em, Ei. unfold bind at 1.
    rewrite (operationRateLimiter_pass clk req s Hc). reflexivity.
  - apply (Hgen (remove_bird i) false (remove_bird_outcome i)).
    unfold app, delete_bird. rewrite Em, Ei. unfold bind at 1.
    rewrite (operationRateLimiter_pass clk req s Hc). reflexivity.
Qed.

Lemma mutating_rejected (clk : Clock) (req : Request) (s : State) :
  mutating req = true ->
  8 <= recentCount clk req s ->
  app decodeURIComponent clk req s =
  (Send (rateLimitResponse
           (ceilDiv (limiterNow clk - DAY_MS + DAY_MS - limiterNow clk) 1000)), s).
Proof.
  unfold mutating, recentCount. intros Hm Hc.
  unfold app, post_birds, put_bird, delete_bird, bind.
  destruct (req_method req), (req_params_id req); try discriminate;
    rewrite (operationRateLimiter_reject clk req s Hc); reflexivity.
Qed.

Lemma ceilDiv_spec (a b : Z) :
  0 < b -> b * (ceilDiv a b - 1) < a <= b * ceilDiv a b.
Proof.
  intros Hb. unfold ceilDiv.
  pose proof (Z.div_mod (- a) b ltac:(lia)) as Hd.
  pose proof (Z.mod_pos_bound (- a) b Hb) as Hm.
  nia.
Qed.

Lemma recordOperation_app (clk : Clock) (req : Request) (ops : list IpOp) :
  recordOperation clk req ops =
  (filter (fun op => limiterNow clk - DAY_MS <? op_timestamp op) ops ++
   [mkIpOp (getClientIp req) (limiterNow clk) (req_method req) (req_path req)])%list.
Proof.
  unfold recordOperation. rewrite filter_app. f_equal.
  cbn [filter op_timestamp].
  assert (H : (limiterNow clk - DAY_MS <? limiterNow clk) = true)
    by (apply Z.ltb_lt; unfold DAY_MS; lia).
  rewrite H. reflexivity.
Qed.

Lemma recordLog_app (clk : Clock) (req : Request) (d : string) (logs : list LogEntry) :
  thirtyDaysBefore (pruneNow clk) < logNow clk ->
  recordLog clk req d logs =
  (filter (fun log => thirtyDaysBefore (pruneNow clk) <? log_timestamp log) logs ++
   [mkLogEntry (logNow clk) (getClientIp req) d (req_method req) (req_path req)
      (req_user_agent req)])%list.
Proof.
  intros H. unfold recordLog. rewrite filter_app. f_equal.
  cbn [filter log_timestamp]. apply Z.ltb_lt in H. rewrite H. reflexivity.
Qed.

(** C2.  When the address of the request has 8 or more counted operations,
    the limiter answers 429 and leaves the state as it was: nothing is
    appended to the rate-limit file, nothing is pruned from it, and nothing
    is written. *)
Theorem rejection_keeps_rate_limit_state (clk : Clock) (req : Request) (s : State) :
  8 <= recentCount clk req s ->
  (exists resp, operationRateLimiter clk req s = (Send resp, s) /\ status resp = 429) /\
  (mutating req = true ->
   snd (app decodeURIComponent clk req s) = s /\
   ipOperations (snd (app decodeURIComponent clk req s)) = ipOperations s).
Proof.
  intros Hc. split.
  - eexists. split; [apply operationRateLimiter_reject; exact Hc | reflexivity].
  - intros Hm. rewrite (mutating_rejected clk req s Hm Hc). split; reflexivity.
Qed.

Lemma status_429_iff (clk : Clock) (req : Request) (s : State) :
  mutating req = true ->
  (rejected (app decodeURIComponent clk req s) = true <-> 8 <= recentCount clk req s).
Proof.
  intros Hm. split.
  - intros Hr. destruct (Z_lt_le_dec (recentCount clk req s) 8) as [Hlt|Hge]; [|exact Hge].
    exfalso. destruct (mutating_passed clk req s Hm Hlt) as [_ Hcases].
    cbv zeta in Hcases. unfold rejected, response_of in Hr.
    destruct Hcases as [[Hu _] | [d [resp [Hf [_ Hst]]]]].
    + rewrite Hu in Hr. discriminate.
    + rewrite Hf in Hr. apply Z.eqb_eq in Hr. lia.
  - intros Hc. rewrite (mutating_rejected clk req s Hm Hc). reflexivity.
Qed.

(** C3.  A mutating request answered with 429 was answered by the limiter,
    which runs before the logger: the operation log is unchanged. *)
Theorem rate_limited_request_is_not_logged
    (clk : Clock) (req : Request) (s : State) (resp : Response) :
  mutating req = true ->
  response_of (app decodeURIComponent clk req s) = Some resp ->
  status resp = 429 ->
  operationRateLimiter clk req s = (Send resp, s) /\
  operationLog (snd (app decodeURIComponent clk req s)) = operationLog s.
Proof.
  intros Hm Hresp Hst.
  assert (Hc : 8 <= recentCount clk req s).
  { apply status_429_iff; [exact Hm|]. unfold rejected. rewrite Hresp.
    apply Z.eqb_eq. exact Hst. }
  rewrite (mutating_rejected clk req s Hm Hc) in *.
  unfold response_of in Hresp. cbn [fst] in Hresp. injection Hresp as <-.
  split; [|reflexivity].
  apply operationRateLimiter_reject. exact Hc.
Qed.

(** C10.  A mutating request that the handler answers with 400 or 404 has
    passed the limiter: the records and the data file are unchanged, while
    one entry for the address has been appended to the rate-limit file and
    one entry to the operation log (the log is pruned less than 30 days after
    the entry was stamped). *)
Theorem failed_mutation_is_recorded
    (clk : Clock) (req : Request) (s : State) (resp : Response) :
  mutating req = true ->
  response_of (app decodeURIComponent clk req s) = Some resp ->
  status resp = 400 \/ status resp = 404 ->
  thirtyDaysBefore (pruneNow clk) < logNow clk ->
  let s' := snd (app decodeURIComponent clk req s) in
  birds s' = birds s /\
  dataFile s' = dataFile s /\
  ipOperations s' =
    (filter (fun op => limiterNow clk - DAY_MS <? op_timestamp op) (ipOperations s) ++
     [mkIpOp (getClientIp req) (limiterNow clk) (req_method req) (req_path req)])%list /\
  exists operationDesc,
    operationLog s' =
    (filter (fun log => thirtyDaysBefore (pruneNow clk) <? log_timestamp log)
       (operationLog s) ++
     [mkLogEntry (logNow clk) (getClientIp req) operationDesc (req_method req)
        (req_path req) (req_user_agent req)])%list.
Proof.
  intros Hm Hresp Hst Hclk. cbv zeta.
  destruct (Z_lt_le_dec (recentCount clk req s) 8) as [Hlt|Hge].
  - destruct (mutating_passed clk req s Hm Hlt) as [Hops Hcases].
    cbv zeta in Hops, Hcases. unfold response_of in Hresp.
    destruct Hcases as [[Hu _] | [d [r [Hf [Hlog Hcase]]]]].
    + rewrite Hu in Hresp. discriminate.
    + rewrite Hf in Hresp. injection Hresp as ->.
      destruct Hcase as [H|[H|[H|[_ [Hb Hd]]]]]; try lia.
      repeat split; auto.
      * rewrite Hops. apply recordOperation_app.
      * exists d. rewrite Hlog. apply recordLog_app. exact Hclk.
  - rewrite (mutating_rejected clk req s Hm Hge) in Hresp.
    unfold response_of in Hresp. cbn [fst] in Hresp. injection Hresp as <-.
    unfold rateLimitResponse in Hst. cbn [status] in Hst. lia.
Qed.

Lemma filter_filter_implied {A : Type} (p q : A -> bool) (l : list A) :
  (forall x, q x = true -> p x = true) ->
  filter q (filter p l) = filter q l.
Proof.
  intros Himp. induction l as [|x l IH]; [reflexivity|].
  cbn [filter]. destruct (p x) eqn:Ep.
  - cbn [filter]. rewrite IH. reflexivity.
  - destruct (q x) eqn:Eq.
    + apply Himp in Eq. congruence.
    + exact IH.
Qed.

Lemma recent_after_record (ip : string) (t : Z) (clk : Clock) (req : Request)
    (ops : list IpOp) :
  limiterNow clk <= t ->
  recentOperationsOf ip t (recordOperation clk req ops) =
  (recentOperationsOf ip t ops ++
   if (t - DAY_MS <? limiterNow clk) && (getClientIp req =? ip)%string
   then [mkIpOp (getClientIp req) (limiterNow clk) (req_method req) (req_path req)]
   else [])%list.
Proof.
  intros Ht. unfold recentOperationsOf, recordOperation.
  rewrite filter_filter_implied.
  - rewrite filter_app. f_equal.
  - intros op H. apply andb_prop in H. destruct H as [H _].
    apply Z.ltb_lt in H. apply Z.ltb_lt. lia.
Qed.

Lemma app_nonmutating (clk : Clock) (req : Request) (s : State) :
  mutating req = false ->
  ipOperations (snd (app decodeURIComponent clk req s)) = ipOperations s.
Proof.
  unfold mutating, app. intros H.
  destruct (req_method req), (req_params_id req) as [i|]; try discriminate;
    try reflexivity.
  unfold bind, gets, send. destruct (i =? "count")%string; reflexivity.
Qed.

Section Window.

Variable ip : string.
Variable t1 : Z.



End Window.




(** The retry hint is always 0: the window the code measures starts exactly
    24 hours before the request. *)
Lemma rate_limit_reset_time_is_zero (clk : Clock) :
  ceilDiv (limiterNow clk - DAY_MS + DAY_MS - limiterNow clk) 1000 = 0.
Proof.
  replace (limiterNow clk - DAY_MS + DAY_MS - limiterNow clk) with 0 by lia.
  reflexivity.
Qed.

End RateLimiting.

(** C4 at a failing input.  The address 10.0.0.1 made eight operations at
    the end of the first day.  A ninth request one millisecond later is
    answered with 429 and resetTime 0, and so is every request of the
    address during the second day: the window of the eight operations ends
    86400 seconds (rounded up) after that ninth request, when the address
    can create again.  The code measures from [twentyFourHoursAgo], which is
    24 hours before the request, so that its formula gives 0 for every
    rejection. *)
Theorem reset_time_is_zero_while_blocked :
  let req := createRequest "10.0.0.1" "Wren" in
  let serveAt := fun t => app (fun h => Some h) (at_ t) req blockedState in
  let windowStart := DAY_MS in
  let now := DAY_MS + 1 in
  serveAt now = (Send (rateLimitResponse 0), blockedState) /\
  ceilDiv (windowStart + DAY_MS - now) 1000 = 86400 /\
  (forall t, now <= t < windowStart + DAY_MS ->
     serveAt t = (Send (rateLimitResponse 0), blockedState)) /\
  option_map status (response_of (serveAt (windowStart + DAY_MS))) = Some 201 /\
  (forall (decodeURIComponent : string -> option string) (clk : Clock)
          (r : Request) (s : State) (resp : Response),
     mutating r = true ->
     response_of (app decodeURIComponent clk r s) = Some resp ->
     status resp = 429 ->
     resp = rateLimitResponse 0).
Proof.
  cbv zeta.
  assert (Hblocked : forall t, DAY_MS <= t < DAY_MS + DAY_MS ->
            app (fun h => Some h) (at_ t) (createRequest "10.0.0.1" "Wren") blockedState
            = (Send (rateLimitResponse 0), blockedState)).
  { intros t Ht.
    rewrite (mutating_rejected (fun h => Some h) (at_ t)
               (createRequest "10.0.0.1" "Wren") blockedState eq_refl).
    - rewrite rate_limit_reset_time_is_zero. reflexivity.
    - unfold recentCount, recentOperationsOf, blockedState.
      cbn [limiterNow at_ ipOperations repeat filter op_timestamp op_ip
           getClientIp createRequest req_ip truthy].
      assert (E : (t - DAY_MS <? DAY_MS) = true) by (apply Z.ltb_lt; lia).
      rewrite E. cbn. lia. }
  split; [apply Hblocked; unfold DAY_MS; lia|].
  split; [reflexivity|].
  split; [intros t Ht; apply Hblocked; unfold DAY_MS in *; lia|].
  split; [vm_compute; reflexivity|].
  intros decodeURIComponent clk r s resp Hm Hresp Hst.
  assert (Hc : 8 <= recentCount clk r s).
  { apply (status_429_iff decodeURIComponent); [exact Hm|]. unfold rejected.
    rewrite Hresp. apply Z.eqb_eq. exact Hst. }
  rewrite (mutating_rejected decodeURIComponent clk r s Hm Hc) in Hresp.
  rewrite rate_limit_reset_time_is_zero in Hresp.
  unfold response_of in Hresp. cbn [fst] in Hresp. injection Hresp as <-. reflexivity.
Qed.

(** ** Names of stored records *)

Section Names.
Variable decodeURIComponent : string -> option string.

Lemma limiter_keeps_birds (clk : Clock) (req : Request) (s : State) :
  birds (snd (operationRateLimiter clk req s)) = birds s /\
  dataFile (snd (operationRateLimiter clk req s)) = dataFile s.
Proof.
  unfold operationRateLimiter, bind, readIpOperations, gets.
  destruct (8 <=? _); split; reflexivity.
Qed.

Lemma logOperation_keeps_birds (clk : Clock) (req : Request) (s : State) :
  birds (snd (logOperation decodeURIComponent clk req s)) = birds s /\
  dataFile (snd (logOperation decodeURIComponent clk req s)) = dataFile s.
Proof.
  unfold logOperation.
  destruct (match truthy (req_x_operation_desc req) with
            | Some h => decodeURIComponent h | None => _ end); split; reflexivity.
Qed.

Lemma upload_keeps_birds (req : Request) (s : State) :
  birds (snd (upload_single req s)) = birds s /\
  dataFile (snd (upload_single req s)) = dataFile s.
Proof.
  unfold upload_single. destruct (req_file req) as [f|]; [|split; reflexivity].
  destruct (5 * 1024 * 1024 <? size f); split; reflexivity.
Qed.

Lemma removeAt_Forall {A : Type} (P : A -> Prop) (k : nat) (l : list A) :
  Forall P l -> Forall P (removeAt k l).
Proof.
  intros H. revert k. induction H as [|x l Hx Hl IH]; intros k; [destruct k; constructor|].
  destruct k; cbn [removeAt]; [exact Hl | constructor; auto].
Qed.

Lemma create_bird_names (clk : Clock) (req : Request) (d : string) (s : State) :
  namesBounded (birds s) ->
  namesBounded (birds (snd (create_bird clk req d s))).
Proof.
  intros H. unfold create_bird.
  destruct (truthy (req_body_name req)) as [n|]; [|exact H].
  destruct (10 <? Z.of_nat (String.length n)) eqn:E; [exact H|].
  destruct (match req_file req with Some f => 1048576 <? size f | None => false end);
    [exact H|].
  cbn. constructor; [|exact H]. cbn [name]. apply Z.ltb_ge in E. exact E.
Qed.

Lemma remove_bird_names (i d : string) (s : State) :
  namesBounded (birds s) ->
  namesBounded (birds (snd (remove_bird i d s))).
Proof.
  intros H. unfold remove_bird, bind, gets.
  destruct (findIndex (parseInt i) (birds s)) as [k|]; [|exact H].
  destruct (nth_error (birds s) k) as [b|]; [destruct (truthy (imageUrl b))|];
    cbn; apply removeAt_Forall; exact H.
Qed.

(** Every route except PUT keeps the names of the stored records within 10
    characters. *)
Lemma names_bounded_preserved (clk : Clock) (req : Request) (s : State) :
  req_method req <> PUT ->
  namesBounded (birds s) ->
  namesBounded (birds (snd (app decodeURIComponent clk req s))).
Proof.
  intros Hm H. unfold app.
  destruct (req_method req) eqn:Em, (req_params_id req) as [i|] eqn:Ei;
    try congruence; try exact H.
  - unfold bind, gets, send. destruct (i =? "count")%string; exact H.
  - unfold post_birds, bind.
    destruct (limiter_keeps_birds clk req s) as [H1 _].
    destruct (operationRateLimiter clk req s) as [[a|r|] s1]; cbn [snd] in *;
      try (rewrite H1; exact H).
    destruct (logOperation_keeps_birds clk req s1) as [H2 _].
    destruct (logOperation decodeURIComponent clk req s1) as [[d|r|] s2]; cbn [snd] in *;
      try (rewrite H2, H1; exact H).
    destruct (upload_keeps_birds req s2) as [H3 _].
    destruct (upload_single req s2) as [[u|r|] s3]; cbn [snd] in *;
      try (rewrite H3, H2, H1; exact H).
    apply create_bird_names. rewrite H3, H2, H1. exact H.
  - unfold delete_bird, bind.
    destruct (limiter_keeps_birds clk req s) as [H1 _].
    destruct (operationRateLimiter clk req s) as [[a|r|] s1]; cbn [snd] in *;
      try (rewrite H1; exact H).
    destruct (logOperation_keeps_birds clk req s1) as [H2 _].
    destruct (logOperation decodeURIComponent clk req s1) as [[d|r|] s2]; cbn [snd] in *;
      try (rewrite H2, H1; exact H).
    apply remove_bird_names. rewrite H2, H1. exact H.
Qed.

(** Create answers a missing or over-long name with status 400 and leaves
    the state alone. *)
Lemma create_bird_validates_name (clk : Clock) (req : Request) (d : string) (s : State) :
  match truthy (req_body_name req) with
  | None => True
  | Some n => 10 < Z.of_nat (String.length n)
  end ->
  exists msg, create_bird clk req d s = (Send (mkResponse 400 (B_error msg)), s).
Proof.
  unfold create_bird. destruct (truthy (req_body_name req)) as [n|]; intros H.
  - apply Z.ltb_lt in H. rewrite H. eexists. reflexivity.
  - eexists. reflexivity.
Qed.

End Names.

(** C7 at a failing input.  PUT /api/birds/1 with an 11-character name, on a
    store whose names are all within 10 characters, is answered with 200 and
    stores the name: the update handler has no length check. *)
Theorem update_stores_long_name :
  let s := mkState [] [] [mkBird 1 "Robin" None] None [] in
  let req := plainRequest PUT "/api/birds/1" (Some "1") (Some "ABCDEFGHIJK") in
  let r := app (fun h => Some h) noon req s in
  namesBounded (birds s) /\
  fst r = Send (mkResponse 200
                  (B_birdOp (mkBird 1 "ABCDEFGHIJK" None) "PUT /api/birds/1")) /\
  birds (snd r) = [mkBird 1 "ABCDEFGHIJK" None] /\
  ~ namesBounded (birds (snd r)).
Proof.
  cbv zeta. split; [repeat constructor; cbn; lia|].
  split; [vm_compute; reflexivity|].
  split; [vm_compute; reflexivity|].
  intros H. assert (E : birds (snd (app (fun h => Some h) noon
     (plainRequest PUT "/api/birds/1" (Some "1") (Some "ABCDEFGHIJK"))
     (mkState [] [] [mkBird 1 "Robin" None] None []))) = [mkBird 1 "ABCDEFGHIJK" None])
    by (vm_compute; reflexivity).
  rewrite E in H. inversion H as [|? ? Hb _]; subst. cbn in Hb. lia.
Qed.

(** ** The record store *)

Section Store.
Variable decodeURIComponent : string -> option string.

Lemma logOperation_decodes (clk : Clock) (req : Request) (s : State) :
  headerDecodes decodeURIComponent req ->
  exists operationDesc,
    logOperation decodeURIComponent clk req s =
    (Next operationDesc,
     set_operationLog (recordLog clk req operationDesc (operationLog s)) s).
Proof.
  intros Hd. destruct (logOperation_cases decodeURIComponent clk req s) as [E|E];
    [|exact E].
  exfalso. unfold headerDecodes in Hd. unfold logOperation in E.
  destruct (truthy (req_x_operation_desc req)) as [h|].
  - specialize (Hd h eq_refl). destruct (decodeURIComponent h); [discriminate|congruence].
  - discriminate.
Qed.

Lemma find_head (b : Bird) (bs : list Bird) :
  findBird (Some (id b)) (b :: bs) = Some b.
Proof. cbn. rewrite Z.eqb_refl. reflexivity. Qed.

(** C8, as amended.  A valid create is answered with 201 and the new record,
    whose id is the creation time; the record is put first, so GET
    /api/birds/:id with that id returns it at once.  The id is carried by
    exactly one stored record when the creation time differs from every id
    already in the store. *)
Theorem create_then_get (clk : Clock) (req : Request) (s : State) (n : string) :
  req_method req = POST ->
  req_params_id req = None ->
  recentCount clk req s < 8 ->
  headerDecodes decodeURIComponent req ->
  truthy (req_body_name req) = Some n ->
  Z.of_nat (String.length n) <= 10 ->
  match req_file req with Some f => size f <= 1048576 | None => True end ->
  let b := mkBird (createNow clk) n (option_map filename (req_file req)) in
  let r := app decodeURIComponent clk req s in
  (exists operationDesc, fst r = Send (mkResponse 201 (B_birdOp b operationDesc))) /\
  birds (snd r) = b :: birds s /\
  (forall clk' req',
     req_method req' = GET ->
     req_params_id req' = Some (Z_to_string (id b)) ->
     app decodeURIComponent clk' req' (snd r) =
     (Send (mkResponse 200 (B_bird b)), snd r)) /\
  (~ In (createNow clk) (map id (birds s)) ->
   count_occ Z.eq_dec (map id (birds (snd r))) (id b) = 1%nat).
Proof.
  intros Hm Hp Hc Hd Hn Hlen Hfile b r.
  assert (Hr : exists operationDesc s',
             app decodeURIComponent clk req s =
               (Send (mkResponse 201 (B_birdOp b operationDesc)), s') /\
             birds s' = b :: birds s).
  { unfold app. rewrite Hm, Hp. unfold post_birds. unfold bind at 1.
    unfold recentCount in Hc. rewrite (operationRateLimiter_pass clk req s Hc).
    set (s1 := set_ipOperations _ s). unfold bind at 1.
    destruct (logOperation_decodes clk req s1 Hd) as [d E]. rewrite E.
    set (s2 := set_operationLog _ s1). unfold bind at 1.
    assert (Hup : exists imgs, upload_single req s2 = (Next tt, set_images imgs s2)).
    { unfold upload_single. destruct (req_file req) as [f|].
      - assert (Hs : (5 * 1024 * 1024 <? size f) = false) by (apply Z.ltb_ge; lia).
        rewrite Hs. eexists. reflexivity.
      - exists (images s2). reflexivity. }
    destruct Hup as [imgs Eu]. rewrite Eu.
    unfold create_bird. rewrite Hn.
    assert (Hl : (10 <? Z.of_nat (String.length n)) = false) by (apply Z.ltb_ge; lia).
    rewrite Hl.
    assert (Hf : match req_file req with Some f => 1048576 <? size f | None => false end
                 = false).
    { destruct (req_file req) as [f|]; [apply Z.ltb_ge; lia | reflexivity]. }
    rewrite Hf. exists d. eexists. split; reflexivity. }
  destruct Hr as [d [s' [Happ Hbirds]]]. subst r. rewrite Happ. cbn [fst snd].
  assert (Hresp : exists operationDesc,
            @Send Empty_set (mkResponse 201 (B_birdOp b d)) =
            Send (mkResponse 201 (B_birdOp b operationDesc)))
    by (exists d; reflexivity).
  split; [exact Hresp|]. split; [exact Hbirds|]. split.
  - intros clk' req' Hg Hi. unfold app. rewrite Hg, Hi.
    unfold bind, gets, send. rewrite Z_to_string_not_count.
    unfold get_bird. rewrite parseInt_Z_to_string, Hbirds, find_head. reflexivity.
  - intros Hnew. rewrite Hbirds. cbn [map count_occ id b].
    destruct (Z.eq_dec (createNow clk) (createNow clk)) as [_|Hne]; [|congruence].
    f_equal. apply count_occ_not_In. exact Hnew.
Qed.

(** The failures of the handlers that the pipeline reaches when the limiter
    lets the request through. *)
Lemma failing_mutation_status (clk : Clock) (req : Request) (s : State) :
  recentCount clk req s < 8 ->
  headerDecodes decodeURIComponent req ->
  match req_file req with Some f => size f <= 5 * 1024 * 1024 | None => True end ->
  match req_method req, req_params_id req with
  | POST, None =>
      match truthy (req_body_name req) with
      | None => True
      | Some n =>
          10 < Z.of_nat (String.length n) \/
          match req_file req with Some f => 1048576 < size f | None => False end
      end
  | PUT, Some i | DELETE, Some i => findIndex (parseInt i) (birds s) = None
  | _, _ => False
  end ->
  exists resp,
    response_of (app decodeURIComponent clk req s) = Some resp /\
    (status resp = 400 \/ status resp = 404).
Proof.
  intros Hc Hd Hsize Hcase. unfold response_of, app.
  assert (Hup : forall s2, exists imgs, upload_single req s2 = (Next tt, set_images imgs s2)).
  { intros s2. unfold upload_single. destruct (req_file req) as [f|].
    - assert (Hs : (5 * 1024 * 1024 <? size f) = false) by (apply Z.ltb_ge; lia).
      rewrite Hs. eexists. reflexivity.
    - exists (images s2). destruct s2; reflexivity. }
  unfold recentCount in Hc.
  destruct (req_method req), (req_params_id req) as [i|]; try contradiction.
  - unfold post_birds. unfold bind at 1.
    rewrite (operationRateLimiter_pass clk req s Hc). unfold bind at 1.
    set (s1 := set_ipOperations _ s).
    destruct (logOperation_decodes clk req s1 Hd) as [d E]. rewrite E.
    set (s2 := set_operationLog _ s1).
    unfold bind at 1. destruct (Hup s2) as [imgs Eu]. rewrite Eu. unfold create_bird.
    destruct (truthy (req_body_name req)) as [n|].
    + destruct (10 <? Z.of_nat (String.length n)) eqn:El.
      * eexists. split; [reflexivity|]. left; reflexivity.
      * apply Z.ltb_ge in El. destruct Hcase as [Hcase|Hcase]; [lia|].
        destruct (req_file req) as [f|]; [|contradiction].
        apply Z.ltb_lt in Hcase. rewrite Hcase.
        eexists. split; [reflexivity|]. left; reflexivity.
    + eexists. split; [reflexivity|]. left; reflexivity.
  - unfold put_bird. unfold bind at 1.
    rewrite (operationRateLimiter_pass clk req s Hc). unfold bind at 1.
    set (s1 := set_ipOperations _ s).
    destruct (logOperation_decodes clk req s1 Hd) as [d E]. rewrite E.
    set (s2 := set_operationLog _ s1).
    unfold bind at 1. destruct (Hup s2) as [imgs Eu]. rewrite Eu. unfold update_bird, bind, gets. subst s2 s1.
    cbn [birds set_images set_operationLog set_ipOperations].
    rewrite Hcase. eexists. split; [reflexivity|]. right; reflexivity.
  - unfold delete_bird. unfold bind at 1.
    rewrite (operationRateLimiter_pass clk req s Hc). unfold bind at 1.
    set (s1 := set_ipOperations _ s).
    destruct (logOperation_decodes clk req s1 Hd) as [d E]. rewrite E.
    unfold remove_bird, bind, gets. subst s1.
    cbn [birds set_images set_operationLog set_ipOperations].
    rewrite Hcase. eexists. split; [reflexivity|]. right; reflexivity.
Qed.

End Store.

(** C8 fails when the clock reads an id that is already in the store: the
    create succeeds and two records carry the id. *)
Lemma create_reuses_an_id :
  ~ (forall (decode : string -> option string) (clk : Clock) (req : Request)
            (s : State) (b : Bird) (operation : string),
       fst (app decode clk req s) = Send (mkResponse 201 (B_birdOp b operation)) ->
       count_occ Z.eq_dec (map id (birds (snd (app decode clk req s)))) (id b) = 1%nat).
Proof.
  intros H.
  specialize (H (fun h => Some h) noon
                (plainRequest POST "/api/birds" None (Some "Wren"))
                (mkState [] [] [mkBird 1000 "Robin" None] None [])
                (mkBird 1000 "Wren" None) "POST /api/birds").
  assert (E : fst (app (fun h => Some h) noon
                (plainRequest POST "/api/birds" None (Some "Wren"))
                (mkState [] [] [mkBird 1000 "Robin" None] None []))
              = Send (mkResponse 201 (B_birdOp (mkBird 1000 "Wren" None) "POST /api/birds")))
    by (vm_compute; reflexivity).
  specialize (H E). vm_compute in H. discriminate.
Qed.

(** ** The data file *)

Lemma append_assoc (a b c : string) : (a ++ b) ++ c = a ++ (b ++ c).
Proof. induction a as [|x a IH]; cbn; [reflexivity | rewrite IH; reflexivity]. Qed.

Lemma append_nil_r (a : string) : a ++ EmptyString = a.
Proof. induction a as [|x a IH]; cbn; [reflexivity | rewrite IH; reflexivity]. Qed.

Lemma length_append (a b : string) :
  String.length (a ++ b) = (String.length a + String.length b)%nat.
Proof. induction a as [|x a IH]; cbn; [reflexivity | rewrite IH; reflexivity]. Qed.

Lemma parseChars_escapeChar (c : ascii) (r : string) :
  parseChars (escapeChar c ++ r) = consChar c (parseChars r).
Proof.
  destruct c as [[] [] [] [] [] [] [] []]; reflexivity.
Qed.

Lemma parseChars_escapeChars (s rest : string) :
  parseChars (escapeChars s ++ String DQUOTE rest) = Some (s, rest).
Proof.
  induction s as [|c s IH].
  - reflexivity.
  - cbn [escapeChars]. rewrite append_assoc, parseChars_escapeChar, IH. reflexivity.
Qed.

Lemma parseValue_string (f : nat) (s rest : string) :
  parseValue (S f) (quoteJSON s ++ rest) = Some (JStr s, rest).
Proof.
  unfold quoteJSON. cbn [append]. rewrite append_assoc. cbn [append str1].
  change (parseValue (S f) (String DQUOTE (escapeChars s ++ String DQUOTE rest)))
    with (withRest JStr (parseChars (escapeChars s ++ String DQUOTE rest))).
  rewrite parseChars_escapeChars. reflexivity.
Qed.

Lemma digitChar_parse_facts (d : Z) :
  0 <= d < 10 ->
  isJsonWs (digitChar d) = false /\ isDigitOf 10 (digitChar d) = true.
Proof. intros H. each_digit d H; split; reflexivity. Qed.

Lemma parseDigits_stop (v : Z) (r : string) :
  parseDigits 10 (String "," r) (Some v) = (Some v, String "," r).
Proof. reflexivity. Qed.

Lemma parseNumber_decimal (n : Z) (r : string) :
  0 <= n ->
  parseNumber (decimal n ++ String "," r) = Some (n, String "," r).
Proof.
  intros H. unfold parseNumber.
  destruct (decimal_cases n H) as [[-> E] | [Hpos [d [t [Hd E]]]]].
  - rewrite E. reflexivity.
  - destruct (nonzero_digit_facts d (t ++ String "," r) Hd) as [_ [M [_ [Z0 _]]]].
    pose proof (parseDigits_decimal n (String "," r) H) as P.
    rewrite E in *. cbn [append] in *. rewrite M, Z0, P, parseDigits_stop.
    cbn. f_equal. f_equal. destruct n; reflexivity.
Qed.

Lemma parseNumber_Z_to_string (z : Z) (r : string) :
  parseNumber (Z_to_string z ++ String "," r) = Some (z, String "," r).
Proof.
  destruct (Z_to_string_cases z) as [[H E] | [H E]]; rewrite E.
  - apply parseNumber_decimal. exact H.
  - pose proof (parseNumber_decimal (- z) r ltac:(lia)) as P.
    unfold parseNumber in *. cbn [append].
    replace (stripPrefix "-" (String "-" (decimal (- z) ++ String "," r)))
      with (Some (decimal (- z) ++ String "," r)) by reflexivity.
    destruct (decimal_cases (- z) ltac:(lia)) as [[E0 _] | [_ [d [t [Hd Ed]]]]]; [lia|].
    destruct (nonzero_digit_facts d (t ++ String "," r) Hd) as [_ [M _]].
    rewrite Ed in *. cbn [append] in *. rewrite M in P.
    destruct (match stripPrefix "0" (String (digitChar d) (t ++ String "," r)) with
              | Some r0 => (Some 0, r0)
              | None => parseDigits 10 (String (digitChar d) (t ++ String "," r)) None
              end) as [[v|] rest]; [|discriminate].
    destruct rest as [|c rest].
    + injection P as P1 P2. discriminate.
    + destruct ((code c =? 46) || (code c =? 101) || (code c =? 69)); [discriminate|].
      injection P as P1 P2 P3. subst c rest. f_equal. f_equal.
      destruct v; cbn in P1 |- *; lia.
Qed.

Lemma Z_to_string_head (z : Z) :
  exists c t, Z_to_string z = String c t /\
              isJsonWs c = false /\ (isDigitOf 10 c || (code c =? 45)) = true.
Proof.
  destruct (Z_to_string_cases z) as [[H E] | [H E]]; rewrite E.
  - destruct (decimal_cases z H) as [[-> E0] | [_ [d [t [Hd Ed]]]]].
    + exists "0"%char, EmptyString. repeat split.
    + exists (digitChar d), t. destruct (digitChar_parse_facts d ltac:(lia)) as [W D].
      rewrite D. repeat split; assumption.
  - exists "-"%char, (decimal (- z)). repeat split.
Qed.

Lemma parseValue_number (f : nat) (z : Z) (r : string) :
  parseValue (S f) (Z_to_string z ++ String "," r) = Some (JNum z, String "," r).
Proof.
  pose proof (parseNumber_Z_to_string z r) as P.
  destruct (Z_to_string_head z) as [c [t [E [W D]]]].
  rewrite E in *. cbn [append] in *. cbn [parseValue skipWs].
  rewrite W, D, P. reflexivity.
Qed.

Lemma parseValue_ws (f : nat) (c : ascii) (s : string) :
  isJsonWs c = true -> parseValue f (String c s) = parseValue f s.
Proof.
  intros H. destruct f; [reflexivity|]. cbn [parseValue skipWs]. rewrite H. reflexivity.
Qed.

Lemma parseMembers_ws (f : nat) (c : ascii) (s : string) :
  isJsonWs c = true -> parseMembers f (String c s) = parseMembers f s.
Proof.
  intros H. destruct f; [reflexivity|]. cbn [parseMembers skipWs]. rewrite H. reflexivity.
Qed.

(** The text of one record, as an element of the top-level array. *)
Lemma stringify_bird (b : Bird) (rest : string) :
  stringify gap (bird_to_json b) ++ rest =
  String "{" (String LF ("    " ++ quoteJSON "id" ++ ": " ++ Z_to_string (id b) ++
    String "," (String LF ("    " ++ quoteJSON "name" ++ ": " ++ quoteJSON (name b) ++
    String "," (String LF ("    " ++ quoteJSON "imageUrl" ++ ": " ++
    stringify "    " (match imageUrl b with Some u => JStr u | None => JNull end) ++
    String LF ("  " ++ String "}" rest))))))).
Proof.
  unfold bird_to_json. cbn [stringify map joinWith fst snd gap append].
  repeat (rewrite !append_assoc; cbn [append]). reflexivity.
Qed.

Lemma skipWs_comma (r : string) : skipWs (String "," r) = String "," r.
Proof. reflexivity. Qed.

Lemma parseMembers_member (f : nat) (key text : string) :
  parseMembers (S f) (quoteJSON key ++ String ":" (String " " text)) =
  match parseValue f text with
  | None => None
  | Some (v, r3) =>
      match skipWs r3 with
      | String c r' =>
          if code c =? 44
          then withRest (cons (key, v)) (parseMembers f r')
          else if code c =? 125 then Some ([(key, v)], r')
          else None
      | EmptyString => None
      end
  end.
Proof.
  unfold quoteJSON. cbn [append]. rewrite append_assoc. cbn [append str1].
  cbn [parseMembers].
  replace (skipWs (String DQUOTE (escapeChars key ++ String DQUOTE (String ":" (String " " text)))))
    with (String DQUOTE (escapeChars key ++ String DQUOTE (String ":" (String " " text))))
    by reflexivity.
  replace (stripPrefix (str1 DQUOTE)
             (String DQUOTE (escapeChars key ++ String DQUOTE (String ":" (String " " text)))))
    with (Some (escapeChars key ++ String DQUOTE (String ":" (String " " text))))
    by reflexivity.
  rewrite parseChars_escapeChars.
  replace (stripPrefix ":" (skipWs (String ":" (String " " text))))
    with (Some (String " " text)) by reflexivity.
  rewrite parseValue_ws by reflexivity. reflexivity.
Qed.

Lemma parseValue_imageUrl (f : nat) (u : option string) (rest : string) :
  parseValue (S f)
    (stringify "    " (match u with Some x => JStr x | None => JNull end) ++ rest) =
  Some (match u with Some x => JStr x | None => JNull end, rest).
Proof.
  destruct u as [x|].
  - cbn [stringify]. apply parseValue_string.
  - reflexivity.
Qed.

Lemma parseValue_bird (f : nat) (b : Bird) (rest : string) :
  parseValue (S (S (S (S (S f))))) (stringify gap (bird_to_json b) ++ rest) =
  Some (bird_to_json b, rest).
Proof.
  rewrite stringify_bird.
  set (m3 := quoteJSON "imageUrl" ++ ": " ++ _).
  set (m2 := quoteJSON "name" ++ ": " ++ _).
  set (m1 := quoteJSON "id" ++ ": " ++ _).
  assert (H3 : parseMembers (S (S f)) m3 =
               Some ([("imageUrl", match imageUrl b with Some u => JStr u | None => JNull end)],
                     rest)).
  { subst m3. cbn [append]. rewrite parseMembers_member, parseValue_imageUrl.
    reflexivity. }
  assert (H2 : parseMembers (S (S (S f))) m2 =
               Some ([("name", JStr (name b));
                      ("imageUrl", match imageUrl b with Some u => JStr u | None => JNull end)],
                     rest)).
  { subst m2. cbn [append]. rewrite parseMembers_member, parseValue_string.
    rewrite skipWs_comma. change (code "," =? 44) with true. cbv iota.
    rewrite !parseMembers_ws by reflexivity. rewrite H3. reflexivity. }
  assert (H1 : parseMembers (S (S (S (S f)))) m1 = Some (
     [("id", JNum (id b)); ("name", JStr (name b));
      ("imageUrl", match imageUrl b with Some u => JStr u | None => JNull end)], rest)).
  { subst m1. cbn [append]. rewrite parseMembers_member, parseValue_number.
    rewrite skipWs_comma. change (code "," =? 44) with true. cbv iota.
    rewrite !parseMembers_ws by reflexivity. rewrite H2. reflexivity. }
  cbn [append].
  change (parseValue (S (S (S (S (S f))))) (String "{" (String LF (String " " (String " " (String " " (String " " m1)))))))
    with (match stripPrefix "}" (skipWs m1) with
          | Some rest0 => Some (JObj [], rest0)
          | None => withRest JObj (parseMembers (S (S (S (S f))))
                      (String LF (String " " (String " " (String " " (String " " m1))))))
          end).
  rewrite !parseMembers_ws by reflexivity. rewrite H1.
  subst m1. reflexivity.
Qed.

Lemma parseElements_step (f : nat) (s : string) :
  parseElements (S f) s =
  match parseValue f s with
  | None => None
  | Some (v, r) =>
      match skipWs r with
      | String c r' =>
          if code c =? 44 then withRest (cons v) (parseElements f r')
          else if code c =? 93 then Some ([v], r')
          else None
      | EmptyString => None
      end
  end.
Proof. reflexivity. Qed.

Lemma parseElements_birds (bs : list Bird) :
  forall (b : Bird) (f : nat) (rest : string),
  (List.length bs <= f)%nat ->
  parseElements (S (S (S (S (S (S f))))))
    (String LF (gap ++ joinWith elementSeparator (birdTexts (b :: bs))
                    ++ String LF (String "]" rest))) =
  Some (map bird_to_json (b :: bs), rest).
Proof.
  induction bs as [|b' bs IH]; intros b f rest Hf.
  - cbn [birdTexts map joinWith gap append].
    rewrite parseElements_step. rewrite !parseValue_ws by reflexivity.
    rewrite parseValue_bird. reflexivity.
  - destruct f as [|f]; [cbn in Hf; lia|].
    specialize (IH b' f rest ltac:(cbn in Hf; lia)).
    change (birdTexts (b :: b' :: bs))
      with (stringify gap (bird_to_json b) :: birdTexts (b' :: bs)).
    change (joinWith elementSeparator
              (stringify gap (bird_to_json b) :: birdTexts (b' :: bs)))
      with (stringify gap (bird_to_json b) ++ elementSeparator
              ++ joinWith elementSeparator (birdTexts (b' :: bs))).
    rewrite !append_assoc. unfold elementSeparator at 1. cbn [append gap].
    change (String " " (String " " ?x)) with (gap ++ x) in IH.
    rewrite parseElements_step. rewrite !parseValue_ws by reflexivity.
    rewrite parseValue_bird, skipWs_comma.
    change (code "," =? 44) with true. cbv iota.
    cbn [gap append] in IH. rewrite IH. reflexivity.
Qed.

Lemma length_birdTexts (bs : list Bird) :
  (List.length bs <= String.length (joinWith elementSeparator (birdTexts bs)))%nat.
Proof.
  induction bs as [|b bs IH]; [cbn; lia|].
  destruct bs as [|b' bs].
  - cbn [birdTexts map joinWith]. 
    pose proof (stringify_bird b EmptyString) as E. rewrite append_nil_r in E.
    rewrite E. cbn [String.length List.length]. lia.
  - change (birdTexts (b :: b' :: bs))
      with (stringify gap (bird_to_json b) :: birdTexts (b' :: bs)).
    change (joinWith elementSeparator
              (stringify gap (bird_to_json b) :: birdTexts (b' :: bs)))
      with (stringify gap (bird_to_json b) ++ elementSeparator
              ++ joinWith elementSeparator (birdTexts (b' :: bs))).
    rewrite !length_append. cbn [List.length] in *.
    pose proof (stringify_bird b EmptyString) as E. rewrite append_nil_r in E.
    rewrite E. cbn [String.length]. unfold elementSeparator at 1. cbn [String.length]. lia.
Qed.

Lemma JSON_stringify_birds (b : Bird) (bs : list Bird) :
  JSON_stringify (birds_to_json (b :: bs)) =
  String "[" (String LF (gap ++ joinWith elementSeparator (birdTexts (b :: bs))
                             ++ String LF (String "]" EmptyString))).
Proof. reflexivity. Qed.

Lemma JSON_parse_birds (bs : list Bird) :
  JSON_parse (JSON_stringify (birds_to_json bs)) = Some (birds_to_json bs).
Proof.
  destruct bs as [|b bs]; [reflexivity|].
  rewrite JSON_stringify_birds. unfold JSON_parse.
  set (body := String LF (gap ++ joinWith elementSeparator (birdTexts (b :: bs))
                              ++ String LF (String "]" EmptyString))).
  assert (Hfuel : exists f, String.length (String "[" body) = S (S (S (S (S (S f)))))
                            /\ (List.length bs <= f)%nat).
  { exists (String.length (joinWith elementSeparator (birdTexts (b :: bs)))).
    subst body. cbn [String.length gap append]. rewrite length_append.
    cbn [String.length]. split; [lia|].
    pose proof (length_birdTexts (b :: bs)) as H. cbn [List.length] in H. lia. }
  destruct Hfuel as [f [Ef Hf]]. rewrite Ef.
  assert (Hopen : stripPrefix "]" (skipWs body) = None).
  { subst body. destruct bs as [|b' bs'].
    - cbn [birdTexts map joinWith gap append]. rewrite stringify_bird. reflexivity.
    - change (birdTexts (b :: b' :: bs'))
        with (stringify gap (bird_to_json b) :: birdTexts (b' :: bs')).
      change (joinWith elementSeparator
                (stringify gap (bird_to_json b) :: birdTexts (b' :: bs')))
        with (stringify gap (bird_to_json b) ++ elementSeparator
                ++ joinWith elementSeparator (birdTexts (b' :: bs'))).
      rewrite append_assoc, stringify_bird. reflexivity. }
  change (parseValue (S (S (S (S (S (S (S f))))))) (String "[" body))
    with (match stripPrefix "]" (skipWs body) with
          | Some rest => Some (JArr [], rest)
          | None => withRest JArr (parseElements (S (S (S (S (S (S f)))))) body)
          end).
  rewrite Hopen. subst body. rewrite (parseElements_birds bs b f EmptyString Hf).
  reflexivity.
Qed.

Lemma bird_of_json_to_json (b : Bird) : bird_of_json (bird_to_json b) = Some b.
Proof. destruct b as [i n [u|]]; reflexivity. Qed.

Lemma birds_of_json_to_json (bs : list Bird) :
  birds_of_json (birds_to_json bs) = Some bs.
Proof.
  unfold birds_of_json, birds_to_json. induction bs as [|b bs IH]; [reflexivity|].
  cbn [map birds_of_elements]. rewrite bird_of_json_to_json, IH. reflexivity.
Qed.

(** C9.  [saveData] writes the JSON text of the records, and [initData] on
    that file, whatever the memory held in between, gives back the same
    records in the same order with the same fields. *)
Theorem save_then_init (s : State) (lost : list Bird) :
  let saved := snd (saveData s) in
  dataFile saved = Some (JSON_stringify (birds_to_json (birds s))) /\
  birds (initData (set_birds lost saved)) = birds s /\
  (forall i : nat,
     nth_error (birds (initData (set_birds lost saved))) i = nth_error (birds s) i).
Proof.
  cbv zeta. unfold saveData, modify, initData.
  cbn [snd dataFile set_birds set_dataFile birds].
  rewrite JSON_parse_birds, birds_of_json_to_json.
  repeat split; reflexivity.
Qed.

(** ** The properties on sample data *)

Example parseInt_examples :
  parseInt "  -12px" = Some (-12) /\ parseInt "0x1F" = Some 31 /\
  parseInt "abc" = None /\ parseInt "+7" = Some 7.
Proof. repeat split; reflexivity. Qed.

Example toLowerCase_example : toLowerCase "Blue JAY" = "blue jay".
Proof. reflexivity. Qed.

Example slice_examples :
  slice 0 2 [1; 2; 3] = [1; 2] /\ slice (-2) 5 [1; 2; 3] = [2; 3] /\
  slice 4 9 [1; 2; 3] = [].
Proof. repeat split; reflexivity. Qed.

Example JSON_parse_examples :
  JSON_parse " [1, {}, [ ], true, null, -0] " =
    Some (JArr [JNum 1; JObj []; JArr []; JBool true; JNull; JNum 0]) /\
  JSON_parse "[1, 02]" = None.
Proof. split; reflexivity. Qed.


Lemma rejection_keeps_rate_limit_state_witness :
  8 <= recentCount noon (createRequest "10.0.0.1" "Wren") busyState /\
  snd (app (fun h => Some h) noon (createRequest "10.0.0.1" "Wren") busyState)
  = busyState.
Proof.
  assert (H : 8 <= recentCount noon (createRequest "10.0.0.1" "Wren") busyState)
    by (vm_compute; discriminate).
  split; [exact H|].
  exact (proj1 (proj2 (rejection_keeps_rate_limit_state (fun h => Some h) noon
                         (createRequest "10.0.0.1" "Wren") busyState H) eq_refl)).
Defined.

Lemma rate_limited_request_is_not_logged_witness :
  response_of (app (fun h => Some h) noon (createRequest "10.0.0.1" "Wren") busyState)
    = Some (rateLimitResponse 0) /\
  operationLog (snd (app (fun h => Some h) noon (createRequest "10.0.0.1" "Wren")
                         busyState)) = [].
Proof.
  assert (H : response_of (app (fun h => Some h) noon
                             (createRequest "10.0.0.1" "Wren") busyState)
              = Some (rateLimitResponse 0)) by reflexivity.
  split; [exact H|].
  exact (proj2 (rate_limited_request_is_not_logged (fun h => Some h) noon
                  (createRequest "10.0.0.1" "Wren") busyState (rateLimitResponse 0)
                  eq_refl H eq_refl)).
Defined.

Lemma failed_mutation_is_recorded_witness :
  response_of (app (fun h => Some h) noon
                 (plainRequest DELETE "/api/birds/7" (Some "7") None) emptyState)
    = Some (mkResponse 404 (B_error "Bird not found")) /\
  ipOperations (snd (app (fun h => Some h) noon
                       (plainRequest DELETE "/api/birds/7" (Some "7") None) emptyState))
    = [mkIpOp "10.0.0.1" 1000 DELETE "/api/birds/7"].
Proof.
  assert (H : response_of (app (fun h => Some h) noon
                 (plainRequest DELETE "/api/birds/7" (Some "7") None) emptyState)
              = Some (mkResponse 404 (B_error "Bird not found"))) by reflexivity.
  split; [exact H|].
  exact (proj1 (proj2 (proj2 (failed_mutation_is_recorded (fun h => Some h) noon
           (plainRequest DELETE "/api/birds/7" (Some "7") None) emptyState
           (mkResponse 404 (B_error "Bird not found"))
           eq_refl H (or_intror eq_refl) eq_refl)))).
Defined.


Lemma page_zero_or_invalid_is_page_one_witness :
  get_birds (Some "0") None sampleBirds = get_birds (Some "1") None sampleBirds /\
  get_birds (Some "x") None sampleBirds = get_birds (Some "1") None sampleBirds /\
  get_birds None None sampleBirds = get_birds (Some "1") None sampleBirds.
Proof.
  split; [|split].
  - exact (page_zero_or_invalid_is_page_one (Some "0") None sampleBirds
             (or_intror eq_refl)).
  - exact (page_zero_or_invalid_is_page_one (Some "x") None sampleBirds
             (or_introl eq_refl)).
  - exact (page_zero_or_invalid_is_page_one None None sampleBirds I).
Defined.

Lemma create_then_get_witness :
  let r := app (fun h => Some h) noon (createRequest "10.0.0.1" "Wren") emptyState in
  birds (snd r) = [mkBird 1000 "Wren" None] /\
  app (fun h => Some h) noon (plainRequest GET "/api/birds/1000" (Some "1000") None)
      (snd r) = (Send (mkResponse 200 (B_bird (mkBird 1000 "Wren" None))), snd r) /\
  count_occ Z.eq_dec (map id (birds (snd r))) 1000 = 1%nat.
Proof.
  destruct (create_then_get (fun h => Some h) noon (createRequest "10.0.0.1" "Wren")
              emptyState "Wren" eq_refl eq_refl ltac:(vm_compute; reflexivity)
              ltac:(intros h Hh; discriminate Hh) eq_refl
              ltac:(vm_compute; discriminate) I)
    as [_ [H1 [H2 H3]]].
  cbv zeta. split; [exact H1|]. split.
  - exact (H2 noon (plainRequest GET "/api/birds/1000" (Some "1000") None)
              eq_refl eq_refl).
  - exact (H3 (fun F => F)).
Defined.

(** * Further properties of the server *)

(** ** The middleware chain, end to end *)

Section Pipeline.
Variable decodeURIComponent : string -> option string.

Lemma logOperation_described (clk : Clock) (req : Request) (s : State) (d : string) :
  operationDescOf decodeURIComponent req = Some d ->
  logOperation decodeURIComponent clk req s =
  (Next d, set_operationLog (recordLog clk req d (operationLog s)) s).
Proof.
  unfold operationDescOf, logOperation. intros H. rewrite H. reflexivity.
Qed.

Lemma logOperation_throws (clk : Clock) (req : Request) (s : State) :
  operationDescOf decodeURIComponent req = None ->
  logOperation decodeURIComponent clk req s = (Unhandled, s).
Proof.
  unfold operationDescOf, logOperation. intros H. rewrite H. reflexivity.
Qed.

Lemma upload_single_fits (req : Request) (s : State) :
  uploadFits req ->
  upload_single req s =
  (Next tt, match req_file req with
            | Some _ => set_images (storeUpload req (images s)) s
            | None => s
            end).
Proof.
  unfold uploadFits, upload_single, storeUpload. destruct (req_file req) as [f|].
  - intros H. assert (E : (5 * 1024 * 1024 <? size f) = false) by (apply Z.ltb_ge; lia).
    rewrite E. reflexivity.
  - reflexivity.
Qed.

(** A mutating request that the limiter lets through, whose description
    decodes and whose upload fits, reaches its handler. *)
Lemma reaches_handler (clk : Clock) (req : Request) (s : State) (d : string) :
  mutating req = true ->
  recentCount clk req s < 8 ->
  operationDescOf decodeURIComponent req = Some d ->
  (req_method req <> DELETE -> uploadFits req) ->
  app decodeURIComponent clk req s = handlerOf clk req d (handlerState clk req d s).
Proof.
  unfold mutating, recentCount. intros Hm Hc Hd Hu.
  unfold app, handlerOf, handlerState.
  destruct (req_method req) eqn:Em, (req_params_id req) as [i|] eqn:Ei; try discriminate.
  - unfold post_birds. unfold bind at 1.
    rewrite (operationRateLimiter_pass clk req s Hc). unfold bind at 1.
    rewrite (logOperation_described _ _ _ d Hd). unfold bind at 1.
    rewrite (upload_single_fits _ _ (Hu ltac:(discriminate))). unfold storeUpload.
    destruct (req_file req); reflexivity.
  - unfold put_bird. unfold bind at 1.
    rewrite (operationRateLimiter_pass clk req s Hc). unfold bind at 1.
    rewrite (logOperation_described _ _ _ d Hd). unfold bind at 1.
    rewrite (upload_single_fits _ _ (Hu ltac:(discriminate))). unfold storeUpload.
    destruct (req_file req); reflexivity.
  - unfold delete_bird. unfold bind at 1.
    rewrite (operationRateLimiter_pass clk req s Hc). unfold bind at 1.
    rewrite (logOperation_described _ _ _ d Hd). reflexivity.
Qed.

(** The ways in which a mutating route ends. *)
Lemma mutating_route_cases (clk : Clock) (req : Request) (s : State) :
  mutating req = true ->
  (8 <= recentCount clk req s /\
   app decodeURIComponent clk req s =
     (Send (rateLimitResponse
              (ceilDiv (limiterNow clk - DAY_MS + DAY_MS - limiterNow clk) 1000)), s)) \/
  (recentCount clk req s < 8 /\
   operationDescOf decodeURIComponent req = None /\
   app decodeURIComponent clk req s =
     (Unhandled, set_ipOperations (recordOperation clk req (ipOperations s)) s)) \/
  (exists d f,
     recentCount clk req s < 8 /\
     operationDescOf decodeURIComponent req = Some d /\
     req_method req <> DELETE /\ req_file req = Some f /\ 5 * 1024 * 1024 < size f /\
     app decodeURIComponent clk req s =
       (Send (mkResponse 500 (B_error "File too large")),
        set_operationLog (recordLog clk req d (operationLog s))
          (set_ipOperations (recordOperation clk req (ipOperations s)) s))) \/
  (exists d,
     recentCount clk req s < 8 /\
     operationDescOf decodeURIComponent req = Some d /\
     app decodeURIComponent clk req s =
       handlerOf clk req d (handlerState clk req d s)).
Proof.
  intros Hm.
  destruct (Z_lt_le_dec (recentCount clk req s) 8) as [Hc|Hc].
  2:{ left. split; [exact Hc|]. apply mutating_rejected; assumption. }
  right. destruct (operationDescOf decodeURIComponent req) as [d|] eqn:Hd.
  2:{ left. split; [exact Hc|]. split; [reflexivity|].
      unfold mutating, recentCount in *. unfold app.
      destruct (req_method req) eqn:Em, (req_params_id req) as [i|] eqn:Ei;
        try discriminate.
      - unfold post_birds. unfold bind at 1.
        rewrite (operationRateLimiter_pass clk req s Hc). unfold bind at 1.
        rewrite (logOperation_throws _ _ _ Hd). reflexivity.
      - unfold put_bird. unfold bind at 1.
        rewrite (operationRateLimiter_pass clk req s Hc). unfold bind at 1.
        rewrite (logOperation_throws _ _ _ Hd). reflexivity.
      - unfold delete_bird. unfold bind at 1.
        rewrite (operationRateLimiter_pass clk req s Hc). unfold bind at 1.
        rewrite (logOperation_throws _ _ _ Hd). reflexivity. }
  right.
  assert (Hfit : (req_method req <> DELETE -> uploadFits req) \/
                 (req_method req <> DELETE /\
                  exists f, req_file req = Some f /\ 5 * 1024 * 1024 < size f)).
  { unfold uploadFits. destruct (req_method req) eqn:Em;
      try (destruct (req_file req) as [f|];
           [destruct (Z_le_gt_dec (size f) (5 * 1024 * 1024));
            [left; intros _; assumption
            |right; split; [discriminate | exists f; split; [reflexivity | lia]]]
           |left; intros _; exact I]).
    left. intros H. congruence. }
  destruct Hfit as [Hfit | [Hnd [f [Hf Hbig]]]].
  - right. exists d. split; [exact Hc|]. split; [reflexivity|].
    apply reaches_handler; assumption.
  - left. exists d, f. repeat split; try assumption.
    unfold mutating, recentCount in *. unfold app.
    assert (Hup : forall s0, upload_single req s0 =
                    (Send (mkResponse 500 (B_error "File too large")), s0)).
    { intros s0. unfold upload_single. rewrite Hf.
      assert (E : (5 * 1024 * 1024 <? size f) = true) by (apply Z.ltb_lt; lia).
      rewrite E. reflexivity. }
    destruct (req_method req) eqn:Em, (req_params_id req) as [i|] eqn:Ei;
      try discriminate; try congruence.
    + unfold post_birds. unfold bind at 1.
      rewrite (operationRateLimiter_pass clk req s Hc). unfold bind at 1.
      rewrite (logOperation_described _ _ _ d Hd). unfold bind at 1.
      rewrite Hup. reflexivity.
    + unfold put_bird. unfold bind at 1.
      rewrite (operationRateLimiter_pass clk req s Hc). unfold bind at 1.
      rewrite (logOperation_described _ _ _ d Hd). unfold bind at 1.
      rewrite Hup. reflexivity.
Qed.

(** X1.  When the X-Operation-Desc header of a mutating request cannot be
    decoded, the request has already been counted by the limiter: its entry
    is in the rate-limit file, nothing is logged, the store is untouched and
    this code sends no answer. *)
Theorem undecodable_description_consumes_quota
    (clk : Clock) (req : Request) (s : State) :
  mutating req = true ->
  recentCount clk req s < 8 ->
  operationDescOf decodeURIComponent req = None ->
  app decodeURIComponent clk req s =
  (Unhandled, set_ipOperations (recordOperation clk req (ipOperations s)) s).
Proof.
  unfold mutating, recentCount. intros Hm Hc Hd. unfold app.
  destruct (req_method req) eqn:Em, (req_params_id req) as [i|] eqn:Ei; try discriminate.
  - unfold post_birds. unfold bind at 1.
    rewrite (operationRateLimiter_pass clk req s Hc). unfold bind at 1.
    rewrite (logOperation_throws _ _ _ Hd). reflexivity.
  - unfold put_bird. unfold bind at 1.
    rewrite (operationRateLimiter_pass clk req s Hc). unfold bind at 1.
    rewrite (logOperation_throws _ _ _ Hd). reflexivity.
  - unfold delete_bird. unfold bind at 1.
    rewrite (operationRateLimiter_pass clk req s Hc). unfold bind at 1.
    rewrite (logOperation_throws _ _ _ Hd). reflexivity.
Qed.

End Pipeline.

(** ** Finding, replacing and removing a record *)

Lemma findIndexFrom_split (z : Z) (l : list Bird) :
  forall k n,
  findIndexFrom z k l = Some n ->
  exists pre old post,
    l = (pre ++ old :: post)%list /\ id old = z /\
    Forall (fun b => id b <> z) pre /\ n = (k + List.length pre)%nat.
Proof.
  induction l as [|b l IH]; intros k n H; [discriminate|].
  cbn [findIndexFrom] in H. destruct (id b =? z) eqn:E.
  - injection H as <-. apply Z.eqb_eq in E.
    exists [], b, l. repeat split; [exact E | constructor | cbn; lia].
  - apply Z.eqb_neq in E. destruct (IH _ _ H) as [pre [old [post [-> [Ho [Hp ->]]]]]].
    exists (b :: pre), old, post. repeat split; [exact Ho | constructor; assumption | cbn; lia].
Qed.

Lemma findIndexFrom_None (z : Z) (l : list Bird) :
  forall k, findIndexFrom z k l = None <-> ~ In z (map id l).
Proof.
  induction l as [|b l IH]; intros k; cbn [findIndexFrom map In].
  - split; [intros _ [] | reflexivity].
  - destruct (id b =? z) eqn:E.
    + apply Z.eqb_eq in E. split; [discriminate | intros H; exfalso; apply H; left; exact E].
    + apply Z.eqb_neq in E. rewrite IH. tauto.
Qed.

Lemma findIndex_present (z : Z) (l : list Bird) :
  In z (map id l) ->
  exists pre old post,
    l = (pre ++ old :: post)%list /\ id old = z /\
    Forall (fun b => id b <> z) pre /\
    findIndex (Some z) l = Some (List.length pre).
Proof.
  intros H. cbn [findIndex].
  destruct (findIndexFrom z 0 l) as [n|] eqn:E.
  - destruct (findIndexFrom_split z l 0 n E) as [pre [old [post [Hl [Ho [Hp Hn]]]]]].
    exists pre, old, post. repeat split; try assumption. rewrite Hn. reflexivity.
  - apply findIndexFrom_None in E. contradiction.
Qed.

Lemma nth_error_split {A : Type} (pre : list A) (x : A) (post : list A) :
  nth_error (pre ++ x :: post) (List.length pre) = Some x.
Proof. induction pre as [|a pre IH]; [reflexivity | exact IH]. Qed.

Lemma setAt_split {A : Type} (pre : list A) (x v : A) (post : list A) :
  setAt (List.length pre) v (pre ++ x :: post) = (pre ++ v :: post)%list.
Proof. induction pre as [|a pre IH]; cbn; [reflexivity | rewrite IH; reflexivity]. Qed.

Lemma removeAt_split {A : Type} (pre : list A) (x : A) (post : list A) :
  removeAt (List.length pre) (pre ++ x :: post) = (pre ++ post)%list.
Proof. induction pre as [|a pre IH]; cbn; [reflexivity | rewrite IH; reflexivity]. Qed.

Lemma find_split (z : Z) (pre : list Bird) (old : Bird) (post : list Bird) :
  Forall (fun b => id b <> z) pre -> id old = z ->
  find (fun bird => id bird =? z) (pre ++ old :: post) = Some old.
Proof.
  intros Hp Ho. induction Hp as [|b pre Hb Hp IH]; cbn [List.app find]; cbv beta.
  - apply Z.eqb_eq in Ho. rewrite Ho. reflexivity.
  - apply Z.eqb_neq in Hb. rewrite Hb. exact IH.
Qed.

Lemma find_absent (z : Z) (l : list Bird) :
  ~ In z (map id l) -> find (fun bird => id bird =? z) l = None.
Proof.
  induction l as [|b l IH]; intros H; [reflexivity|]. cbn [find]. cbv beta.
  destruct (id b =? z) eqn:E.
  - apply Z.eqb_eq in E. exfalso. apply H. left. exact E.
  - apply IH. intros Hin. apply H. right. exact Hin.
Qed.

(** The update handler on a store that holds the id. *)
Lemma update_bird_found (req : Request) (i d : string) (s : State)
    (pre : list Bird) (old : Bird) (post : list Bird) :
  birds s = (pre ++ old :: post)%list ->
  findIndex (parseInt i) (birds s) = Some (List.length pre) ->
  let upd := updatedRecord req old in
  exists imgs,
    update_bird req i d s =
    (Send (mkResponse 200 (B_birdOp upd d)),
     mkState (ipOperations s) (operationLog s) (pre ++ upd :: post)%list
             (written (pre ++ upd :: post)%list) imgs) /\
    imgs = match req_file req, truthy (imageUrl old) with
           | Some _, Some u => remove string_dec u (images s)
           | _, _ => images s
           end.
Proof.
  intros Hb Hk. cbv zeta. unfold update_bird, bind, gets. rewrite Hk, Hb.
  rewrite nth_error_split. unfold updatedRecord.
  destruct (truthy (req_body_name req)) as [n|]; destruct (req_file req) as [f|];
    cbn [imageUrl id name]; try destruct (truthy (imageUrl old)) as [u|];
    unfold unlink, modify, ret, saveData, send;
    cbn [birds set_birds set_images set_dataFile images ipOperations operationLog dataFile];
    rewrite ?Hb, ?setAt_split; eexists; split; try reflexivity;
    destruct old as [oi on ou]; reflexivity.
Qed.

(** The delete handler on a store that holds the id. *)
Lemma remove_bird_found (i d : string) (s : State)
    (pre : list Bird) (old : Bird) (post : list Bird) :
  birds s = (pre ++ old :: post)%list ->
  findIndex (parseInt i) (birds s) = Some (List.length pre) ->
  remove_bird i d s =
  (Send (mkResponse 200 (B_deleted "Bird deleted successfully" d)),
   mkState (ipOperations s) (operationLog s) (pre ++ post)%list
           (written (pre ++ post)%list)
           (match truthy (imageUrl old) with
            | Some u => remove string_dec u (images s)
            | None => images s
            end)).
Proof.
  intros Hb Hk. unfold remove_bird, bind, gets. rewrite Hk, Hb.
  rewrite nth_error_split.
  destruct (truthy (imageUrl old)) as [u|];
    unfold unlink, modify, ret, saveData, send;
    cbn [birds set_birds set_images set_dataFile images ipOperations operationLog dataFile];
    rewrite ?Hb, ?removeAt_split; reflexivity.
Qed.

Section Mutations.
Variable decodeURIComponent : string -> option string.

(** X3.  A PUT that reaches its handler with an id held by the store
    replaces the first record with that id, in place: the supplied name and
    image replace the old ones, the id, the position and every other record
    are kept, the data file is rewritten, and a PUT that supplies neither a
    name nor an image leaves the records as they were. *)
Theorem put_replaces_first_match
    (clk : Clock) (req : Request) (s : State) (i d : string) (z : Z) :
  req_method req = PUT ->
  req_params_id req = Some i ->
  recentCount clk req s < 8 ->
  operationDescOf decodeURIComponent req = Some d ->
  uploadFits req ->
  parseInt i = Some z ->
  In z (map id (birds s)) ->
  let r := app decodeURIComponent clk req s in
  exists pre old post,
    birds s = (pre ++ old :: post)%list /\
    id old = z /\
    Forall (fun b => id b <> z) pre /\
    fst r = Send (mkResponse 200 (B_birdOp (updatedRecord req old) d)) /\
    birds (snd r) = (pre ++ updatedRecord req old :: post)%list /\
    map id (birds (snd r)) = map id (birds s) /\
    dataFile (snd r) = written (birds (snd r)) /\
    (truthy (req_body_name req) = None -> req_file req = None ->
     birds (snd r) = birds s).
Proof.
  intros Hm Hp Hc Hd Hu Hi Hin r.
  destruct (findIndex_present z (birds s) Hin) as [pre [old [post [Hb [Ho [Hpre Hk]]]]]].
  exists pre, old, post.
  assert (Hmut : mutating req = true) by (unfold mutating; rewrite Hm, Hp; reflexivity).
  subst r. rewrite (reaches_handler decodeURIComponent clk req s d Hmut Hc Hd (fun _ => Hu)).
  unfold handlerOf. rewrite Hm, Hp.
  destruct (update_bird_found req i d (handlerState clk req d s) pre old post)
    as [imgs [E _]]; [exact Hb | rewrite Hi; exact Hk |].
  cbv zeta in E. rewrite E. cbn [fst snd birds dataFile].
  repeat split; try assumption; try reflexivity.
  - rewrite Hb, !map_app. cbn [map updatedRecord id]. reflexivity.
  - intros Hn Hf. rewrite Hb. unfold updatedRecord. rewrite Hn, Hf.
    destruct old; reflexivity.
Qed.

(** X4.  A PUT with a new image stores the record with the new file name;
    the old image file, when the record had one, is removed from the image
    directory and the new file is there (the two names being different). *)
Theorem put_swaps_image
    (clk : Clock) (req : Request) (s : State) (i d : string) (z : Z)
    (f : UploadedFile) :
  req_method req = PUT ->
  req_params_id req = Some i ->
  recentCount clk req s < 8 ->
  operationDescOf decodeURIComponent req = Some d ->
  req_file req = Some f ->
  size f <= 5 * 1024 * 1024 ->
  parseInt i = Some z ->
  In z (map id (birds s)) ->
  let r := app decodeURIComponent clk req s in
  exists pre old post,
    birds s = (pre ++ old :: post)%list /\
    id old = z /\
    Forall (fun b => id b <> z) pre /\
    nth_error (birds (snd r)) (List.length pre) =
      Some (mkBird z (name (updatedRecord req old)) (Some (filename f))) /\
    forall u, truthy (imageUrl old) = Some u ->
      ~ In u (images (snd r)) /\
      (u <> filename f -> In (filename f) (images (snd r))).
Proof.
  intros Hm Hp Hc Hd Hf Hsz Hi Hin r.
  destruct (findIndex_present z (birds s) Hin) as [pre [old [post [Hb [Ho [Hpre Hk]]]]]].
  exists pre, old, post.
  assert (Hmut : mutating req = true) by (unfold mutating; rewrite Hm, Hp; reflexivity).
  assert (Hu : uploadFits req) by (unfold uploadFits; rewrite Hf; exact Hsz).
  subst r. rewrite (reaches_handler decodeURIComponent clk req s d Hmut Hc Hd (fun _ => Hu)).
  unfold handlerOf. rewrite Hm, Hp.
  destruct (update_bird_found req i d (handlerState clk req d s) pre old post)
    as [imgs [E Himgs]]; [exact Hb | rewrite Hi; exact Hk |].
  cbv zeta in E. rewrite E. cbn [fst snd birds images].
  repeat split; try assumption.
  - rewrite nth_error_split. unfold updatedRecord. rewrite Hf, Ho. reflexivity.
  - subst imgs. rewrite Hf, H. apply remove_In.
  - intros Hne. subst imgs. rewrite Hf, H.
    apply in_in_remove; [congruence|].
    unfold handlerState. cbn [images]. rewrite Hm. unfold storeUpload. rewrite Hf.
    left. reflexivity.
Qed.

(** X5.  A DELETE that reaches its handler with an id held by the store
    removes the first record with that id and nothing else, rewrites the
    data file and removes the image file of the record; when the ids of the
    store are distinct, GET for that id then answers 404. *)
Theorem delete_removes_first_match
    (clk : Clock) (req : Request) (s : State) (i d : string) (z : Z) :
  req_method req = DELETE ->
  req_params_id req = Some i ->
  recentCount clk req s < 8 ->
  operationDescOf decodeURIComponent req = Some d ->
  parseInt i = Some z ->
  In z (map id (birds s)) ->
  let r := app decodeURIComponent clk req s in
  exists pre old post,
    birds s = (pre ++ old :: post)%list /\
    id old = z /\
    Forall (fun b => id b <> z) pre /\
    fst r = Send (mkResponse 200 (B_deleted "Bird deleted successfully" d)) /\
    birds (snd r) = (pre ++ post)%list /\
    dataFile (snd r) = written (birds (snd r)) /\
    (forall u, truthy (imageUrl old) = Some u -> ~ In u (images (snd r))) /\
    (NoDup (map id (birds s)) ->
     get_bird i (birds (snd r)) = mkResponse 404 (B_error "Bird not found")).
Proof.
  intros Hm Hp Hc Hd Hi Hin r.
  destruct (findIndex_present z (birds s) Hin) as [pre [old [post [Hb [Ho [Hpre Hk]]]]]].
  exists pre, old, post.
  assert (Hmut : mutating req = true) by (unfold mutating; rewrite Hm, Hp; reflexivity).
  subst r. rewrite (reaches_handler decodeURIComponent clk req s d Hmut Hc Hd
                      ltac:(intros H; congruence)).
  unfold handlerOf. rewrite Hm, Hp.
  rewrite (remove_bird_found i d (handlerState clk req d s) pre old post);
    [| exact Hb | rewrite Hi; exact Hk].
  cbn [fst snd birds dataFile images].
  repeat split; try assumption; try reflexivity.
  - intros u Hu. rewrite Hu. apply remove_In.
  - intros Hnd. unfold get_bird, findBird. rewrite Hi.
    rewrite find_absent; [reflexivity|].
    rewrite Hb, map_app in Hnd. cbn [map] in Hnd. rewrite Ho in Hnd.
    apply NoDup_remove_2 in Hnd. rewrite map_app. exact Hnd.
Qed.

(** X6.  A create that is refused with 400 (name missing or too long, or
    image above 1 MiB) after multer has stored the uploaded file leaves that
    file in the image directory, while no record is added. *)
Theorem rejected_create_keeps_upload
    (clk : Clock) (req : Request) (s : State) (d : string) (f : UploadedFile) :
  req_method req = POST ->
  req_params_id req = None ->
  recentCount clk req s < 8 ->
  operationDescOf decodeURIComponent req = Some d ->
  req_file req = Some f ->
  size f <= 5 * 1024 * 1024 ->
  (match truthy (req_body_name req) with
   | Some n => 10 < Z.of_nat (String.length n)
   | None => True
   end \/ 1048576 < size f) ->
  let r := app decodeURIComponent clk req s in
  (exists msg, fst r = Send (mkResponse 400 (B_error msg))) /\
  birds (snd r) = birds s /\
  dataFile (snd r) = dataFile s /\
  In (filename f) (images (snd r)).
Proof.
  intros Hm Hp Hc Hd Hf Hsz Hbad r.
  assert (Hmut : mutating req = true) by (unfold mutating; rewrite Hm, Hp; reflexivity).
  assert (Hu : uploadFits req) by (unfold uploadFits; rewrite Hf; exact Hsz).
  subst r. rewrite (reaches_handler decodeURIComponent clk req s d Hmut Hc Hd (fun _ => Hu)).
  unfold handlerOf. rewrite Hm, Hp.
  assert (E : exists msg, create_bird clk req d (handlerState clk req d s) =
                (Send (mkResponse 400 (B_error msg)), handlerState clk req d s)).
  { unfold create_bird. destruct (truthy (req_body_name req)) as [n|].
    - destruct (10 <? Z.of_nat (String.length n)) eqn:El; [eexists; reflexivity|].
      apply Z.ltb_ge in El. destruct Hbad as [Hbad|Hbad]; [lia|].
      rewrite Hf. apply Z.ltb_lt in Hbad. rewrite Hbad. eexists. reflexivity.
    - eexists. reflexivity. }
  destruct E as [msg E]. rewrite E. cbn [fst snd].
  split; [exists msg; reflexivity|].
  unfold handlerState. cbn [birds dataFile images]. rewrite Hm.
  unfold storeUpload. rewrite Hf. repeat split. left. reflexivity.
Qed.

End Mutations.

(** ** What a request does to the store *)

Lemma loadedBirds_written (bs : list Bird) : loadedBirds (written bs) = bs.
Proof.
  unfold loadedBirds, written. rewrite JSON_parse_birds, birds_of_json_to_json.
  reflexivity.
Qed.

Lemma initData_loads (s : State) :
  initData s = set_birds (loadedBirds (dataFile s)) s.
Proof. reflexivity. Qed.

Section Transitions.
Variable decodeURIComponent : string -> option string.

Lemma create_bird_step (clk : Clock) (req : Request) (d : string) (s : State) :
  req_method req = POST -> handlerStep clk req (create_bird clk req d) s.
Proof.
  intros Hm. unfold handlerStep, create_bird.
  destruct (truthy (req_body_name req)) as [n|] eqn:En.
  - destruct (10 <? Z.of_nat (String.length n)) eqn:El.
    + cbn. split; [constructor|]. split; [left; split; reflexivity|].
      intros r Hr [H|H]; injection Hr as <-; discriminate.
    + destruct (match req_file req with Some f => 1048576 <? size f | None => false end).
      * cbn. split; [constructor|]. split; [left; split; reflexivity|].
        intros r Hr [H|H]; injection Hr as <-; discriminate.
      * cbn. split; [apply store_created; [exact Hm | exact En | apply Z.ltb_ge; exact El]|].
        split; [right; reflexivity | intros; reflexivity].
  - cbn. split; [constructor|]. split; [left; split; reflexivity|].
    intros r Hr [H|H]; injection Hr as <-; discriminate.
Qed.

Lemma update_bird_step (clk : Clock) (req : Request) (i d : string) (s : State) :
  req_method req = PUT -> handlerStep clk req (update_bird req i d) s.
Proof.
  intros Hm. unfold handlerStep.
  destruct (findIndex (parseInt i) (birds s)) as [k|] eqn:Ek.
  - assert (Hsplit : exists pre old post,
              birds s = (pre ++ old :: post)%list /\ k = List.length pre).
    { unfold findIndex in Ek. destruct (parseInt i) as [z|]; [|discriminate].
      destruct (findIndexFrom_split z (birds s) 0 k Ek) as [pre [old [post [H1 [_ [_ H2]]]]]].
      exists pre, old, post. split; [exact H1 | exact H2]. }
    destruct Hsplit as [pre [old [post [Hb ->]]]].
    destruct (update_bird_found req i d s pre old post Hb Ek) as [imgs [E _]].
    cbv zeta in E. rewrite E. cbn [fst snd birds dataFile].
    split; [rewrite Hb at 1; apply store_updated; [exact Hm | reflexivity]|].
    split; [right; reflexivity | intros; reflexivity].
  - assert (E : update_bird req i d s = (Send (mkResponse 404 (B_error "Bird not found")), s)).
    { unfold update_bird, bind, gets. rewrite Ek. reflexivity. }
    rewrite E. cbn [fst snd]. split; [constructor|]. split; [left; split; reflexivity|].
    intros r Hr [H|H]; injection Hr as <-; discriminate.
Qed.

Lemma remove_bird_step (clk : Clock) (req : Request) (i d : string) (s : State) :
  req_method req = DELETE -> handlerStep clk req (remove_bird i d) s.
Proof.
  intros Hm. unfold handlerStep.
  destruct (findIndex (parseInt i) (birds s)) as [k|] eqn:Ek.
  - assert (Hsplit : exists pre old post,
              birds s = (pre ++ old :: post)%list /\ k = List.length pre).
    { unfold findIndex in Ek. destruct (parseInt i) as [z|]; [|discriminate].
      destruct (findIndexFrom_split z (birds s) 0 k Ek) as [pre [old [post [H1 [_ [_ H2]]]]]].
      exists pre, old, post. split; [exact H1 | exact H2]. }
    destruct Hsplit as [pre [old [post [Hb ->]]]].
    rewrite (remove_bird_found i d s pre old post Hb Ek). cbn [fst snd birds dataFile].
    split; [rewrite Hb at 1; apply (store_deleted clk req _ pre old post); [exact Hm | reflexivity]|].
    split; [right; reflexivity | intros; reflexivity].
  - assert (E : remove_bird i d s = (Send (mkResponse 404 (B_error "Bird not found")), s)).
    { unfold remove_bird, bind, gets. rewrite Ek. reflexivity. }
    rewrite E. cbn [fst snd]. split; [constructor|]. split; [left; split; reflexivity|].
    intros r Hr [H|H]; injection Hr as <-; discriminate.
Qed.

(** What any request does to the records and to the data file. *)
Lemma app_step (clk : Clock) (req : Request) (s : State) :
  let r := app decodeURIComponent clk req s in
  storeStep clk req (birds s) (birds (snd r)) /\
  ((birds (snd r) = birds s /\ dataFile (snd r) = dataFile s) \/
   dataFile (snd r) = written (birds (snd r))) /\
  (forall resp, mutating req = true -> fst r = Send resp ->
     status resp = 200 \/ status resp = 201 ->
     dataFile (snd r) = written (birds (snd r))).
Proof.
  cbv zeta.
  destruct (mutating req) eqn:Hm.
  - destruct (mutating_route_cases decodeURIComponent clk req s Hm)
      as [[_ E] | [[_ [_ E]] | [[d [f [_ [_ [_ [_ [_ E]]]]]]] | [d [_ [_ E]]]]]]; rewrite E.
    + cbn [fst snd]. split; [constructor|]. split; [left; split; reflexivity|].
      intros resp _ Hr [H|H]; injection Hr as <-; discriminate.
    + cbn [fst snd]. split; [constructor|]. split; [left; split; reflexivity|].
      intros resp _ Hr; discriminate.
    + cbn [fst snd]. split; [constructor|]. split; [left; split; reflexivity|].
      intros resp _ Hr [H|H]; injection Hr as <-; discriminate.
    + assert (Hh : handlerStep clk req (handlerOf clk req d) (handlerState clk req d s)).
      { unfold handlerOf, mutating in *.
        destruct (req_method req) eqn:Em, (req_params_id req) as [i|] eqn:Ei;
          try discriminate.
        - apply create_bird_step. exact Em.
        - apply update_bird_step. exact Em.
        - apply remove_bird_step. exact Em. }
      destruct Hh as [H1 [H2 H3]]. cbn [handlerState birds dataFile] in H1, H2.
      split; [exact H1|]. split; [exact H2|]. intros resp _. apply H3.
  - assert (E : snd (app decodeURIComponent clk req s) = s).
    { unfold app, mutating in *.
      destruct (req_method req), (req_params_id req) as [i|]; try discriminate;
        try reflexivity.
      unfold bind, gets, send. destruct (i =? "count")%string; reflexivity. }
    rewrite E. split; [constructor|]. split; [left; split; reflexivity|].
    intros resp Hf. discriminate.
Qed.

Lemma serve_snd_cons (clk : Clock) (req : Request)
    (reqs : list (Clock * Request)) (s : State) :
  snd (serve decodeURIComponent ((clk, req) :: reqs) s) =
  snd (serve decodeURIComponent reqs (snd (app decodeURIComponent clk req s))).
Proof.
  cbn [serve].
  destruct (serve decodeURIComponent reqs (snd (app decodeURIComponent clk req s))).
  reflexivity.
Qed.

(** The ids stay safe integers when the clock of a create is one. *)
Lemma storeStep_safe (clk : Clock) (req : Request) (bs bs' : list Bird) :
  storeStep clk req bs bs' ->
  safeInteger (createNow clk) -> safeIds bs -> safeIds bs'.
Proof.
  unfold safeIds. intros Hstep Hclk Hbs.
  destruct Hstep as [| n _ _ _ | pre old post _ -> | pre old post _ ->].
  - exact Hbs.
  - constructor; [exact Hclk | exact Hbs].
  - apply Forall_app in Hbs. destruct Hbs as [Hpre Hpost].
    apply Forall_app. split; [exact Hpre|].
    inversion Hpost as [|? ? Hold Hrest]; subst.
    constructor; [exact Hold | exact Hrest].
  - apply Forall_app in Hbs. destruct Hbs as [Hpre Hpost].
    apply Forall_app. split; [exact Hpre|].
    inversion Hpost as [|? ? _ Hrest]; subst. exact Hrest.
Qed.

Lemma serve_safe (reqs : list (Clock * Request)) (s : State) :
  Forall (fun cr => safeInteger (createNow (fst cr))) reqs ->
  safeIds (birds s) ->
  safeIds (birds (snd (serve decodeURIComponent reqs s))).
Proof.
  revert s. induction reqs as [|[clk req] reqs IH]; intros s Hclk Hs; [exact Hs|].
  inversion Hclk as [|? ? Hc Hrest]; subst. cbn [fst] in Hc.
  rewrite serve_snd_cons. apply IH; [exact Hrest|].
  destruct (app_step clk req s) as [Hstep _].
  exact (storeStep_safe clk req _ _ Hstep Hc Hs).
Qed.

Lemma serve_keeps_file_in_step (reqs : list (Clock * Request)) (s : State) :
  loadedBirds (dataFile s) = birds s ->
  loadedBirds (dataFile (snd (serve decodeURIComponent reqs s)))
  = birds (snd (serve decodeURIComponent reqs s)).
Proof.
  revert s. induction reqs as [|[clk req] reqs IH]; intros s H; [exact H|].
  rewrite serve_snd_cons. apply IH.
  destruct (app_step clk req s) as [_ [[[Hb Hd] | Hw] _]].
  - rewrite Hb, Hd. exact H.
  - rewrite Hw. apply loadedBirds_written.
Qed.

(** X7.  The server starts on a data file that is missing or was written by
    [saveData] from records whose ids are safe integers, and serves any run
    of requests in which the clock of each create is a safe integer.  Then
    the ids in memory are still safe integers, and a restart ([initData] on
    the data file, whatever the memory holds) gives back exactly the records
    the server had in memory. *)
Theorem restart_reproduces_store
    (s0 : State) (reqs : list (Clock * Request)) (bs lost : list Bird) :
  (dataFile s0 = None /\ bs = []) \/ dataFile s0 = written bs ->
  safeIds bs ->
  Forall (fun cr => safeInteger (createNow (fst cr))) reqs ->
  let s := snd (serve decodeURIComponent reqs (initData s0)) in
  birds (initData s0) = bs /\
  safeIds (birds s) /\
  birds (initData (set_birds lost s)) = birds s.
Proof.
  intros Hfile Hbs Hclk. cbv zeta.
  assert (Hstart : birds (initData s0) = bs).
  { rewrite initData_loads. cbn [set_birds birds].
    destruct Hfile as [[Hf ->] | Hf]; rewrite Hf.
    - reflexivity.
    - apply loadedBirds_written. }
  split; [exact Hstart|]. split.
  - apply serve_safe; [exact Hclk | rewrite Hstart; exact Hbs].
  - rewrite initData_loads. cbn [set_birds birds dataFile].
    apply serve_keeps_file_in_step. rewrite initData_loads. reflexivity.
Qed.

(** X8.  A mutating request answered with 200 or 201 leaves the data file
    holding the JSON text of the records in memory, whatever the file held
    before. *)
Theorem successful_mutation_writes_store
    (clk : Clock) (req : Request) (s : State) (resp : Response) :
  mutating req = true ->
  fst (app decodeURIComponent clk req s) = Send resp ->
  status resp = 200 \/ status resp = 201 ->
  let s' := snd (app decodeURIComponent clk req s) in
  dataFile s' = written (birds s') /\
  loadedBirds (dataFile s') = birds s'.
Proof.
  intros Hm Hr Hst. cbv zeta.
  destruct (app_step clk req s) as [_ [_ H]]. specialize (H resp Hm Hr Hst).
  split; [exact H|]. rewrite H. apply loadedBirds_written.
Qed.

Lemma StronglySorted_app_inv (l1 l2 : list Z) (x : Z) :
  StronglySorted Z.gt (l1 ++ x :: l2) -> StronglySorted Z.gt (l1 ++ l2).
Proof.
  induction l1 as [|a l1 IH]; cbn [List.app]; intros H.
  - inversion H; assumption.
  - inversion H as [|? ? Hs Hf]; subst. constructor; [apply IH; exact Hs|].
    rewrite Forall_app in *. destruct Hf as [H1 H2]. inversion H2; subst.
    split; assumption.
Qed.

(** X9.  When the ids decrease along the list (newest first), they still do
    after any request, provided a create happens at a time later than every
    stored id; in particular the ids stay distinct. *)
Theorem newest_first_preserved (clk : Clock) (req : Request) (s : State) :
  newestFirst (birds s) ->
  (req_method req = POST -> Forall (fun b => id b < createNow clk) (birds s)) ->
  let s' := snd (app decodeURIComponent clk req s) in
  newestFirst (birds s') /\ NoDup (map id (birds s')).
Proof.
  intros Hs Hclk. cbv zeta.
  assert (Hnd : forall l, StronglySorted Z.gt l -> NoDup l).
  { clear. intros l H. induction H as [|a l Hl IH Hf]; constructor; [|exact IH].
    intros Hin. rewrite Forall_forall in Hf. specialize (Hf a Hin). lia. }
  assert (H : newestFirst (birds (snd (app decodeURIComponent clk req s)))).
  { unfold newestFirst in *. destruct (app_step clk req s) as [Hstep _].
    inversion Hstep as [E | n Hm Hn Hl E | pre old post Hm Hb E | pre old post Hm Hb E].
    - exact Hs.
    - cbn [map id]. constructor; [exact Hs|].
      specialize (Hclk Hm). rewrite Forall_map.
      rewrite Forall_forall in *. intros b Hb. specialize (Hclk b Hb). lia.
    - rewrite Hb in Hs. rewrite map_app in *. cbn [map updatedRecord id] in *. exact Hs.
    - rewrite Hb in Hs. rewrite map_app in *. cbn [map] in Hs.
      apply StronglySorted_app_inv in Hs. exact Hs. }
  split; [exact H | apply Hnd; exact H].
Qed.

End Transitions.

(** ** The two journals *)

Lemma filter_length_le {A : Type} (f : A -> bool) (l : list A) :
  (List.length (filter f l) <= List.length l)%nat.
Proof.
  induction l as [|x l IH]; cbn; [lia|]. destruct (f x); cbn; lia.
Qed.

Lemma recent_shrinks (ip : string) (t t' : Z) (ops : list IpOp) :
  t <= t' ->
  (List.length (recentOperationsOf ip t' ops)
   <= List.length (recentOperationsOf ip t ops))%nat.
Proof.
  intros Ht.
  assert (E : recentOperationsOf ip t' ops =
              recentOperationsOf ip t' (recentOperationsOf ip t ops)).
  { unfold recentOperationsOf. symmetry. apply filter_filter_implied.
    intros op Hop. apply andb_prop in Hop. destruct Hop as [H1 H2].
    rewrite H2, andb_true_r. apply Z.ltb_lt in H1. apply Z.ltb_lt. lia. }
  rewrite E. unfold recentOperationsOf at 1. apply filter_length_le.
Qed.

Lemma last_default {A : Type} (a : A) (l : list A) (d d' : A) :
  last (a :: l) d = last (a :: l) d'.
Proof.
  revert a. induction l as [|b l IH]; intros a; [reflexivity|].
  change (last (a :: b :: l) d) with (last (b :: l) d).
  change (last (a :: b :: l) d') with (last (b :: l) d'). apply IH.
Qed.

Section Journals.
Variable decodeURIComponent : string -> option string.

(** The rate-limit file after any request: untouched, or with the request
    recorded, the address having had fewer than 8 counted operations. *)
Lemma ipOperations_after (clk : Clock) (req : Request) (s : State) :
  ipOperations (snd (app decodeURIComponent clk req s)) = ipOperations s \/
  (recentCount clk req s < 8 /\
   ipOperations (snd (app decodeURIComponent clk req s))
   = recordOperation clk req (ipOperations s)).
Proof.
  destruct (mutating req) eqn:Hm.
  - destruct (Z_lt_le_dec (recentCount clk req s) 8) as [Hc|Hc].
    + right. split; [exact Hc|].
      apply (mutating_passed decodeURIComponent clk req s Hm Hc).
    + left. rewrite (mutating_rejected decodeURIComponent clk req s Hm Hc). reflexivity.
  - left. apply app_nonmutating. exact Hm.
Qed.

Lemma quota_step (clk : Clock) (req : Request) (s : State) (t : Z) :
  t <= limiterNow clk ->
  quotaRespected t (ipOperations s) ->
  quotaRespected (limiterNow clk)
    (ipOperations (snd (app decodeURIComponent clk req s))).
Proof.
  intros Ht Hq ip.
  destruct (ipOperations_after clk req s) as [E | [Hc E]]; rewrite E.
  - pose proof (recent_shrinks ip t (limiterNow clk) (ipOperations s) Ht).
    specialize (Hq ip). lia.
  - rewrite recent_after_record by lia.
    destruct ((limiterNow clk - DAY_MS <? limiterNow clk)
              && (getClientIp req =? ip)%string) eqn:Eb.
    + apply andb_prop in Eb. destruct Eb as [_ Eip]. apply String.eqb_eq in Eip.
      rewrite length_app. cbn [List.length]. unfold recentCount in Hc.
      rewrite Eip in Hc. lia.
    + rewrite app_nil_r.
      pose proof (recent_shrinks ip t (limiterNow clk) (ipOperations s) Ht).
      specialize (Hq ip). lia.
Qed.

(** X10.  Along any run of requests served in time order, if no address
    has more than 8 counted operations at the start, none has more than 8 at
    the end, at any later time. *)
Theorem quota_never_exceeded
    (reqs : list (Clock * Request)) (s : State) (t0 t : Z) :
  Sorted Z.le (t0 :: map requestTime reqs) ->
  quotaRespected t0 (ipOperations s) ->
  last (map requestTime reqs) t0 <= t ->
  quotaRespected t (ipOperations (snd (serve decodeURIComponent reqs s))).
Proof.
  revert s t0. induction reqs as [|[clk req] reqs IH]; intros s t0 Hs Hq Ht.
  - cbn in Ht. intros ip.
    pose proof (recent_shrinks ip t0 t (ipOperations s) Ht). specialize (Hq ip).
    cbn [serve snd]. lia.
  - rewrite serve_snd_cons.
    inversion Hs as [|? ? Hs' Hhd]; subst. cbn [map] in Hhd, Hs'.
    inversion Hhd as [|? ? Hle]; subst. unfold requestTime in Hle at 1. cbn [fst] in Hle.
    apply (IH _ (limiterNow clk)).
    + exact Hs'.
    + apply (quota_step clk req s t0 Hle Hq).
    + destruct reqs as [|cr reqs]; [exact Ht|].
      change (last (map requestTime ((clk, req) :: cr :: reqs)) t0)
        with (last (map requestTime (cr :: reqs)) t0) in Ht.
      cbn [map] in Ht |- *. rewrite (last_default _ _ _ t0). exact Ht.
Qed.

(** X11.  A mutating request that passes the limiter rewrites the
    rate-limit file without the entries of any address that are 24 hours old
    or older, keeps the others, and adds exactly its own entry. *)
Theorem passing_request_prunes_all_addresses
    (clk : Clock) (req : Request) (s : State) :
  mutating req = true ->
  recentCount clk req s < 8 ->
  let ops' := ipOperations (snd (app decodeURIComponent clk req s)) in
  let entry := mkIpOp (getClientIp req) (limiterNow clk) (req_method req) (req_path req) in
  Forall (fun op => limiterNow clk - DAY_MS < op_timestamp op) ops' /\
  (forall op, In op ops' <->
     (In op (ipOperations s) /\ limiterNow clk - DAY_MS < op_timestamp op) \/ op = entry) /\
  (List.length ops' <= S (List.length (ipOperations s)))%nat.
Proof.
  intros Hm Hc. cbv zeta.
  destruct (mutating_passed decodeURIComponent clk req s Hm Hc) as [E _].
  cbv zeta in E. rewrite E. split; [|split].
  - unfold recordOperation. rewrite Forall_forall. intros op Hin.
    apply filter_In in Hin. destruct Hin as [_ H]. apply Z.ltb_lt in H. exact H.
  - intros op. rewrite recordOperation_app, in_app_iff, filter_In, Z.ltb_lt.
    cbn [In]. intuition congruence.
  - rewrite recordOperation_app, length_app. cbn [List.length].
    pose proof (filter_length_le (fun op => limiterNow clk - DAY_MS <? op_timestamp op)
                  (ipOperations s)). lia.
Qed.

(** X12.  When the limiter lets a request through, the value of
    X-RateLimit-Remaining is between 0 and 7 and is 8 minus the number of
    counted operations of the address once the request is recorded; the log
    and the store are untouched. *)
Theorem remaining_header_counts_down
    (clk : Clock) (req : Request) (s s' : State) (remaining : Z) :
  operationRateLimiter clk req s = (Next remaining, s') ->
  0 <= remaining <= 7 /\
  remaining = 8 - Z.of_nat (List.length
                (recentOperationsOf (getClientIp req) (limiterNow clk) (ipOperations s'))) /\
  operationLog s' = operationLog s /\ birds s' = birds s /\ dataFile s' = dataFile s.
Proof.
  intros H.
  destruct (Z_lt_le_dec (recentCount clk req s) 8) as [Hc|Hc]; unfold recentCount in Hc.
  - rewrite (operationRateLimiter_pass clk req s Hc) in H.
    apply pair_equal_spec in H. destruct H as [Hr Hs].
    assert (Hrem : remaining = 8 - Z.of_nat (List.length
              (recentOperationsOf (getClientIp req) (limiterNow clk) (ipOperations s))) - 1)
      by congruence.
    clear Hr. subst s' remaining.
    cbn [ipOperations set_ipOperations operationLog birds dataFile].
    rewrite recent_after_record by lia.
    assert (E : (limiterNow clk - DAY_MS <? limiterNow clk) = true)
      by (apply Z.ltb_lt; unfold DAY_MS; lia).
    rewrite E, String.eqb_refl. cbn [andb]. rewrite length_app. cbn [List.length].
    repeat split; try reflexivity; lia.
  - rewrite (operationRateLimiter_reject clk req s Hc) in H. discriminate.
Qed.

Lemma handler_echo (clk : Clock) (req : Request) (d : string) (s : State) (r : Response) :
  fst (handlerOf clk req d s) = Send r ->
  status r = 200 \/ status r = 201 ->
  body_operation (body r) = Some d /\
  operationLog (snd (handlerOf clk req d s)) = operationLog s.
Proof.
  unfold handlerOf.
  destruct (req_method req), (req_params_id req) as [i|];
    try (cbn; intros Hr [H|H]; injection Hr as <-; discriminate).
  - unfold create_bird. destruct (truthy (req_body_name req)) as [n|].
    + destruct (10 <? Z.of_nat (String.length n)).
      * cbn. intros Hr [H|H]; injection Hr as <-; discriminate.
      * destruct (match req_file req with Some f => 1048576 <? size f | None => false end).
        -- cbn. intros Hr [H|H]; injection Hr as <-; discriminate.
        -- cbn. intros Hr _. injection Hr as <-. split; reflexivity.
    + cbn. intros Hr [H|H]; injection Hr as <-; discriminate.
  - destruct (findIndex (parseInt i) (birds s)) as [k|] eqn:Ek.
    + assert (Hsplit : exists pre old post,
                birds s = (pre ++ old :: post)%list /\ k = List.length pre).
      { unfold findIndex in Ek. destruct (parseInt i) as [z|]; [|discriminate].
        destruct (findIndexFrom_split z (birds s) 0 k Ek) as [pre [old [post [H1 [_ [_ H2]]]]]].
        exists pre, old, post. split; [exact H1 | exact H2]. }
      destruct Hsplit as [pre [old [post [Hb ->]]]].
      destruct (update_bird_found req i d s pre old post Hb Ek) as [imgs [E _]].
      cbv zeta in E. rewrite E. cbn. intros Hr _. injection Hr as <-. split; reflexivity.
    + assert (E : update_bird req i d s = (Send (mkResponse 404 (B_error "Bird not found")), s)).
      { unfold update_bird, bind, gets. rewrite Ek. reflexivity. }
      rewrite E. cbn. intros Hr [H|H]; injection Hr as <-; discriminate.
  - destruct (findIndex (parseInt i) (birds s)) as [k|] eqn:Ek.
    + assert (Hsplit : exists pre old post,
                birds s = (pre ++ old :: post)%list /\ k = List.length pre).
      { unfold findIndex in Ek. destruct (parseInt i) as [z|]; [|discriminate].
        destruct (findIndexFrom_split z (birds s) 0 k Ek) as [pre [old [post [H1 [_ [_ H2]]]]]].
        exists pre, old, post. split; [exact H1 | exact H2]. }
      destruct Hsplit as [pre [old [post [Hb ->]]]].
      rewrite (remove_bird_found i d s pre old post Hb Ek).
      cbn. intros Hr _. injection Hr as <-. split; reflexivity.
    + assert (E : remove_bird i d s = (Send (mkResponse 404 (B_error "Bird not found")), s)).
      { unfold remove_bird, bind, gets. rewrite Ek. reflexivity. }
      rewrite E. cbn. intros Hr [H|H]; injection Hr as <-; discriminate.
Qed.

(** X13.  The [operation] field of a 200 or 201 answer is the description
    written in the entry that the request appended to the operation log: the
    decoded header, or the method and the path when there is no header. *)
Theorem answer_echoes_logged_description
    (clk : Clock) (req : Request) (s : State) (resp : Response) :
  mutating req = true ->
  fst (app decodeURIComponent clk req s) = Send resp ->
  status resp = 200 \/ status resp = 201 ->
  thirtyDaysBefore (pruneNow clk) < logNow clk ->
  exists d,
    operationDescOf decodeURIComponent req = Some d /\
    body_operation (body resp) = Some d /\
    operationLog (snd (app decodeURIComponent clk req s)) =
      (filter (fun log => thirtyDaysBefore (pruneNow clk) <? log_timestamp log)
         (operationLog s) ++
       [mkLogEntry (logNow clk) (getClientIp req) d (req_method req) (req_path req)
          (req_user_agent req)])%list /\
    (truthy (req_x_operation_desc req) = None ->
     d = method_name (req_method req) ++ " " ++ req_path req).
Proof.
  intros Hm Hr Hst Hclk.
  destruct (mutating_route_cases decodeURIComponent clk req s Hm)
    as [[_ E] | [[_ [_ E]] | [[d [f [_ [_ [_ [_ [_ E]]]]]]] | [d [_ [Hd E]]]]]];
    rewrite E in Hr |- *; cbn [fst snd] in *.
  - injection Hr as <-. cbn in Hst. lia.
  - discriminate.
  - injection Hr as <-. cbn in Hst. lia.
  - exists d. destruct (handler_echo clk req d _ resp Hr Hst) as [Hb Hl].
    split; [exact Hd|]. split; [exact Hb|]. split.
    + rewrite Hl. cbn [handlerState operationLog]. apply recordLog_app. exact Hclk.
    + intros Hh. unfold operationDescOf in Hd. rewrite Hh in Hd. congruence.
Qed.

Variable LocalTZA : Z -> bool -> Z.

Lemma setDateThirtyBack_offsetChange (t : Z) :
  setDateThirtyBack LocalTZA t = thirtyDaysBefore t + offsetChange LocalTZA t.
Proof. unfold setDateThirtyBack, thirtyDaysBefore, offsetChange. lia. Qed.

Lemma logOperationLocal_cases (clk : Clock) (req : Request) (s : State) :
  logOperationLocal LocalTZA decodeURIComponent clk req s = (Unhandled, s) \/
  exists operationDesc,
    logOperationLocal LocalTZA decodeURIComponent clk req s =
    (Next operationDesc,
     set_operationLog
       (filter (fun log => setDateThirtyBack LocalTZA (pruneNow clk) <? log_timestamp log)
          (operationLog s ++
           [mkLogEntry (logNow clk) (getClientIp req) operationDesc
              (req_method req) (req_path req) (req_user_agent req)])%list) s).
Proof.
  unfold logOperationLocal.
  destruct (match truthy (req_x_operation_desc req) with
            | Some h => decodeURIComponent h
            | None => _ end) as [d|].
  - right. exists d. reflexivity.
  - left. reflexivity.
Qed.

(** Where the offset of the local time is the same at both dates, the
    pruning date is 30 times 24 hours back and the two embeddings of the
    logger agree. *)
Lemma logOperationLocal_fixed_offset (clk : Clock) (req : Request) (s : State) :
  offsetChange LocalTZA (pruneNow clk) = 0 ->
  logOperationLocal LocalTZA decodeURIComponent clk req s =
  logOperation decodeURIComponent clk req s.
Proof.
  intros H. unfold logOperationLocal, logOperation.
  rewrite setDateThirtyBack_offsetChange, H, Z.add_0_r. reflexivity.
Qed.

(** X14.  [logOperation] prunes the log at the date that
    [setDate(getDate() - 30)] computes in the server's local time: 30 times
    24 hours before the pruning time, moved by the change of the UTC offset
    between the two dates.  After it every entry of the log is newer than
    that date, the entries that were newer are all kept, and nothing but the
    new entry is added.  So when the offset changes by at most [h] (an hour
    across a daylight saving switch, nothing at a constant offset), no entry
    of the log is older than 30 days plus [h] and every entry younger than
    30 days minus [h] is kept. *)
Theorem log_holds_thirty_days
    (clk : Clock) (req : Request) (s s' : State) (d : string) :
  logOperationLocal LocalTZA decodeURIComponent clk req s = (Next d, s') ->
  let cutoff := setDateThirtyBack LocalTZA (pruneNow clk) in
  let shift := offsetChange LocalTZA (pruneNow clk) in
  cutoff = pruneNow clk - 30 * DAY_MS + shift /\
  Forall (fun e => cutoff < log_timestamp e) (operationLog s') /\
  (forall e, In e (operationLog s) -> cutoff < log_timestamp e ->
             In e (operationLog s')) /\
  (forall e, In e (operationLog s') ->
             In e (operationLog s) \/
             e = mkLogEntry (logNow clk) (getClientIp req) d (req_method req)
                   (req_path req) (req_user_agent req)) /\
  (forall h, Z.abs shift <= h ->
     Forall (fun e => pruneNow clk - 30 * DAY_MS - h < log_timestamp e)
       (operationLog s') /\
     (forall e, In e (operationLog s) ->
                pruneNow clk - 30 * DAY_MS + h < log_timestamp e ->
                In e (operationLog s'))) /\
  ipOperations s' = ipOperations s /\ birds s' = birds s /\ dataFile s' = dataFile s.
Proof.
  intros H. cbv zeta.
  assert (Hcut : setDateThirtyBack LocalTZA (pruneNow clk) =
                 pruneNow clk - 30 * DAY_MS + offsetChange LocalTZA (pruneNow clk)).
  { rewrite setDateThirtyBack_offsetChange. reflexivity. }
  destruct (logOperationLocal_cases clk req s) as [E | [d' E]];
    rewrite E in H; [discriminate|]. injection H as -> <-.
  cbn [operationLog set_operationLog ipOperations birds dataFile].
  assert (Hold : Forall (fun e => setDateThirtyBack LocalTZA (pruneNow clk) < log_timestamp e)
            (filter (fun log => setDateThirtyBack LocalTZA (pruneNow clk) <? log_timestamp log)
               (operationLog s ++
                [mkLogEntry (logNow clk) (getClientIp req) d
                   (req_method req) (req_path req) (req_user_agent req)])%list)).
  { rewrite Forall_forall. intros e He. apply filter_In in He.
    destruct He as [_ He]. apply Z.ltb_lt. exact He. }
  assert (Hkeep : forall e, In e (operationLog s) ->
            setDateThirtyBack LocalTZA (pruneNow clk) < log_timestamp e ->
            In e (filter (fun log => setDateThirtyBack LocalTZA (pruneNow clk) <? log_timestamp log)
               (operationLog s ++
                [mkLogEntry (logNow clk) (getClientIp req) d
                   (req_method req) (req_path req) (req_user_agent req)])%list)).
  { intros e He Hnew. apply filter_In. split; [apply in_or_app; left; exact He|].
    apply Z.ltb_lt. exact Hnew. }
  split; [exact Hcut|]. split; [exact Hold|]. split; [exact Hkeep|].
  split; [|split; [|repeat split]].
  - intros e He. apply filter_In in He. destruct He as [He _].
    apply in_app_or in He. destruct He as [He | [He | []]]; [left; exact He | right; congruence].
  - intros h Hh. split.
    + eapply Forall_impl; [|exact Hold]. cbv beta. intros e He. lia.
    + intros e He Hnew. apply Hkeep; [exact He|]. lia.
Qed.

End Journals.

(** ** Counting, fetching and paging *)

Lemma nodup_length (l : list string) :
  (List.length (nodup string_dec l) <= List.length l)%nat /\
  (List.length (nodup string_dec l) = List.length l -> NoDup l).
Proof.
  induction l as [|x l [IH1 IH2]]; [split; [cbn; lia | constructor]|].
  cbn [nodup]. destruct (in_dec string_dec x l) as [Hin|Hnin]; cbn [List.length].
  - split; [lia | intros H; lia].
  - split; [lia|]. intros H. constructor; [exact Hnin | apply IH2; lia].
Qed.

(** X15.  GET /api/birds/count answers the number of records and the number
    of distinct names: the second is at most the first, equal to it exactly
    when no two records share a name, and 0 exactly on the empty store. *)
Theorem count_route (bs : list Bird) :
  exists count type,
    get_birds_count bs = mkResponse 200 (B_count count type) /\
    count = Z.of_nat (List.length bs) /\
    (exists names, NoDup names /\
       (forall n, In n names <-> exists b, In b bs /\ name b = n) /\
       type = Z.of_nat (List.length names)) /\
    0 <= type <= count /\
    (type = count <-> NoDup (map name bs)) /\
    (type = 0 <-> bs = []).
Proof.
  unfold get_birds_count. do 2 eexists. split; [reflexivity|]. split; [reflexivity|].
  destruct (nodup_length (map name bs)) as [Hle Heq]. rewrite length_map in Hle, Heq.
  split; [|split; [|split]].
  - exists (nodup string_dec (map name bs)). split; [apply NoDup_nodup|].
    split; [|reflexivity]. intros n. rewrite nodup_In, in_map_iff.
    split; intros [b [H1 H2]]; exists b; tauto.
  - lia.
  - split.
    + intros H. apply Heq. lia.
    + intros H. rewrite (nodup_fixed_point string_dec H), length_map. reflexivity.
  - split.
    + intros H. destruct bs as [|b bs]; [reflexivity|]. exfalso.
      assert (Hin : In (name b) (nodup string_dec (map name (b :: bs))))
        by (apply nodup_In; left; reflexivity).
      destruct (nodup string_dec (map name (b :: bs))); [contradiction | cbn in H; lia].
    + intros ->. reflexivity.
Qed.

(** X16.  On a store whose ids are safe integers (below 2^53 in absolute
    value, so that JavaScript compares them exactly), GET /api/birds/:id
    answers the first record whose id is the integer that [parseInt] reads
    at the start of the parameter, and 404 exactly when the parameter has no
    such integer or no record has it; a parameter whose integer is not safe
    is answered with 404, the double that JavaScript rounds it to being at
    least 2^53 in absolute value as well. *)
Theorem get_by_id_finds_first (i : string) (bs : list Bird) :
  safeIds bs ->
  (forall z, parseInt i = Some z -> In z (map id bs) ->
     exists pre b post,
       bs = (pre ++ b :: post)%list /\ id b = z /\
       Forall (fun x => id x <> z) pre /\
       get_bird i bs = mkResponse 200 (B_bird b)) /\
  ((parseInt i = None \/ exists z, parseInt i = Some z /\ ~ In z (map id bs)) ->
   get_bird i bs = mkResponse 404 (B_error "Bird not found")) /\
  (status (get_bird i bs) = 404 <->
   (parseInt i = None \/ exists z, parseInt i = Some z /\ ~ In z (map id bs))) /\
  (forall z, parseInt i = Some z -> ~ safeInteger z ->
     get_bird i bs = mkResponse 404 (B_error "Bird not found")).
Proof.
  intros Hsafe.
  assert (Hfound : forall z, parseInt i = Some z -> In z (map id bs) ->
     exists pre b post,
       bs = (pre ++ b :: post)%list /\ id b = z /\
       Forall (fun x => id x <> z) pre /\
       get_bird i bs = mkResponse 200 (B_bird b)).
  { intros z Hp Hin.
    destruct (findIndex_present z bs Hin) as [pre [b [post [Hb [Ho [Hpre _]]]]]].
    exists pre, b, post. repeat split; try assumption.
    unfold get_bird, findBird. rewrite Hp, Hb, (find_split z pre b post Hpre Ho).
    reflexivity. }
  assert (Hmiss : (parseInt i = None \/ exists z, parseInt i = Some z /\ ~ In z (map id bs)) ->
     get_bird i bs = mkResponse 404 (B_error "Bird not found")).
  { intros [Hp | [z [Hp Hn]]]; unfold get_bird, findBird; rewrite Hp.
    - reflexivity.
    - rewrite (find_absent z bs Hn). reflexivity. }
  split; [exact Hfound|]. split; [exact Hmiss|]. split; [split|].
  - intros Hst. destruct (parseInt i) as [z|] eqn:Hp; [|left; reflexivity].
    right. exists z. split; [reflexivity|]. intros Hin.
    destruct (Hfound z eq_refl Hin) as [pre [b [post [_ [_ [_ E]]]]]].
    rewrite E in Hst. discriminate.
  - intros H. rewrite (Hmiss H). reflexivity.
  - intros z Hp Hz. apply Hmiss. right. exists z. split; [exact Hp|].
    intros Hin. apply in_map_iff in Hin. destruct Hin as [b [Hb Hin]].
    unfold safeIds in Hsafe. rewrite Forall_forall in Hsafe.
    apply Hz. rewrite <- Hb. apply Hsafe. exact Hin.
Qed.

Lemma firstn_add {A : Type} (a b : nat) (l : list A) :
  firstn (a + b) l = (firstn a l ++ firstn b (skipn a l))%list.
Proof.
  revert l. induction a as [|a IH]; intros l; [reflexivity|].
  destruct l as [|x l]; cbn [Nat.add firstn skipn List.app].
  - rewrite firstn_nil. reflexivity.
  - rewrite IH. reflexivity.
Qed.

Lemma pageAnswer_spec (k : nat) (query_search : option string) (bs : list Bird) :
  (1 <= k)%nat ->
  let filtered := filter (matchesSearch (orString query_search EmptyString)) bs in
  pageAnswer k query_search bs =
  B_birds (firstn 48 (skipn (48 * (k - 1)) filtered))
          (Z.of_nat (48 * k) <? Z.of_nat (List.length filtered)).
Proof.
  intros Hk filtered. unfold pageAnswer, get_birds.
  assert (Hpage : pageOf (Some (Z_to_string (Z.of_nat k))) = Z.of_nat k).
  { unfold pageOf. rewrite parseInt_Z_to_string. destruct (Z.of_nat k) eqn:E; try reflexivity; lia. }
  assert (Hf : match orString query_search EmptyString with
               | EmptyString => bs
               | String _ _ => filter (matchesSearch (orString query_search EmptyString)) bs
               end = filtered).
  { subst filtered. destruct (orString query_search EmptyString); [|reflexivity].
    symmetry. apply filter_all, matchesSearch_empty. }
  rewrite Hpage, Hf. unfold pageSize. cbn [body]. rewrite slice_forward by lia.
  f_equal.
  - f_equal; [lia|]. f_equal. lia.
  - f_equal. lia.
Qed.

(** X17.  The pages 1 to n of GET /api/birds, put end to end, are the first
    48 n matching records in order; when page n says hasMore = false they
    are all the matching records, and when it says hasMore = true the page
    is full and the next page is not empty. *)
Theorem pages_cover_the_list (n : nat) (query_search : option string) (bs : list Bird) :
  let filtered := filter (matchesSearch (orString query_search EmptyString)) bs in
  let page := fun k => pageAnswer k query_search bs in
  List.concat (map (fun k => body_birds (page k)) (seq 1 n)) = firstn (48 * n) filtered /\
  ((1 <= n)%nat -> body_hasMore (page n) = false ->
   List.concat (map (fun k => body_birds (page k)) (seq 1 n)) = filtered) /\
  ((1 <= n)%nat -> body_hasMore (page n) = true ->
   List.length (body_birds (page n)) = 48%nat /\ body_birds (page (S n)) <> []).
Proof.
  intros filtered page.
  assert (Hcat : forall m,
            List.concat (map (fun k => body_birds (page k)) (seq 1 m)) = firstn (48 * m) filtered).
  { induction m as [|m IH]; [reflexivity|].
    rewrite seq_S, map_app, concat_app, IH. cbn [map List.concat Nat.add].
    rewrite app_nil_r. subst page. cbv beta.
    rewrite (pageAnswer_spec (S m) query_search bs) by lia. cbn [body_birds].
    fold filtered. replace (48 * S m)%nat with (48 * m + 48)%nat by lia.
    rewrite firstn_add. do 3 f_equal. lia. }
  split; [apply Hcat|]. split.
  - intros Hn Hmore. rewrite Hcat. subst page. cbv beta in Hmore.
    rewrite (pageAnswer_spec n query_search bs Hn) in Hmore. cbn [body_hasMore] in Hmore.
    fold filtered in Hmore. apply Z.ltb_ge in Hmore. apply firstn_all2. lia.
  - intros Hn Hmore. subst page. cbv beta in *.
    rewrite (pageAnswer_spec n query_search bs Hn) in *.
    rewrite (pageAnswer_spec (S n) query_search bs) by lia.
    cbn [body_hasMore body_birds] in *. fold filtered in Hmore |- *.
    apply Z.ltb_lt in Hmore. split.
    + rewrite length_firstn, length_skipn. lia.
    + intros H. apply (f_equal (@List.length Bird)) in H.
      rewrite length_firstn, length_skipn in H. cbn [List.length] in H. lia.
Qed.

Section Reads.
Variable decodeURIComponent : string -> option string.

Lemma serve_app (before after : list (Clock * Request)) (s : State) :
  serve decodeURIComponent (before ++ after) s =
  ((fst (serve decodeURIComponent before s)
    ++ fst (serve decodeURIComponent after (snd (serve decodeURIComponent before s))))%list,
   snd (serve decodeURIComponent after (snd (serve decodeURIComponent before s)))).
Proof.
  revert s. induction before as [|[clk req] before IH]; intros s.
  - cbn [List.app serve fst snd]. destruct (serve decodeURIComponent after s); reflexivity.
  - cbn [List.app serve]. rewrite IH.
    destruct (serve decodeURIComponent before (snd (app decodeURIComponent clk req s)))
      as [rs s1]. reflexivity.
Qed.

Lemma get_keeps_state (clk : Clock) (req : Request) (s : State) :
  req_method req = GET ->
  exists resp, app decodeURIComponent clk req s = (Send resp, s).
Proof.
  unfold app. intros H. rewrite H.
  destruct (req_params_id req) as [i|]; unfold bind, gets, send;
    try (eexists; reflexivity).
  destruct (i =? "count")%string; eexists; reflexivity.
Qed.

(** X2.  A GET request is always answered, changes no part of the state
    (it is neither counted nor logged), and so can be put anywhere in a run
    of requests without changing the other answers or the final state. *)
Theorem reads_are_transparent
    (clk : Clock) (req : Request) (before after : list (Clock * Request)) (s : State) :
  req_method req = GET ->
  let s1 := snd (serve decodeURIComponent before s) in
  exists resp,
    app decodeURIComponent clk req s1 = (Send resp, s1) /\
    serve decodeURIComponent (before ++ (clk, req) :: after) s =
      ((fst (serve decodeURIComponent before s)
        ++ (Send resp, s1) :: fst (serve decodeURIComponent after s1))%list,
       snd (serve decodeURIComponent (before ++ after) s)) /\
    fst (serve decodeURIComponent (before ++ after) s) =
      (fst (serve decodeURIComponent before s)
       ++ fst (serve decodeURIComponent after s1))%list.
Proof.
  intros Hm s1. destruct (get_keeps_state clk req s1 Hm) as [resp E].
  exists resp. split; [exact E|]. rewrite !serve_app. fold s1. cbn [fst snd].
  split; [|reflexivity]. cbn [serve]. rewrite E. cbn [snd].
  destruct (serve decodeURIComponent after s1). reflexivity.
Qed.

End Reads.

(** * Properties of the service worker *)

Lemma filter_filter_andb {A : Type} (p q : A -> bool) (l : list A) :
  filter p (filter q l) = filter (fun x => p x && q x) l.
Proof.
  induction l as [|x l IH]; [reflexivity|]. cbn [filter].
  destruct (q x); cbn [filter]; rewrite ?andb_true_r, ?andb_false_r;
    [destruct (p x)|]; rewrite IH; reflexivity.
Qed.

Lemma cacheMatch_put_same (url : string) (r : SwResponse) (c : Cache) :
  cacheMatch url (cachePut url r c) = Some r.
Proof. unfold cacheMatch, cachePut. cbn. rewrite String.eqb_refl. reflexivity. Qed.

Lemma cacheMatch_filter_other (url url' : string) (c : Cache) :
  url' <> url ->
  cacheMatch url' (filter (fun e => negb (fst e =? url)%string) c) = cacheMatch url' c.
Proof.
  intros Hne. unfold cacheMatch. induction c as [|[u x] c IH]; [reflexivity|].
  cbn [filter find fst]. destruct (u =? url)%string eqn:E; cbn [negb].
  - apply String.eqb_eq in E. subst u.
    assert (E' : (url =? url')%string = false) by (apply String.eqb_neq; congruence).
    rewrite E'. exact IH.
  - cbn [find fst]. destruct (u =? url')%string; [reflexivity | exact IH].
Qed.

Lemma cacheMatch_put_other (url url' : string) (r : SwResponse) (c : Cache) :
  url' <> url -> cacheMatch url' (cachePut url r c) = cacheMatch url' c.
Proof.
  intros Hne. unfold cachePut.
  assert (E : (url =? url')%string = false) by (apply String.eqb_neq; congruence).
  unfold cacheMatch at 1. cbn [find fst]. rewrite E.
  apply (cacheMatch_filter_other url url' c Hne).
Qed.

Lemma storageGet_app_new (name name' : string) (cs : CacheStorage) :
  storageGet name' (cs ++ [(name, [])])%list = storageGet name' cs.
Proof.
  unfold storageGet. induction cs as [|[n c] cs IH]; cbn [List.app find fst].
  - destruct (name =? name')%string; reflexivity.
  - destruct (n =? name')%string; [reflexivity | exact IH].
Qed.

Lemma storageGet_open (name name' : string) (cs : CacheStorage) :
  storageGet name' (storageOpen name cs) = storageGet name' cs.
Proof.
  unfold storageOpen. destruct (existsb _ cs); [reflexivity | apply storageGet_app_new].
Qed.

Lemma existsb_open (name : string) (cs : CacheStorage) :
  existsb (fun e => (fst e =? name)%string) (storageOpen name cs) = true.
Proof.
  unfold storageOpen. destruct (existsb _ cs) eqn:E; [exact E|].
  rewrite existsb_app. cbn. rewrite String.eqb_refl, orb_true_r. reflexivity.
Qed.

Lemma storageGet_map_put (name url : string) (r : SwResponse) (cs : CacheStorage) :
  existsb (fun e => (fst e =? name)%string) cs = true ->
  storageGet name
    (map (fun e => if (fst e =? name)%string
                   then (fst e, cachePut url r (snd e)) else e) cs)
  = cachePut url r (storageGet name cs).
Proof.
  unfold storageGet. induction cs as [|[n c] cs IH]; intros H; [discriminate|].
  cbn [map find fst snd existsb] in *. destruct (n =? name)%string eqn:E.
  - cbn [find fst snd]. rewrite E. reflexivity.
  - cbn [find fst]. rewrite E. apply IH. exact H.
Qed.

Lemma storageGet_put_same (name url : string) (r : SwResponse) (cs : CacheStorage) :
  storageGet name (storagePut name url r cs) = cachePut url r (storageGet name cs).
Proof.
  unfold storagePut. rewrite storageGet_map_put by apply existsb_open.
  rewrite storageGet_open. reflexivity.
Qed.

Lemma storageGet_put_other (name name' url : string) (r : SwResponse)
    (cs : CacheStorage) :
  name' <> name ->
  storageGet name' (storagePut name url r cs) = storageGet name' cs.
Proof.
  intros Hne. unfold storagePut. rewrite <- (storageGet_open name name' cs).
  generalize (storageOpen name cs). intros l. unfold storageGet.
  induction l as [|[n c] l IH]; [reflexivity|]. cbn [map find fst snd].
  destruct (n =? name)%string eqn:E.
  - apply String.eqb_eq in E. subst n. cbn [fst].
    assert (E' : (name =? name')%string = false) by (apply String.eqb_neq; congruence).
    rewrite E'. exact IH.
  - cbn [fst]. destruct (n =? name')%string; [reflexivity | exact IH].
Qed.

Lemma storageMatch_app_new (url name : string) (cs : CacheStorage) :
  storageMatch url (cs ++ [(name, [])])%list = storageMatch url cs.
Proof.
  induction cs as [|[n c] cs IH]; [reflexivity|]. cbn [List.app storageMatch].
  destruct (cacheMatch url c); [reflexivity | exact IH].
Qed.

Lemma storageMatch_open (url name : string) (cs : CacheStorage) :
  storageMatch url (storageOpen name cs) = storageMatch url cs.
Proof.
  unfold storageOpen. destruct (existsb _ cs); [reflexivity | apply storageMatch_app_new].
Qed.

Lemma storageMatch_put_other (url url' name : string) (r : SwResponse)
    (cs : CacheStorage) :
  url' <> url ->
  storageMatch url' (storagePut name url r cs) = storageMatch url' cs.
Proof.
  intros Hne. unfold storagePut. rewrite <- (storageMatch_open url' name cs).
  generalize (storageOpen name cs). intros l.
  induction l as [|[n c] l IH]; [reflexivity|]. cbn [map storageMatch fst snd].
  destruct (n =? name)%string.
  - rewrite (cacheMatch_put_other url url' r c Hne).
    destruct (cacheMatch url' c); [reflexivity | exact IH].
  - destruct (cacheMatch url' c); [reflexivity | exact IH].
Qed.

Lemma storageMatch_put_fresh (url name : string) (r : SwResponse) (cs : CacheStorage) :
  storageMatch url cs = None ->
  storageMatch url (storagePut name url r cs) = Some r.
Proof.
  intros H. unfold storagePut. rewrite <- (storageMatch_open url name cs) in H.
  pose proof (existsb_open name cs) as Hex. revert H Hex.
  generalize (storageOpen name cs). intros l.
  induction l as [|[n c] l IH]; intros H Hex; [discriminate|].
  cbn [map storageMatch fst snd existsb] in *.
  destruct (cacheMatch url c) eqn:Ec; [discriminate|].
  destruct (n =? name)%string.
  - rewrite cacheMatch_put_same. reflexivity.
  - rewrite Ec. apply IH; assumption.
Qed.

Lemma activate_fold (ns : list string) :
  forall acc : CacheStorage,
  fold_left
    (fun acc cache =>
       if negb (cache =? CACHE_NAME)%string && negb (cache =? API_CACHE_NAME)%string
       then storageDelete cache acc
       else acc) ns acc
  = filter (fun e => currentCache e
                     || negb (existsb (fun n => (n =? fst e)%string) ns)) acc.
Proof.
  induction ns as [|n ns IH]; intros acc; cbn [fold_left existsb].
  - symmetry. apply filter_all. intros e. rewrite orb_true_r. reflexivity.
  - rewrite IH. destruct (negb (n =? CACHE_NAME)%string
                          && negb (n =? API_CACHE_NAME)%string) eqn:En.
    + unfold storageDelete. rewrite filter_filter_andb. apply filter_ext. intros e.
      destruct (fst e =? n)%string eqn:E.
      * apply String.eqb_eq in E. rewrite <- E in En. unfold currentCache.
        rewrite (String.eqb_sym n (fst e)), E. rewrite <- E, String.eqb_refl.
        cbn [negb orb andb]. rewrite andb_false_r, orb_false_r.
        apply andb_prop in En. destruct En as [E1 E2].
        destruct (fst e =? CACHE_NAME)%string; [discriminate|].
        destruct (fst e =? API_CACHE_NAME)%string; [discriminate|]. reflexivity.
      * rewrite (String.eqb_sym n (fst e)), E. cbn [negb orb]. rewrite andb_true_r.
        reflexivity.
    + apply filter_ext. intros e. destruct (n =? fst e)%string eqn:E; [|reflexivity].
      apply String.eqb_eq in E. subst n. unfold currentCache. cbn [orb negb].
      rewrite orb_false_r.
      destruct (fst e =? CACHE_NAME)%string; [reflexivity|].
      destruct (fst e =? API_CACHE_NAME)%string; [reflexivity | discriminate].
Qed.

Lemma storageGet_filter_current (cn : string) (cs : CacheStorage) :
  cn = CACHE_NAME \/ cn = API_CACHE_NAME ->
  storageGet cn (filter currentCache cs) = storageGet cn cs.
Proof.
  intros Hcn. unfold storageGet. induction cs as [|[n c] cs IH]; [reflexivity|].
  cbn [filter find fst]. destruct (currentCache (n, c)) eqn:Ec.
  - cbn [find fst]. destruct (n =? cn)%string; [reflexivity | exact IH].
  - assert (E : (n =? cn)%string = false).
    { unfold currentCache in Ec. cbn [fst] in Ec. apply orb_false_elim in Ec.
      destruct Hcn as [-> | ->]; tauto. }
    rewrite E. exact IH.
Qed.

(** X18.  Activation deletes every cache except the two current ones, whose
    contents are unchanged. *)
Theorem activation_keeps_current_caches (cs : CacheStorage) :
  onActivate cs = filter currentCache cs /\
  Forall (fun e => fst e = CACHE_NAME \/ fst e = API_CACHE_NAME) (onActivate cs) /\
  storageGet CACHE_NAME (onActivate cs) = storageGet CACHE_NAME cs /\
  storageGet API_CACHE_NAME (onActivate cs) = storageGet API_CACHE_NAME cs.
Proof.
  assert (E : onActivate cs = filter currentCache cs).
  { unfold onActivate. rewrite activate_fold. apply filter_ext_in. intros e He.
    assert (Hex : existsb (fun n => (n =? fst e)%string) (map fst cs) = true).
    { apply existsb_exists. exists (fst e). split; [apply in_map; exact He|].
      apply String.eqb_refl. }
    rewrite Hex. cbn [negb]. apply orb_false_r. }
  rewrite E. split; [reflexivity|]. split; [|split].
  - rewrite Forall_forall. intros e He. apply filter_In in He. destruct He as [_ He].
    unfold currentCache in He. apply orb_prop in He.
    destruct He as [He|He]; apply String.eqb_eq in He; tauto.
  - apply storageGet_filter_current. left. reflexivity.
  - apply storageGet_filter_current. right. reflexivity.
Qed.

Lemma method_is_get : negb ("GET" =? "GET")%string = false.
Proof. reflexivity. Qed.

Section Worker.
Variable origin : string.

(** X19.  A GET under /api that is in the API cache is answered from the
    cache whatever the network does; the cached entry is then replaced by
    the network answer, ok or not, and kept when the network fails. *)
Theorem api_answers_from_cache
    (network : string -> option SwResponse) (req : SwRequest) (cs : CacheStorage)
    (cached : SwResponse) :
  apiGet req ->
  cacheMatch (sw_url req) (storageGet API_CACHE_NAME cs) = Some cached ->
  let r := onFetch origin network req cs in
  fst r = Answer cached /\
  cacheMatch (sw_url req) (storageGet API_CACHE_NAME (snd r)) =
    match network (sw_url req) with
    | Some fresh => Some fresh
    | None => Some cached
    end /\
  storageGet CACHE_NAME (snd r) = storageGet CACHE_NAME cs.
Proof.
  intros [Hm Hp] Hc. cbv zeta. unfold onFetch. rewrite Hm, Hp. rewrite method_is_get.
  unfold fetchWithCache. cbv zeta. rewrite storageGet_open, Hc. cbn [fst snd].
  split; [reflexivity|]. destruct (network (sw_url req)) as [fresh|].
  - rewrite storageGet_put_same, cacheMatch_put_same. split; [reflexivity|].
    rewrite storageGet_put_other by discriminate. apply storageGet_open.
  - rewrite !storageGet_open. split; [exact Hc | reflexivity].
Qed.

(** X20.  A GET under /api that is not in the API cache is answered by the
    network, and fails when the network fails; only an ok answer is
    cached. *)
Theorem api_miss_goes_to_network
    (network : string -> option SwResponse) (req : SwRequest) (cs : CacheStorage) :
  apiGet req ->
  cacheMatch (sw_url req) (storageGet API_CACHE_NAME cs) = None ->
  let r := onFetch origin network req cs in
  fst r = match network (sw_url req) with
          | Some fresh => Answer fresh
          | None => NetworkError
          end /\
  cacheMatch (sw_url req) (storageGet API_CACHE_NAME (snd r)) =
    match network (sw_url req) with
    | Some fresh => if sw_ok fresh then Some fresh else None
    | None => None
    end.
Proof.
  intros [Hm Hp] Hc. cbv zeta. unfold onFetch. rewrite Hm, Hp. rewrite method_is_get.
  unfold fetchWithCache. cbv zeta. rewrite storageGet_open, Hc.
  destruct (network (sw_url req)) as [fresh|]; cbn [fst snd].
  - split; [reflexivity|]. destruct (sw_ok fresh).
    + rewrite storageGet_put_same. apply cacheMatch_put_same.
    + rewrite storageGet_open. exact Hc.
  - split; [reflexivity|]. rewrite storageGet_open. exact Hc.
Qed.

Lemma origin_paths_differ (a b : string) : a <> b -> origin ++ a <> origin ++ b.
Proof.
  intros Hne H. apply Hne. induction origin as [|c o IH]; [exact H|].
  cbn in H. injection H as H. apply IH. exact H.
Qed.

Lemma install_index (network : string -> option SwResponse) (cs : CacheStorage)
    (index : SwResponse) :
  network (origin ++ "/index.html") = Some index ->
  sw_ok index = true ->
  storageMatch (origin ++ "/index.html") cs = None ->
  storageMatch (origin ++ "/index.html") (onInstall origin network cs) = Some index.
Proof.
  intros Hn Hok Hc. unfold onInstall, PRE_CACHE_ASSETS. cbn [fold_left].
  rewrite Hn, Hok. apply storageMatch_put_fresh.
  destruct (network (origin ++ "/")) as [r|]; [destruct (sw_ok r)|].
  - rewrite storageMatch_put_other by (apply origin_paths_differ; discriminate).
    rewrite storageMatch_open. exact Hc.
  - rewrite storageMatch_open. exact Hc.
  - rewrite storageMatch_open. exact Hc.
Qed.

(** X21.  A GET that accepts text/html, outside /api, is answered by the
    network whenever the network answers, also when a cached copy exists;
    when the network fails it is answered with the cached /index.html, or
    fails when there is none. *)
Theorem navigation_is_network_first
    (network : string -> option SwResponse) (req : SwRequest) (cs : CacheStorage)
    (accept : string) :
  staticGet req ->
  sw_accept req = Some accept ->
  includes accept "text/html" = true ->
  fst (onFetch origin network req cs) =
  match network (sw_url req) with
  | Some fresh => Answer fresh
  | None =>
      match storageMatch (origin ++ "/index.html") cs with
      | Some index => Answer index
      | None => NetworkError
      end
  end.
Proof.
  intros [Hm Hp] Ha Hh. unfold onFetch. rewrite Hm, Hp. rewrite method_is_get.
  unfold acceptsHtml. rewrite Ha. cbn [option_map]. rewrite Hh.
  destruct (storageMatch (sw_url req) cs);
    destruct (network (sw_url req)); try reflexivity;
    destruct (storageMatch (origin ++ "/index.html") cs); reflexivity.
Qed.

(** X22.  Once the worker has been installed with /index.html fetched, an
    HTML navigation made while the network is down is answered with that
    /index.html, and the caches are unchanged. *)
Theorem offline_navigation_after_install
    (online offline : string -> option SwResponse) (req : SwRequest)
    (cs : CacheStorage) (index : SwResponse) (accept : string) :
  online (origin ++ "/index.html") = Some index ->
  sw_ok index = true ->
  storageMatch (origin ++ "/index.html") cs = None ->
  staticGet req ->
  sw_accept req = Some accept ->
  includes accept "text/html" = true ->
  offline (sw_url req) = None ->
  onFetch origin offline req (onInstall origin online cs) =
  (Answer index, onInstall origin online cs).
Proof.
  intros Hn Hok Hc [Hm Hp] Ha Hh Hoff. unfold onFetch. rewrite Hm, Hp. rewrite method_is_get.
  unfold acceptsHtml. rewrite Ha. cbn [option_map]. rewrite Hh, Hoff.
  rewrite (install_index online cs index Hn Hok Hc).
  destruct (storageMatch (sw_url req) (onInstall origin online cs)); reflexivity.
Qed.

(** X23.  A static resource that is not HTML, fetched once with an ok
    answer over http(s), is answered from the cache from then on, also when
    the network is down. *)
Theorem static_asset_survives_offline
    (online offline : string -> option SwResponse) (req : SwRequest)
    (cs : CacheStorage) (fresh : SwResponse) (accept : string) :
  staticGet req ->
  sw_accept req = Some accept ->
  includes accept "text/html" = false ->
  storageMatch (sw_url req) cs = None ->
  online (sw_url req) = Some fresh ->
  sw_ok fresh = true ->
  prefix "http" (sw_url req) = true ->
  let first := onFetch origin online req cs in
  fst first = Answer fresh /\
  onFetch origin offline req (snd first) = (Answer fresh, snd first).
Proof.
  intros [Hm Hp] Ha Hh Hc Hn Hok Hhttp. cbv zeta.
  assert (E : onFetch origin online req cs =
              (Answer fresh, storagePut CACHE_NAME (sw_url req) fresh cs)).
  { unfold onFetch. rewrite Hm, Hp. rewrite method_is_get.
    rewrite Hc, Hn, Hhttp, Hok. reflexivity. }
  rewrite E. cbn [fst snd]. split; [reflexivity|].
  unfold onFetch. rewrite Hm, Hp. rewrite method_is_get.
  rewrite (storageMatch_put_fresh _ _ _ _ Hc). unfold acceptsHtml.
  rewrite Ha. cbn [option_map]. rewrite Hh. reflexivity.
Qed.

Lemma cachePut_ok (url : string) (r : SwResponse) (c : Cache) :
  sw_ok r = true ->
  Forall (fun e => sw_ok (snd e) = true) c ->
  Forall (fun e => sw_ok (snd e) = true) (cachePut url r c).
Proof.
  intros Hr Hc. unfold cachePut. constructor; [exact Hr|].
  rewrite Forall_forall in *. intros e He. apply filter_In in He. apply Hc, He.
Qed.

(** X24.  The cache of static resources only ever receives ok responses:
    installation and every fetch event keep it free of failed answers. *)
Theorem static_cache_holds_ok_responses
    (network : string -> option SwResponse) (req : SwRequest) (cs : CacheStorage) :
  staticCacheOk cs ->
  staticCacheOk (onInstall origin network cs) /\
  staticCacheOk (snd (onFetch origin network req cs)).
Proof.
  unfold staticCacheOk. intros H. split.
  - unfold onInstall.
    assert (Hgen : forall assets acc,
              Forall (fun e => sw_ok (snd e) = true) (storageGet CACHE_NAME acc) ->
              Forall (fun e => sw_ok (snd e) = true)
                (storageGet CACHE_NAME
                   (fold_left
                      (fun acc asset =>
                         match network (origin ++ asset) with
                         | Some r => if sw_ok r
                                     then storagePut CACHE_NAME (origin ++ asset) r acc
                                     else acc
                         | None => acc
                         end) assets acc))).
    { induction assets as [|a assets IH]; intros acc Hacc; [exact Hacc|].
      cbn [fold_left]. apply IH. destruct (network (origin ++ a)) as [r|]; [|exact Hacc].
      destruct (sw_ok r) eqn:Er; [|exact Hacc].
      rewrite storageGet_put_same. apply cachePut_ok; assumption. }
    apply Hgen. rewrite storageGet_open. exact H.
  - unfold onFetch. destruct (negb (sw_method req =? "GET")%string); [exact H|].
    destruct (prefix "/api" (sw_pathname req)).
    + unfold fetchWithCache. cbv zeta.
      destruct (cacheMatch (sw_url req)
                  (storageGet API_CACHE_NAME (storageOpen API_CACHE_NAME cs)));
        destruct (network (sw_url req)) as [r|]; cbn [snd];
        try destruct (sw_ok r);
        rewrite ?storageGet_put_other by discriminate;
        rewrite storageGet_open; exact H.
    + assert (Hnet : Forall (fun e => sw_ok (snd e) = true)
                (storageGet CACHE_NAME
                   (snd (match network (sw_url req) with
                         | Some networkResponse =>
                             (Answer networkResponse,
                              if prefix "http" (sw_url req) && sw_ok networkResponse
                              then storagePut CACHE_NAME (sw_url req) networkResponse cs
                              else cs)
                         | None =>
                             match acceptsHtml req with
                             | None => (NetworkError, cs)
                             | Some true =>
                                 match storageMatch (origin ++ "/index.html") cs with
                                 | Some r => (Answer r, cs)
                                 | None => (NetworkError, cs)
                                 end
                             | Some false =>
                                 match storageMatch (sw_url req) cs with
                                 | Some r => (Answer r, cs)
                                 | None => (NetworkError, cs)
                                 end
                             end
                         end)))).
      { destruct (network (sw_url req)) as [r|]; cbn [snd].
        - destruct (prefix "http" (sw_url req) && sw_ok r) eqn:E; [|exact H].
          apply andb_prop in E. rewrite storageGet_put_same.
          apply cachePut_ok; [tauto | exact H].
        - destruct (acceptsHtml req) as [[|]|];
            try destruct (storageMatch (origin ++ "/index.html") cs);
            try destruct (storageMatch (sw_url req) cs); exact H. }
      cbv zeta. destruct (storageMatch (sw_url req) cs) eqn:Ec; [|exact Hnet].
      destruct (acceptsHtml req) as [[|]|]; [exact Hnet | exact H | exact H].
Qed.

End Worker.

Example sw_run :
  let net := fun u => if (u =? "https://h/index.html")%string
                      then Some (mkSwResponse true "<html>") else None in
  let cs := onInstall "https://h" net [] in
  cs = [(CACHE_NAME, [("https://h/index.html", mkSwResponse true "<html>")])] /\
  fst (onFetch "https://h" (fun _ => None)
         (mkSwRequest "GET" "https://h/about" "/about" (Some "text/html,*/*")) cs)
  = Answer (mkSwResponse true "<html>").
Proof. split; reflexivity. Qed.

(** ** The further properties on sample data *)

Lemma undecodable_description_consumes_quota_witness :
  app (fun _ => None) noon describedRequest emptyState =
  (Unhandled,
   mkState [mkIpOp "10.0.0.1" 1000 POST "/api/birds"] [] [] None []).
Proof.
  exact (undecodable_description_consumes_quota (fun _ => None) noon describedRequest
           emptyState eq_refl eq_refl eq_refl).
Defined.

Lemma reads_are_transparent_witness :
  snd (serve identityDecode
         ([(at_ 1, createRequest "10.0.0.1" "a")]
          ++ (at_ 2, plainRequest GET "/api/birds" None None)
          :: [(at_ 3, createRequest "10.0.0.1" "b")]) emptyState) =
  snd (serve identityDecode
         ([(at_ 1, createRequest "10.0.0.1" "a")]
          ++ [(at_ 3, createRequest "10.0.0.1" "b")]) emptyState).
Proof.
  destruct (reads_are_transparent identityDecode (at_ 2)
              (plainRequest GET "/api/birds" None None)
              [(at_ 1, createRequest "10.0.0.1" "a")]
              [(at_ 3, createRequest "10.0.0.1" "b")] emptyState eq_refl)
    as [resp [_ [H _]]].
  exact (f_equal snd H).
Defined.

Lemma put_replaces_first_match_witness :
  exists pre old post,
    birds sampleStore = (pre ++ old :: post)%list /\ id old = 2 /\
    birds (snd (app identityDecode noon putRequest sampleStore)) =
      (pre ++ updatedRecord putRequest old :: post)%list.
Proof.
  destruct (put_replaces_first_match identityDecode noon putRequest sampleStore
              "2" "PUT /api/birds/2" 2 eq_refl eq_refl eq_refl eq_refl
              ltac:(vm_compute; discriminate) eq_refl
              ltac:(right; left; reflexivity))
    as [pre [old [post [H1 [H2 [_ [_ [H3 _]]]]]]]].
  exists pre, old, post. repeat split; assumption.
Defined.

Lemma put_swaps_image_witness :
  exists pre old post,
    birds sampleStore = (pre ++ old :: post)%list /\ id old = 2 /\
    forall u, truthy (imageUrl old) = Some u ->
      ~ In u (images (snd (app identityDecode noon putRequest sampleStore))).
Proof.
  destruct (put_swaps_image identityDecode noon putRequest sampleStore
              "2" "PUT /api/birds/2" 2 (mkFile "n.png" 2048)
              eq_refl eq_refl eq_refl eq_refl eq_refl
              ltac:(vm_compute; discriminate) eq_refl
              ltac:(right; left; reflexivity))
    as [pre [old [post [H1 [H2 [_ [_ H3]]]]]]].
  exists pre, old, post. repeat split; try assumption.
  intros u Hu. exact (proj1 (H3 u Hu)).
Defined.

Lemma delete_removes_first_match_witness :
  exists pre old post,
    birds sampleStore = (pre ++ old :: post)%list /\ id old = 2 /\
    birds (snd (app identityDecode noon deleteRequest sampleStore)) = (pre ++ post)%list /\
    get_bird "2" (birds (snd (app identityDecode noon deleteRequest sampleStore)))
      = mkResponse 404 (B_error "Bird not found").
Proof.
  destruct (delete_removes_first_match identityDecode noon deleteRequest sampleStore
              "2" "DELETE /api/birds/2" 2 eq_refl eq_refl eq_refl eq_refl eq_refl
              ltac:(right; left; reflexivity))
    as [pre [old [post [H1 [H2 [_ [_ [H3 [_ [_ H4]]]]]]]]]].
  exists pre, old, post. split; [exact H1|]. split; [exact H2|]. split; [exact H3|].
  apply H4. repeat constructor; cbn; intuition discriminate.
Defined.

Lemma rejected_create_keeps_upload_witness :
  In "o.png" (images (snd (app identityDecode noon longNameCreate emptyState))) /\
  birds (snd (app identityDecode noon longNameCreate emptyState)) = [].
Proof.
  destruct (rejected_create_keeps_upload identityDecode noon longNameCreate emptyState
              "POST /api/birds" (mkFile "o.png" 100)
              eq_refl eq_refl eq_refl eq_refl eq_refl
              ltac:(vm_compute; discriminate)
              ltac:(left; vm_compute; reflexivity))
    as [_ [H1 [_ H2]]].
  split; [exact H2 | exact H1].
Defined.

Lemma restart_reproduces_store_witness :
  birds (initData (set_birds []
           (snd (serve identityDecode
                   [(noon, putRequest); (at_ 2000, createRequest "10.0.0.2" "Wren")]
                   (initData sampleStore)))))
  = birds (snd (serve identityDecode
                  [(noon, putRequest); (at_ 2000, createRequest "10.0.0.2" "Wren")]
                  (initData sampleStore))).
Proof.
  assert (Hsafe : safeIds sampleBirds) by (repeat constructor; cbn; lia).
  assert (Hclk : Forall (fun cr : Clock * Request => safeInteger (createNow (fst cr)))
                   [(noon, putRequest); (at_ 2000, createRequest "10.0.0.2" "Wren")])
    by (repeat constructor; cbn; lia).
  exact (proj2 (proj2 (restart_reproduces_store identityDecode sampleStore
                         [(noon, putRequest); (at_ 2000, createRequest "10.0.0.2" "Wren")]
                         sampleBirds [] (or_intror eq_refl) Hsafe Hclk))).
Defined.

Lemma successful_mutation_writes_store_witness :
  loadedBirds (dataFile (snd (app identityDecode noon deleteRequest sampleStore)))
  = birds (snd (app identityDecode noon deleteRequest sampleStore)).
Proof.
  exact (proj2 (successful_mutation_writes_store identityDecode noon deleteRequest
                  sampleStore
                  (mkResponse 200 (B_deleted "Bird deleted successfully"
                                             "DELETE /api/birds/2"))
                  eq_refl eq_refl (or_introl eq_refl))).
Defined.

Lemma newest_first_preserved_witness :
  newestFirst (birds (snd (app identityDecode noon (createRequest "10.0.0.1" "Wren")
                               sampleStore))).
Proof.
  refine (proj1 (newest_first_preserved identityDecode noon
                   (createRequest "10.0.0.1" "Wren") sampleStore _ _)).
  - repeat constructor; cbn; lia.
  - intros _. repeat constructor; cbn; lia.
Defined.

Lemma quota_never_exceeded_witness :
  quotaRespected 10 (ipOperations (snd (serve identityDecode nineRequests emptyState))).
Proof.
  refine (quota_never_exceeded identityDecode nineRequests emptyState 1 10 _ _ _).
  - repeat constructor; cbn; lia.
  - intros ip. cbn. lia.
  - cbn. lia.
Defined.

Lemma passing_request_prunes_all_addresses_witness :
  Forall (fun op => 1000 - DAY_MS < op_timestamp op)
    (ipOperations (snd (app identityDecode noon deleteRequest sampleStore))).
Proof.
  exact (proj1 (passing_request_prunes_all_addresses identityDecode noon deleteRequest
                  sampleStore eq_refl eq_refl)).
Defined.

Lemma remaining_header_counts_down_witness :
  operationRateLimiter noon deleteRequest emptyState =
    (Next 7, set_ipOperations [mkIpOp "10.0.0.1" 1000 DELETE "/api/birds/2"] emptyState) /\
  0 <= 7 <= 7.
Proof.
  assert (H : operationRateLimiter noon deleteRequest emptyState =
              (Next 7, set_ipOperations [mkIpOp "10.0.0.1" 1000 DELETE "/api/birds/2"]
                         emptyState)) by reflexivity.
  split; [exact H|].
  exact (proj1 (remaining_header_counts_down noon deleteRequest emptyState _ 7 H)).
Defined.

Lemma answer_echoes_logged_description_witness :
  exists d,
    operationDescOf identityDecode deleteRequest = Some d /\
    body_operation (B_deleted "Bird deleted successfully" "DELETE /api/birds/2") = Some d.
Proof.
  destruct (answer_echoes_logged_description identityDecode noon deleteRequest sampleStore
              (mkResponse 200 (B_deleted "Bird deleted successfully"
                                         "DELETE /api/birds/2"))
              eq_refl eq_refl (or_introl eq_refl) eq_refl)
    as [d [H1 [H2 _]]].
  exists d. split; assumption.
Defined.

Lemma log_holds_thirty_days_witness :
  logOperationLocal summerZone identityDecode (at_ (35 * DAY_MS)) deleteRequest monthOldLog =
    (Next "DELETE /api/birds/2",
     set_operationLog
       [mkLogEntry (35 * DAY_MS) "10.0.0.1" "DELETE /api/birds/2" DELETE "/api/birds/2" None]
       monthOldLog) /\
  setDateThirtyBack summerZone (35 * DAY_MS) = 5 * DAY_MS + HOUR_MS /\
  Forall (fun e => setDateThirtyBack summerZone (35 * DAY_MS) < log_timestamp e)
    [mkLogEntry (35 * DAY_MS) "10.0.0.1" "DELETE /api/birds/2" DELETE "/api/birds/2" None].
Proof.
  assert (H : logOperationLocal summerZone identityDecode (at_ (35 * DAY_MS))
                deleteRequest monthOldLog =
              (Next "DELETE /api/birds/2",
               set_operationLog
                 [mkLogEntry (35 * DAY_MS) "10.0.0.1" "DELETE /api/birds/2" DELETE
                             "/api/birds/2" None] monthOldLog)) by reflexivity.
  split; [exact H|]. split; [reflexivity|].
  exact (proj1 (proj2 (log_holds_thirty_days identityDecode summerZone
                         (at_ (35 * DAY_MS)) deleteRequest monthOldLog _
                         "DELETE /api/birds/2" H))).
Defined.

Lemma get_by_id_finds_first_witness :
  exists pre b post,
    sampleBirds = (pre ++ b :: post)%list /\ id b = 2 /\
    get_bird "2px" sampleBirds = mkResponse 200 (B_bird b).
Proof.
  assert (Hsafe : safeIds sampleBirds)
    by (repeat constructor; cbn; lia).
  destruct (proj1 (get_by_id_finds_first "2px" sampleBirds Hsafe) 2 eq_refl
              ltac:(right; left; reflexivity))
    as [pre [b [post [H1 [H2 [_ H3]]]]]].
  exists pre, b, post. repeat split; assumption.
Defined.

Lemma pages_cover_the_list_witness :
  List.concat (map (fun k => body_birds (pageAnswer k (Some "r") sampleBirds)) (seq 1 1))
  = filter (matchesSearch "r") sampleBirds.
Proof.
  exact (proj1 (proj2 (pages_cover_the_list 1 (Some "r") sampleBirds))
           (le_n 1) eq_refl).
Defined.

Lemma api_answers_from_cache_witness :
  fst (onFetch swOrigin onlineNetwork
         (pageRequest "https://birds.example/api/birds" "/api/birds" "*/*") apiStorage)
  = Answer (mkSwResponse true "[]") /\
  cacheMatch "https://birds.example/api/birds"
    (storageGet API_CACHE_NAME
       (snd (onFetch swOrigin onlineNetwork
               (pageRequest "https://birds.example/api/birds" "/api/birds" "*/*")
               apiStorage)))
  = Some (mkSwResponse false "429").
Proof.
  destruct (api_answers_from_cache swOrigin onlineNetwork
              (pageRequest "https://birds.example/api/birds" "/api/birds" "*/*")
              apiStorage (mkSwResponse true "[]") (conj eq_refl eq_refl) eq_refl)
    as [H1 [H2 _]].
  split; [exact H1 | exact H2].
Defined.

Lemma api_miss_goes_to_network_witness :
  fst (onFetch swOrigin onlineNetwork
         (pageRequest "https://birds.example/api/birds" "/api/birds" "*/*") [])
  = Answer (mkSwResponse false "429") /\
  cacheMatch "https://birds.example/api/birds"
    (storageGet API_CACHE_NAME
       (snd (onFetch swOrigin onlineNetwork
               (pageRequest "https://birds.example/api/birds" "/api/birds" "*/*") [])))
  = None.
Proof.
  exact (api_miss_goes_to_network swOrigin onlineNetwork
           (pageRequest "https://birds.example/api/birds" "/api/birds" "*/*") []
           (conj eq_refl eq_refl) eq_refl).
Defined.

Lemma navigation_is_network_first_witness :
  fst (onFetch swOrigin onlineNetwork
         (pageRequest "https://birds.example/index.html" "/index.html" "text/html")
         [(CACHE_NAME, [("https://birds.example/index.html", mkSwResponse true "old")])])
  = Answer indexResponse.
Proof.
  exact (navigation_is_network_first swOrigin onlineNetwork
           (pageRequest "https://birds.example/index.html" "/index.html" "text/html")
           [(CACHE_NAME, [("https://birds.example/index.html", mkSwResponse true "old")])]
           "text/html" (conj eq_refl eq_refl) eq_refl eq_refl).
Defined.

Lemma offline_navigation_after_install_witness :
  fst (onFetch swOrigin offlineNetwork
         (pageRequest "https://birds.example/about" "/about" "text/html,*/*")
         (onInstall swOrigin onlineNetwork []))
  = Answer indexResponse.
Proof.
  exact (f_equal fst
           (offline_navigation_after_install swOrigin onlineNetwork offlineNetwork
              (pageRequest "https://birds.example/about" "/about" "text/html,*/*")
              [] indexResponse "text/html,*/*"
              eq_refl eq_refl eq_refl (conj eq_refl eq_refl) eq_refl eq_refl eq_refl)).
Defined.

Lemma static_asset_survives_offline_witness :
  fst (onFetch swOrigin offlineNetwork
         (pageRequest "https://birds.example/app.css" "/app.css" "text/css")
         (snd (onFetch swOrigin onlineNetwork
                 (pageRequest "https://birds.example/app.css" "/app.css" "text/css") [])))
  = Answer (mkSwResponse true "body{}").
Proof.
  exact (f_equal fst
           (proj2 (static_asset_survives_offline swOrigin onlineNetwork offlineNetwork
                     (pageRequest "https://birds.example/app.css" "/app.css" "text/css")
                     [] (mkSwResponse true "body{}") "text/css"
                     (conj eq_refl eq_refl) eq_refl eq_refl eq_refl eq_refl eq_refl
                     eq_refl))).
Defined.

Lemma static_cache_holds_ok_responses_witness :
  staticCacheOk (onInstall swOrigin onlineNetwork []).
Proof.
  exact (proj1 (static_cache_holds_ok_responses swOrigin onlineNetwork
                  (pageRequest "https://birds.example/app.css" "/app.css" "text/css")
                  [] (Forall_nil _))).
Defined.
